(** * SimpLLM: the routing core of the extension, embedded and verified

    The development follows the three source files of the extension:
    - [models.ts]   : the model catalog, task types and default routing;
    - [feedback.ts] : the capped feedback log;
    - the extension entry file: classifier, policy check, routing, the chat
      handler with its session accounting, and the [stats] / [budget]
      commands.

    JavaScript values are represented as the code has them:
    - a string that carries user or model text is the list of its UTF-16
      code units ([text]); identifiers that the source writes as ASCII
      literals (model ids, families, setting values) are [string]s;
    - a [number] is an element of a [JsNumber] structure.  The instance
      [js_double] is IEEE-754 binary64 (what the engine computes with); the
      instance [exact_rational] is used to separate what holds of the
      algorithm from what rounding does to it;
    - mutable module-level variables are the fields of one [Machine] record;
      the handler is written in a state-and-exception monad over it;
    - the VS Code services (model selection, model requests, clock and
      request ids) are answers of a [World], indexed by the number of
      external calls made so far. *)

From Stdlib Require Import ZArith List String Ascii Bool Lia Permutation.
From Stdlib Require Import QArith Qround Qcanon.
From Stdlib Require Import FloatClass SpecFloat PrimFloat FloatOps FloatAxioms Uint63.
Import ListNotations.


Local Open Scope string_scope.
Local Open Scope list_scope.

(* ================================================================== *)
(** ** JavaScript text *)
(* ================================================================== *)

Module JsText.

(** A JavaScript string: the sequence of its UTF-16 code units. *)
Definition text := list N.

(** An ASCII literal of the source as text. *)
Definition txt (s : string) : text := map N_of_ascii (list_ascii_of_string s).

Fixpoint text_eqb (a b : text) : bool :=
  match a, b with
  | [], [] => true
  | x :: a', y :: b' => N.eqb x y && text_eqb a' b'
  | _, _ => false
  end.

(** [s.startsWith(p)] *)
Fixpoint startsWith (p s : text) : bool :=
  match p, s with
  | [], _ => true
  | _ :: _, [] => false
  | x :: p', y :: s' => N.eqb x y && startsWith p' s'
  end.

(** [s.includes(p)]: [p] occurs in [s] as a contiguous run of code units. *)
Fixpoint includes (p s : text) : bool :=
  startsWith p s ||
  match s with
  | [] => false
  | _ :: s' => includes p s'
  end.

(** [/a1|a2|...|an/.test(s)] for a regular expression that is an alternation
    of literals: some alternative occurs in [s]. *)
Definition regex_test (alternatives : list text) (s : text) : bool :=
  existsb (fun a => includes a s) alternatives.

(** The characters matched by [\s] (WhiteSpace and LineTerminator). *)
Definition is_space (c : N) : bool :=
  ((9 <=? c) && (c <=? 13) || (c =? 32) || (c =? 160) || (c =? 5760)
   || (8192 <=? c) && (c <=? 8202) || (c =? 8232) || (c =? 8233)
   || (c =? 8239) || (c =? 8287) || (c =? 12288) || (c =? 65279))%N.

(** Canonicalisation of a code unit under the [i] flag (no [u] flag): the
    upper-case mapping, except that a non-ASCII unit never folds onto an
    ASCII one.  Against the ASCII pattern [TASK:] only the ASCII letters
    matter, so the mapping is written for them. *)
Definition fold_ascii (c : N) : N :=
  if ((97 <=? c) && (c <=? 122))%N then (c - 32)%N else c.

Fixpoint startsWith_ci (p s : text) : bool :=
  match p, s with
  | [], _ => true
  | _ :: _, [] => false
  | x :: p', y :: s' => N.eqb (fold_ascii x) (fold_ascii y) && startsWith_ci p' s'
  end.

(** The longest prefix of [s] made of non-space units, [\S*]. *)
Fixpoint take_nonspace (s : text) : text :=
  match s with
  | [] => []
  | c :: s' => if is_space c then [] else c :: take_nonspace s'
  end.

(** [s.match(/TASK:(\S+)/i)]: capture group 1 of the leftmost match, if any.
    A match starts at the first position where [TASK:] (any letter case) is
    followed by at least one non-space unit; the group is greedy. *)
Fixpoint match_TASK (s : text) : option text :=
  match s with
  | [] => None
  | _ :: s' =>
      if startsWith_ci (txt "TASK:") s then
        match take_nonspace (skipn 5 s) with
        | [] => match_TASK s'
        | label => Some label
        end
      else match_TASK s'
  end.

(** [\w] *)
Definition is_word (c : N) : bool :=
  ((48 <=? c) && (c <=? 57) || (65 <=? c) && (c <=? 90)
   || (97 <=? c) && (c <=? 122) || (c =? 95))%N.

(** The longest prefix made of word characters, dots and hyphens. *)
Fixpoint take_alias (s : text) : text :=
  match s with
  | [] => []
  | c :: s' =>
      if is_word c || (c =? 46)%N || (c =? 45)%N then c :: take_alias s' else []
  end.

(** The alias scan of the prompt: an at-sign, one word character, then any
    run of word characters, dots and hyphens.  The result is capture group 1
    of the leftmost match; the whole match is the at-sign followed by it. *)
Fixpoint match_force (s : text) : option text :=
  match s with
  | [] => None
  | c :: s' =>
      match s' with
      | w :: rest =>
          if (c =? 64)%N && is_word w then Some (w :: take_alias rest)
          else match_force s'
      | [] => None
      end
  end.

(** [s.replace(p, '')] for a string pattern: the first occurrence of [p]
    is removed. *)
Fixpoint remove_first (p s : text) : text :=
  if startsWith p s then skipn (List.length p) s
  else match s with
       | [] => []
       | c :: s' => c :: remove_first p s'
       end.

(** [s.replace(/-/g, '')] *)
Definition remove_hyphens (s : text) : text :=
  filter (fun c => negb (c =? 45)%N) s.

Fixpoint trimStart (s : text) : text :=
  match s with
  | [] => []
  | c :: s' => if is_space c then trimStart s' else s
  end.

(** [s.trim()] *)
Definition trim (s : text) : text := rev (trimStart (rev (trimStart s))).

End JsText.
Export JsText.

(** [String.prototype.toLowerCase] follows the Unicode case tables, which
    are not part of the extension: it is a parameter of the development. *)
Class CaseMapping : Type := { toLowerCase : text -> text }.

(** The mapping on ASCII letters, which is what [toLowerCase] does to a text
    without cased letters outside ASCII. *)
Definition ascii_lower (c : N) : N :=
  if ((65 <=? c) && (c <=? 90))%N then (c + 32)%N else c.

Definition ascii_case : CaseMapping := {| toLowerCase := map ascii_lower |}.

(* ================================================================== *)
(** ** JavaScript numbers *)
(* ================================================================== *)

(** The operations of [number] that the extension uses. *)
Class JsNumber (num : Type) : Type := {
  nlit : Z -> Z -> num;          (* the decimal literal n/d, e.g. 0.33 = 33/100 *)
  nadd : num -> num -> num;      (* a + b *)
  nsub : num -> num -> num;      (* a - b *)
  nmul : num -> num -> num;      (* a * b *)
  ndiv : num -> num -> num;      (* a / b *)
  nlt : num -> num -> bool;      (* a < b *)
  nle : num -> num -> bool;      (* a <= b *)
  nmin : num -> num -> num;      (* Math.min(a, b) *)
  nmax : num -> num -> num;      (* Math.max(a, b) *)
  nround : num -> num;           (* Math.round(a) *)
  nrepeat : num -> option nat;   (* the count of s.repeat(a); None: RangeError *)
  nfalsy : num -> bool           (* !a : a is 0, -0 or NaN *)
}.

Definition nint {num} `{JsNumber num} (z : Z) : num := nlit z 1.
Definition nzero {num} `{JsNumber num} : num := nint 0.
Definition nlength {num} `{JsNumber num} {A} (l : list A) : num :=
  nint (Z.of_nat (List.length l)).

(** [x || 0] for a property that may be absent. *)
Definition or_zero {num} `{JsNumber num} (o : option num) : num :=
  match o with
  | Some x => if nfalsy x then nzero else x
  | None => nzero
  end.

(** The longest string of the engine that runs the extension host (V8 on a
    64-bit platform: 2^29 - 24 code units).  Building a longer one is a
    RangeError. *)
Definition max_string_length : Z := 536870888.

Module Double.

(** An integer as a double (exact below 2^53, which covers every literal
    of the source and every string length). *)
Definition of_Z (z : Z) : float :=
  if (z <? 0)%Z then PrimFloat.opp (PrimFloat.of_uint63 (Uint63.of_Z (- z)))
  else PrimFloat.of_uint63 (Uint63.of_Z z).

(** A decimal literal denotes the double nearest to it; the quotient of two
    exactly represented integers is that double (division rounds correctly). *)
Definition lit (n d : Z) : float := PrimFloat.div (of_Z n) (of_Z d).

Definition is_neg_zero (x : float) : bool :=
  match PrimFloat.classify x with
  | NZero => true
  | _ => false
  end.

Definition min (a b : float) : float :=
  if PrimFloat.is_nan a || PrimFloat.is_nan b then PrimFloat.nan
  else if PrimFloat.ltb a b then a
  else if PrimFloat.ltb b a then b
  else if is_neg_zero a then a else b.

Definition max (a b : float) : float :=
  if PrimFloat.is_nan a || PrimFloat.is_nan b then PrimFloat.nan
  else if PrimFloat.ltb a b then b
  else if PrimFloat.ltb b a then a
  else if is_neg_zero a then b else a.

Definition falsy (x : float) : bool :=
  PrimFloat.is_nan x || PrimFloat.is_zero x.

(** [Math.round]: the nearest integer, ties towards plus infinity; zeros,
    infinities and NaN are returned as they are, and a negative argument
    that rounds to zero gives minus zero. *)
Definition round (x : float) : float :=
  match Prim2SF x with
  | S754_finite s m e =>
      if (0 <=? e)%Z then x
      else
        let v := if s then Z.neg m else Z.pos m in
        let r := ((2 * v + 2 ^ (- e)) / 2 ^ (1 - e))%Z in
        if (r =? 0)%Z then (if s then PrimFloat.opp PrimFloat.zero else PrimFloat.zero)
        else of_Z r
  | _ => x
  end.

(** The count argument of [String.prototype.repeat] for a string of one
    code unit: truncated towards zero (NaN counts as 0); a negative or
    infinite count is a RangeError, and so is a count beyond the longest
    string of the engine ([max_string_length]). *)
Definition repeat_count (x : float) : option nat :=
  match Prim2SF x with
  | S754_zero _ => Some 0%nat
  | S754_nan => Some 0%nat
  | S754_infinity _ => None
  | S754_finite s m e =>
      let t := if (0 <=? e)%Z then (Z.pos m * 2 ^ e)%Z else (Z.pos m / 2 ^ (- e))%Z in
      if s && (0 <? t)%Z then None
      else if (max_string_length <? t)%Z then None
      else Some (Z.to_nat t)
  end.

End Double.

#[export] Instance js_double : JsNumber float := {
  nlit := Double.lit;
  nadd := PrimFloat.add;
  nsub := PrimFloat.sub;
  nmul := PrimFloat.mul;
  ndiv := PrimFloat.div;
  nlt := PrimFloat.ltb;
  nle := PrimFloat.leb;
  nmin := Double.min;
  nmax := Double.max;
  nround := Double.round;
  nrepeat := Double.repeat_count;
  nfalsy := Double.falsy
}.

Module Exact.

Definition lit (n d : Z) : Qc := Q2Qc (n # Z.to_pos d).
Definition lt (a b : Qc) : bool := if Qclt_le_dec a b then true else false.
Definition le (a b : Qc) : bool := if Qclt_le_dec b a then false else true.
Definition min (a b : Qc) : Qc := if lt b a then b else a.
Definition max (a b : Qc) : Qc := if lt a b then b else a.
Definition falsy (x : Qc) : bool := if Qc_eq_dec x (Q2Qc 0) then true else false.
Definition round (x : Qc) : Qc := Q2Qc (inject_Z (Qfloor (x + Q2Qc (1 # 2))%Qc)).
Definition repeat_count (x : Qc) : option nat :=
  if lt x (Q2Qc 0) then
    (if (Qfloor (- x)%Qc =? 0)%Z then Some 0%nat else None)
  else if (max_string_length <? Qfloor x)%Z then None
  else Some (Z.to_nat (Qfloor x)).

End Exact.

(** Numbers without rounding: the rationals. *)
#[export] Instance exact_rational : JsNumber Qc := {
  nlit := Exact.lit;
  nadd := Qcplus;
  nsub := Qcminus;
  nmul := Qcmult;
  ndiv := Qcdiv;
  nlt := Exact.lt;
  nle := Exact.le;
  nmin := Exact.min;
  nmax := Exact.max;
  nround := Exact.round;
  nrepeat := Exact.repeat_count;
  nfalsy := Exact.falsy
}.

(** What "the additions are exact" means for the accounting. *)
Class ExactAddition (num : Type) `{JsNumber num} : Prop := {
  nadd_assoc : forall a b c : num, nadd a (nadd b c) = nadd (nadd a b) c;
  nadd_comm : forall a b : num, nadd a b = nadd b a;
  nadd_zero_l : forall a : num, nadd nzero a = a;
  nfalsy_zero : forall a : num, nfalsy a = true -> a = nzero
}.


(* ================================================================== *)
(** ** models.ts: the catalog *)
(* ================================================================== *)

Inductive CreditTier : Type := free | cheap | standard | premium.

(** The string that a tier is in the source. *)
Definition tier_name (t : CreditTier) : string :=
  match t with
  | free => "free"
  | cheap => "cheap"
  | standard => "standard"
  | premium => "premium"
  end.

Inductive TaskType : Type :=
  | autocomplete | simple | function | algorithm | test | debug | refactor
  | architecture | security | documentation | conversion | review
  | long_context.

(** The string that a task type is in the source. *)
Definition task_name (t : TaskType) : string :=
  match t with
  | autocomplete => "autocomplete"
  | simple => "simple"
  | function => "function"
  | algorithm => "algorithm"
  | test => "test"
  | debug => "debug"
  | refactor => "refactor"
  | architecture => "architecture"
  | security => "security"
  | documentation => "documentation"
  | conversion => "conversion"
  | review => "review"
  | long_context => "long-context"
  end.

(** All valid task types *)
Definition TASK_TYPES_LIST : list TaskType :=
  [autocomplete; simple; function; algorithm; test; debug;
   refactor; architecture; security; documentation; conversion; review;
   long_context].

(** Default routing (can be overridden by admin config) *)
Definition DEFAULT_TASK_ROUTING (t : TaskType) : string :=
  match t with
  | autocomplete => "gpt-4o"
  | simple => "gpt-4o"
  | function => "gpt-4o"
  | algorithm => "claude-sonnet-4.5"
  | test => "claude-sonnet-4.5"
  | debug => "gpt-4o"
  | refactor => "claude-sonnet-4"
  | architecture => "claude-opus-4.5"
  | security => "claude-opus-4.5"
  | documentation => "gpt-4o"
  | conversion => "gpt-4o"
  | review => "claude-sonnet-4.5"
  | long_context => "gemini-2.5-pro"
  end.

Section Catalog.
Context {num : Type} {NUM : JsNumber num}.

Record Capabilities : Type := {
  codeGeneration : num;
  reasoning : num;
  speed : num;
  contextWindow : num
}.

Record ModelDefinition : Type := {
  id : string;
  family : string;
  name : string;
  creditMultiplier : num;
  creditTier : CreditTier;
  isPreview : bool;
  capabilities : Capabilities;
  bestFor : list string
}.

Definition caps (cg rs sp cw : Z) : Capabilities :=
  {| codeGeneration := nint cg; reasoning := nint rs; speed := nint sp;
     contextWindow := nint cw |}.

Definition x0 : num := nint 0.
Definition x033 : num := nlit 33 100.
Definition x1 : num := nint 1.
Definition x3 : num := nint 3.

Definition MODELS : list ModelDefinition := [
  (* 0x credit (free) *)
  {| id := "gpt-4.1"; family := "gpt-4.1"; name := "GPT-4.1";
     creditMultiplier := x0; creditTier := free; isPreview := false;
     capabilities := caps 8 7 7 128;
     bestFor := ["general"; "debugging"; "functions"] |};
  {| id := "gpt-4o"; family := "gpt-4o"; name := "GPT-4o";
     creditMultiplier := x0; creditTier := free; isPreview := false;
     capabilities := caps 8 8 8 128;
     bestFor := ["general"; "multimodal"; "debugging"; "documentation"] |};
  {| id := "gpt-5-mini"; family := "gpt-5-mini"; name := "GPT-5 Mini";
     creditMultiplier := x0; creditTier := free; isPreview := false;
     capabilities := caps 7 6 9 32;
     bestFor := ["simple-tasks"; "quick-questions"; "explanations"] |};
  (* 0.33x credit *)
  {| id := "claude-haiku-4.5"; family := "claude-3.5-haiku"; name := "Claude Haiku 4.5";
     creditMultiplier := x033; creditTier := cheap; isPreview := false;
     capabilities := caps 7 6 9 32;
     bestFor := ["quick-edits"; "comments"; "simple-refactoring"] |};
  {| id := "gemini-3-flash"; family := "gemini-flash"; name := "Gemini 3 Flash";
     creditMultiplier := x033; creditTier := cheap; isPreview := true;
     capabilities := caps 7 6 10 128;
     bestFor := ["quick-tasks"; "formatting"] |};
  {| id := "gpt-5.1-codex-mini"; family := "gpt-5.1-codex-mini"; name := "GPT-5.1-Codex-Mini";
     creditMultiplier := x033; creditTier := cheap; isPreview := true;
     capabilities := caps 8 5 10 16;
     bestFor := ["autocomplete"; "inline-suggestions"] |};
  (* 1x credit *)
  {| id := "claude-sonnet-4"; family := "claude-sonnet-4"; name := "Claude Sonnet 4";
     creditMultiplier := x1; creditTier := standard; isPreview := false;
     capabilities := caps 9 8 6 200;
     bestFor := ["code-quality"; "design-patterns"; "refactoring"] |};
  {| id := "claude-sonnet-4.5"; family := "claude-3.5-sonnet"; name := "Claude Sonnet 4.5";
     creditMultiplier := x1; creditTier := standard; isPreview := false;
     capabilities := caps 9 9 6 200;
     bestFor := ["tests"; "complex-algorithms"; "code-review"] |};
  {| id := "gemini-2.5-pro"; family := "gemini-2.5-pro"; name := "Gemini 2.5 Pro";
     creditMultiplier := x1; creditTier := standard; isPreview := false;
     capabilities := caps 8 8 5 1000;
     bestFor := ["long-context"; "codebase-analysis"; "multi-file"] |};
  {| id := "gemini-3-pro"; family := "gemini-3-pro"; name := "Gemini 3 Pro";
     creditMultiplier := x1; creditTier := standard; isPreview := true;
     capabilities := caps 8 8 6 128;
     bestFor := ["modern-frameworks"; "multimodal"] |};
  {| id := "gpt-5"; family := "gpt-5"; name := "GPT-5";
     creditMultiplier := x1; creditTier := standard; isPreview := false;
     capabilities := caps 9 9 6 128;
     bestFor := ["complex-reasoning"; "system-design"] |};
  {| id := "gpt-5-codex"; family := "gpt-5-codex"; name := "GPT-5-Codex";
     creditMultiplier := x1; creditTier := standard; isPreview := true;
     capabilities := caps 9 8 7 64;
     bestFor := ["code-generation"; "completions"] |};
  {| id := "gpt-5.1"; family := "gpt-5.1"; name := "GPT-5.1";
     creditMultiplier := x1; creditTier := standard; isPreview := false;
     capabilities := caps 9 9 6 128;
     bestFor := ["complex-tasks"; "debugging"] |};
  {| id := "gpt-5.1-codex"; family := "gpt-5.1-codex"; name := "GPT-5.1-Codex";
     creditMultiplier := x1; creditTier := standard; isPreview := false;
     capabilities := caps 9 8 7 64;
     bestFor := ["code-generation"; "refactoring"] |};
  {| id := "gpt-5.1-codex-max"; family := "gpt-5.1-codex-max"; name := "GPT-5.1-Codex-Max";
     creditMultiplier := x1; creditTier := standard; isPreview := false;
     capabilities := caps 10 9 5 128;
     bestFor := ["complex-code"; "large-refactoring"] |};
  {| id := "gpt-5.2"; family := "gpt-5.2"; name := "GPT-5.2";
     creditMultiplier := x1; creditTier := standard; isPreview := false;
     capabilities := caps 9 9 6 128;
     bestFor := ["latest-features"; "complex-reasoning"] |};
  {| id := "gpt-5.2-codex"; family := "gpt-5.2-codex"; name := "GPT-5.2-Codex";
     creditMultiplier := x1; creditTier := standard; isPreview := false;
     capabilities := caps 10 9 6 128;
     bestFor := ["code-generation"; "latest-patterns"] |};
  (* 3x credit *)
  {| id := "claude-opus-4.5"; family := "claude-opus"; name := "Claude Opus 4.5";
     creditMultiplier := x3; creditTier := premium; isPreview := false;
     capabilities := caps 10 10 4 200;
     bestFor := ["architecture"; "security-audit"; "critical-systems";
                 "legacy-modernization"] |}
].

(** [MODELS.find(m => m.id === id)] *)
Definition getModel (i : string) : option ModelDefinition :=
  find (fun m => String.eqb (id m) i) MODELS.

(** [MODELS.filter(m => m.creditTier === tier)] *)
Definition getModelsByTier (tier : CreditTier) : list ModelDefinition :=
  filter (fun m => String.eqb (tier_name (creditTier m)) (tier_name tier)) MODELS.

End Catalog.

Arguments Capabilities num : clear implicits.
Arguments ModelDefinition num : clear implicits.

(* ================================================================== *)
(** ** The VS Code services the extension calls *)
(* ================================================================== *)

Module Vscode.

(** A chat backend, [vscode.LanguageModelChat]. *)
Record LanguageModelChat : Type := {
  name : string;
  family : string
}.

(** [vscode.lm.selectChatModels(selector)]: rejected, or a list. *)
Inductive SelectResult : Type :=
  | SelectFails
  | SelectReturns (models : list LanguageModelChat).

Inductive Role : Type := User | Assistant.

Definition LanguageModelChatMessage : Type := (Role * text)%type.

(** How reading the response of [sendRequest] ends: the stream is drained,
    or the call or the stream raises (a cancellation is such an error). *)
Inductive StreamEnd : Type :=
  | StreamDone
  | StreamLanguageModelError (message : text)
  | StreamOtherError.

Record SendResult : Type := {
  chunks : list text;
  ending : StreamEnd
}.

(** One turn of [context.history]; a response turn is given by its parts,
    [Some v] for a markdown part with value [v]. *)
Inductive ChatTurn : Type :=
  | ChatRequestTurn (prompt : text)
  | ChatResponseTurn (response : list (option text))
  | OtherTurn.

(** The answers of the outside world.  The first argument is the number of
    external calls the extension has made before this one, so that two
    calls with the same arguments may be answered differently. *)
Record World : Type := {
  selectChatModels : nat -> option string -> SelectResult;
  sendRequest : nat -> LanguageModelChat -> list LanguageModelChatMessage -> SendResult;
  requestIdAt : nat -> string;     (* Date.now() and Math.random() in generateRequestId *)
  isoTimeAt : nat -> string        (* new Date().toISOString() *)
}.

End Vscode.

(** An object used as a map from strings: its own properties in insertion
    order.  (The keys used here, model ids and task names, are not integer
    indices, so insertion order is the enumeration order.) *)
Definition Obj (V : Type) : Type := list (string * V).

Fixpoint obj_get {V} (k : string) (o : Obj V) : option V :=
  match o with
  | [] => None
  | (k', v) :: o' => if String.eqb k' k then Some v else obj_get k o'
  end.

Fixpoint obj_set {V} (k : string) (v : V) (o : Obj V) : Obj V :=
  match o with
  | [] => [(k, v)]
  | (k', v') :: o' =>
      if String.eqb k' k then (k, v) :: o' else (k', v') :: obj_set k v o'
  end.

(** [Object.values(o)] *)
Definition obj_values {V} (o : Obj V) : list V := map snd o.

Section Settings.
Context {num : Type} {NUM : JsNumber num}.

(** The [simpllm] section of the workspace configuration, as the typed
    getters return it (the defaults of the getters are in [default_config]). *)
Record Config : Type := {
  enabled : bool;
  classifierModel : string;
  blockedModels : list string;
  maxCreditTier : string;
  taskRouting : Obj string;
  monthlyBudget : num;
  showModelInfo : bool;
  collectFeedback : bool;
  feedbackEndpoint : string;
  teamId : string;
  departmentId : string
}.

Definition default_config : Config := {|
  enabled := true;
  classifierModel := "gpt-4o";
  blockedModels := [];
  maxCreditTier := "premium";
  taskRouting := [];
  monthlyBudget := nint 300;
  showModelInfo := true;
  collectFeedback := true;
  feedbackEndpoint := "";
  teamId := "";
  departmentId := ""
|}.

End Settings.

Arguments Config num : clear implicits.

(* ================================================================== *)
(** ** feedback.ts: feedback entries *)
(* ================================================================== *)

Module Feedback.

Inductive Rating : Type := positive | negative | override.

Section Entry.
Context {num : Type}.

Record FeedbackEntry : Type := {
  timestamp : string;
  requestId : string;
  selectedModel : string;
  taskType : string;
  rating : Rating;
  overriddenTo : option string;
  promptLength : option num;
  responseTime : option num
}.

(** The body posted to the admin endpoint. *)
Record Posted : Type := {
  entry : FeedbackEntry;
  postedTeamId : string;
  postedDepartmentId : string
}.

End Entry.

Arguments FeedbackEntry num : clear implicits.
Arguments Posted num : clear implicits.

End Feedback.

(* ================================================================== *)
(** ** Module state of the extension and the handler monad *)
(* ================================================================== *)

Section State.
Context {num : Type} {NUM : JsNumber num}.

Record TokenCount : Type := {
  input : num;
  output : num
}.

Record SessionStats : Type := {
  requestCount : num;
  tokenCount : TokenCount;
  creditsByModel : Obj num;
  taskTypes : Obj num;
  totalCreditsUsed : num
}.

(** Last request info for quick retry *)
Record LastRequest : Type := {
  prompt : text;
  requestId : string;
  modelId : string;
  taskType : TaskType
}.

Inductive Background : Type := NoBackground | WarningBackground | ErrorBackground.

(** The tooltip shows the model's name and multiplier, the credits used,
    the monthly budget, the used percentage and the number of requests. *)
Record Tooltip : Type := {
  tipModel : ModelDefinition num;
  tipCredits : num;
  tipBudget : num;
  tipPercent : num;
  tipRequests : num
}.

(** The status bar item; [sbPercent] is printed with [toFixed(0)]. *)
Record StatusBarItem : Type := {
  sbModel : option string;
  sbPercent : num;
  sbTooltip : option Tooltip;
  backgroundColor : Background
}.

Inductive Reason : Type :=
  | Manual (modelName : string)
  | Routed (t : TaskType) (modelName : string).

(** A used percentage as a report prints it. *)
Inductive PercentText : Type :=
  | Fixed1 (v : num)      (* v.toFixed(1) *)
  | Literal0.             (* the string '0' *)

(** What is written to the chat response stream. *)
Inductive Emit : Type :=
  | MdDisabled
  | Progress
  | MdRestricted (modelName : string)
  | MdNotAvailable (modelName : string)
  | MdRoutingInfo (backend : string) (credit : num) (reason : Reason)
  | MdChunk (chunk : text)
  | MdRule
  | ButtonFeedback (positive : bool) (rid : string) (model : string) (t : TaskType)
  | ButtonRetry (cleanPrompt : text)
  | MdBudgetAt (usedPercent : num)
  | ButtonRequestCredits
  | MdError (message : text)
  | MdStatsTable (requests credits : num) (used : PercentText)
      (budget inputTokens outputTokens : num)
  | MdModelRow (label : string) (credits : num)
  | MdTaskRow (label : string) (count : num)
  | MdBudgetReport (filled empty : nat) (usedPercent used remaining budget : num)
  | MdLowCredits.

(** The metadata of the [ChatResult] the handler returns. *)
Inductive ChatResult : Type :=
  | ResultError (error : string)
  | ResultCommand (command : string)
  | ResultDone (model : string) (t : TaskType) (credit : num) (rid : string).

(** The module-level variables of the two source files, the response
    stream of the request being handled, and the count of external calls. *)
Record Machine : Type := {
  sessionStats : SessionStats;
  statusBarItem : StatusBarItem;
  forceModelId : option string;
  lastRequest : option LastRequest;
  feedbackLog : list (Feedback.FeedbackEntry num);
  globalState : list (Feedback.FeedbackEntry num);
  posted : list (Feedback.Posted num);
  stream : list Emit;
  clock : nat
}.

Definition initial_stats : SessionStats := {|
  requestCount := nzero;
  tokenCount := {| input := nzero; output := nzero |};
  creditsByModel := [];
  taskTypes := [];
  totalCreditsUsed := nzero
|}.

Inductive Exn : Type :=
  | TypeError        (* a property of undefined is read *)
  | RangeError       (* String.prototype.repeat with an invalid count *)
  | Rethrown.        (* an error of a model request that the handler rethrows *)

Inductive Result (A : Type) : Type :=
  | Ok (a : A) (m : Machine)
  | Throw (e : Exn) (m : Machine).

Arguments Ok {A} a m.
Arguments Throw {A} e m.

Definition M (A : Type) : Type := Machine -> Result A.

Definition ret {A} (a : A) : M A := fun m => Ok a m.

Definition bind {A B} (c : M A) (k : A -> M B) : M B :=
  fun m =>
    match c m with
    | Ok a m' => k a m'
    | Throw e m' => Throw e m'
    end.

Definition throw {A} (e : Exn) : M A := fun m => Throw e m.

Definition get : M Machine := fun m => Ok m m.

Definition modify (f : Machine -> Machine) : M unit := fun m => Ok tt (f m).

End State.

Arguments SessionStats num : clear implicits.
Arguments TokenCount num : clear implicits.
Arguments Tooltip num : clear implicits.
Arguments StatusBarItem num : clear implicits.
Arguments PercentText num : clear implicits.
Arguments Emit num : clear implicits.
Arguments ChatResult num : clear implicits.
Arguments Machine num : clear implicits.
Arguments Result num A : clear implicits.
Arguments M num A : clear implicits.
Arguments Ok {num A} a m.
Arguments Throw {num A} e m.

Declare Scope js_scope.
Delimit Scope js_scope with js.
Notation "x <- c1 ;; c2" := (bind c1 (fun x => c2))
  (at level 61, c1 at next level, right associativity) : js_scope.
Notation "c1 ;; c2" := (bind c1 (fun _ => c2))
  (at level 61, right associativity) : js_scope.


Local Open Scope js_scope.

Section MachineOps.
Context {num : Type} {NUM : JsNumber num}.

Definition set_sessionStats (v : SessionStats num) (m : Machine num) : Machine num :=
  {| sessionStats := v; statusBarItem := statusBarItem m;
     forceModelId := forceModelId m; lastRequest := lastRequest m;
     feedbackLog := feedbackLog m; globalState := globalState m;
     posted := posted m; stream := stream m; clock := clock m |}.

Definition set_statusBarItem (v : StatusBarItem num) (m : Machine num) : Machine num :=
  {| sessionStats := sessionStats m; statusBarItem := v;
     forceModelId := forceModelId m; lastRequest := lastRequest m;
     feedbackLog := feedbackLog m; globalState := globalState m;
     posted := posted m; stream := stream m; clock := clock m |}.

Definition set_forceModelId (v : option string) (m : Machine num) : Machine num :=
  {| sessionStats := sessionStats m; statusBarItem := statusBarItem m;
     forceModelId := v; lastRequest := lastRequest m;
     feedbackLog := feedbackLog m; globalState := globalState m;
     posted := posted m; stream := stream m; clock := clock m |}.

Definition set_lastRequest (v : option LastRequest) (m : Machine num) : Machine num :=
  {| sessionStats := sessionStats m; statusBarItem := statusBarItem m;
     forceModelId := forceModelId m; lastRequest := v;
     feedbackLog := feedbackLog m; globalState := globalState m;
     posted := posted m; stream := stream m; clock := clock m |}.

Definition set_feedback (log stored : list (Feedback.FeedbackEntry num))
  (m : Machine num) : Machine num :=
  {| sessionStats := sessionStats m; statusBarItem := statusBarItem m;
     forceModelId := forceModelId m; lastRequest := lastRequest m;
     feedbackLog := log; globalState := stored;
     posted := posted m; stream := stream m; clock := clock m |}.

Definition set_posted (v : list (Feedback.Posted num)) (m : Machine num) : Machine num :=
  {| sessionStats := sessionStats m; statusBarItem := statusBarItem m;
     forceModelId := forceModelId m; lastRequest := lastRequest m;
     feedbackLog := feedbackLog m; globalState := globalState m;
     posted := v; stream := stream m; clock := clock m |}.

Definition set_stream (v : list (Emit num)) (m : Machine num) : Machine num :=
  {| sessionStats := sessionStats m; statusBarItem := statusBarItem m;
     forceModelId := forceModelId m; lastRequest := lastRequest m;
     feedbackLog := feedbackLog m; globalState := globalState m;
     posted := posted m; stream := v; clock := clock m |}.

Definition set_clock (v : nat) (m : Machine num) : Machine num :=
  {| sessionStats := sessionStats m; statusBarItem := statusBarItem m;
     forceModelId := forceModelId m; lastRequest := lastRequest m;
     feedbackLog := feedbackLog m; globalState := globalState m;
     posted := posted m; stream := stream m; clock := v |}.

(** Write to the response stream. *)
Definition emit (e : Emit num) : M num unit :=
  modify (fun m => set_stream (stream m ++ [e]) m).

(** An external call: its index among the external calls so far. *)
Definition tick : M num nat :=
  fun m => Ok (clock m) (set_clock (S (clock m)) m).

End MachineOps.

(* ================================================================== *)
(** ** feedback.ts: the feedback log *)
(* ================================================================== *)

Section FeedbackLog.
Context {num : Type} {NUM : JsNumber num}.
Variable cfg : Config num.
Variable W : Vscode.World.

(** [l.slice(-n)] for a positive [n] *)
Definition slice_last {A} (n : nat) (l : list A) : list A :=
  skipn (List.length l - n) l.

(** Initialize feedback system: the log is what the global state holds. *)
Definition initFeedback : M num unit :=
  modify (fun m => set_feedback (globalState m) (globalState m) m).

(** Generate unique request ID *)
Definition generateRequestId : M num string :=
  t <- tick ;; ret (Vscode.requestIdAt W t).

(** Persist to globalState; keep last 1000 entries *)
Definition persistFeedback : M num unit :=
  modify (fun m =>
    let log := feedbackLog m in
    let log' := if (1000 <? List.length log)%nat then slice_last 1000 log else log in
    set_feedback log' log' m).

(** Send feedback to configured endpoint (if set); a failure of the
    request is swallowed. *)
Definition sendToEndpoint (e : Feedback.FeedbackEntry num) : M num unit :=
  if String.eqb (feedbackEndpoint cfg) "" then ret tt
  else
    _ <- tick ;;
    modify (fun m =>
      set_posted (posted m ++ [{| Feedback.entry := e;
                                  Feedback.postedTeamId := teamId cfg;
                                  Feedback.postedDepartmentId := departmentId cfg |}]) m).

Definition push_entry (e : Feedback.FeedbackEntry num) : M num unit :=
  modify (fun m => set_feedback (feedbackLog m ++ [e]) (globalState m) m).

(** Record explicit feedback (thumbs up/down) *)
Definition recordFeedback (rid selected task : string) (thumbsUp : bool)
  (promptLen respTime : option num) : M num unit :=
  t <- tick ;;
  let e := {| Feedback.timestamp := Vscode.isoTimeAt W t;
              Feedback.requestId := rid;
              Feedback.selectedModel := selected;
              Feedback.taskType := task;
              Feedback.rating := if thumbsUp then Feedback.positive else Feedback.negative;
              Feedback.overriddenTo := None;
              Feedback.promptLength := promptLen;
              Feedback.responseTime := respTime |} in
  push_entry e ;;
  persistFeedback ;;
  sendToEndpoint e.

(** Record implicit feedback (model override) *)
Definition recordOverride (rid originalModel overridden task : string) : M num unit :=
  t <- tick ;;
  let e := {| Feedback.timestamp := Vscode.isoTimeAt W t;
              Feedback.requestId := rid;
              Feedback.selectedModel := originalModel;
              Feedback.taskType := task;
              Feedback.rating := Feedback.override;
              Feedback.overriddenTo := Some overridden;
              Feedback.promptLength := None;
              Feedback.responseTime := None |} in
  push_entry e ;;
  persistFeedback ;;
  sendToEndpoint e.

(** Clear all feedback data *)
Definition clearFeedback : M num unit :=
  modify (fun m => set_feedback [] [] m).

End FeedbackLog.

(* ================================================================== *)
(** ** The extension entry file: classification, policy and routing *)
(* ================================================================== *)

Section Router.
Context {num : Type} {NUM : JsNumber num} {CM : CaseMapping}.
Variable cfg : Config num.
Variable W : Vscode.World.

Definition CLASSIFIER_SYSTEM_PROMPT : text := txt
"You are a prompt classifier. Your ONLY job is to analyze the user's request and classify it.

RESPOND WITH EXACTLY ONE LINE in this format:
TASK:<type>

Where <type> is one of: autocomplete, simple, function, algorithm, test, debug, refactor, architecture, security, documentation, conversion, review, long-context

Classification rules:
- autocomplete: completing code, finishing snippets
- simple: typos, formatting, imports, simple questions
- function: writing functions, methods, classes
- algorithm: sorting, searching, data structures, complex logic
- test: unit tests, integration tests, test cases
- debug: finding bugs, fixing errors, troubleshooting
- refactor: restructuring code, design patterns, clean code
- architecture: system design, microservices, database design, scaling
- security: vulnerabilities, auth, encryption, security audit
- documentation: comments, README, API docs, explanations
- conversion: language conversion, migration, framework change
- review: code review, best practices, improvements
- long-context: large codebase analysis, multi-file operations

DO NOT answer the question. DO NOT write code. ONLY classify.
Example: TASK:debug".

(** The Turkish keywords with letters outside ASCII, by code unit. *)
Definition kw_guvenlik : text := txt "g" ++ [252%N] ++ txt "venlik".
Definition kw_acikla : text := txt "a" ++ [231%N; 305%N] ++ txt "kla".
Definition kw_donustur : text :=
  txt "d" ++ [246%N] ++ txt "n" ++ [252%N; 351%N] ++ txt "t" ++ [252%N] ++ txt "r".

(** The rules of the keyword classifier, in the order of the source. *)
Definition re_test : list text := map txt ["test"; "spec"; "jest"; "pytest"; "unit"; "mock"].
Definition re_debug : list text := map txt ["debug"; "hata"; "error"; "bug"; "fix"; "crash"].
Definition re_security : list text :=
  [txt "security"; kw_guvenlik; txt "vulnerability"; txt "xss"; txt "sql injection"].
Definition re_architecture : list text :=
  map txt ["architecture"; "mimari"; "design"; "microservice"; "scale"].
Definition re_refactor : list text :=
  map txt ["refactor"; "yeniden yaz"; "rewrite"; "clean"; "solid"].
Definition re_algorithm : list text :=
  map txt ["algorithm"; "algoritma"; "sort"; "search"; "recursive"].
Definition re_review : list text := map txt ["review"; "incele"; "check"; "best practice"].
Definition re_documentation : list text :=
  [txt "document"; txt "readme"; txt "jsdoc"; kw_acikla; txt "explain"].
Definition re_conversion : list text :=
  [txt "convert"; kw_donustur; txt "migrate"; txt "transform"].
Definition re_function : list text :=
  map txt ["fonksiyon"; "function"; "method"; "class"; "write"; "yaz"].
Definition re_simple : list text := map txt ["basit"; "simple"; "import"; "typo"; "renk"].
Definition re_autocomplete : list text := map txt ["tamamla"; "complete"; "finish"].

(** Keyword-based fallback classifier (no API call) *)
Definition fallbackClassify (prompt : text) : TaskType :=
  let p := toLowerCase prompt in
  if regex_test re_test p then test
  else if regex_test re_debug p then debug
  else if regex_test re_security p then security
  else if regex_test re_architecture p then architecture
  else if regex_test re_refactor p then refactor
  else if regex_test re_algorithm p then algorithm
  else if regex_test re_review p then review
  else if regex_test re_documentation p then documentation
  else if regex_test re_conversion p then conversion
  else if regex_test re_function p then function
  else if regex_test re_simple p then simple
  else if regex_test re_autocomplete p then autocomplete
  else function.

(** [TASK_TYPES_LIST.includes(label)], with the task type that the label
    then is. *)
Definition task_of_label (label : text) : option TaskType :=
  find (fun t => text_eqb (txt (task_name t)) label) TASK_TYPES_LIST.

(** The message sent to the classifier model. *)
Definition classifierMessages (prompt : text) : list Vscode.LanguageModelChatMessage :=
  [(Vscode.User,
    CLASSIFIER_SYSTEM_PROMPT ++ [10%N; 10%N]
    ++ txt "Classify this prompt:" ++ [10%N] ++ prompt)].

(** Two-pass classification using the classifier model.  Every failure of
    the external calls is caught and answered by the keyword classifier. *)
Definition classifyPrompt (prompt : text) : M num TaskType :=
  match getModel (classifierModel cfg) with
  | None => ret (fallbackClassify prompt)
  | Some classifierDef =>
      t <- tick ;;
      match Vscode.selectChatModels W t (Some (family classifierDef)) with
      | Vscode.SelectFails => ret (fallbackClassify prompt)
      | Vscode.SelectReturns [] => ret (fallbackClassify prompt)
      | Vscode.SelectReturns (classifier :: _) =>
          let messages := classifierMessages prompt in
          t' <- tick ;;
          let response := Vscode.sendRequest W t' classifier messages in
          match Vscode.ending response with
          | Vscode.StreamDone =>
              let result := List.concat (Vscode.chunks response) in
              match match_TASK result with
              | Some label =>
                  match task_of_label (toLowerCase label) with
                  | Some taskType => ret taskType
                  | None => ret (fallbackClassify prompt)
                  end
              | None => ret (fallbackClassify prompt)
              end
          | _ => ret (fallbackClassify prompt)
          end
      end
  end.

(** [l.indexOf(x)] *)
Fixpoint indexOf_from (x : string) (l : list string) (i : Z) : Z :=
  match l with
  | [] => (-1)%Z
  | y :: l' => if String.eqb y x then i else indexOf_from x l' (i + 1)%Z
  end.

Definition indexOf (x : string) (l : list string) : Z := indexOf_from x l 0%Z.

Definition tierOrder : list string := ["free"; "cheap"; "standard"; "premium"].

(** Check model against admin policy *)
Definition isModelAllowed (modelDef : ModelDefinition num) : bool :=
  if existsb (String.eqb (id modelDef)) (blockedModels cfg) then false
  else (indexOf (tier_name (creditTier modelDef)) tierOrder
        <=? indexOf (maxCreditTier cfg) tierOrder)%Z.

(** Get recommended model for task type (respecting admin overrides).
    The result is what the source returns, which its type asserts to be
    defined. *)
Definition getModelForTask (taskType : TaskType) : option (ModelDefinition num) :=
  let byDefault :=
    match getModel (DEFAULT_TASK_ROUTING taskType) with
    | Some model => if isModelAllowed model then Some model else getModel "gpt-4o"
    | None => getModel "gpt-4o"
    end in
  match obj_get (task_name taskType) (taskRouting cfg) with
  | Some custom =>
      if String.eqb custom "" then byDefault
      else
        match getModel custom with
        | Some model => if isModelAllowed model then Some model else byDefault
        | None => byDefault
        end
  | None => byDefault
  end.

(** The used percentage of the status bar. *)
Definition statusBarPercent (stats : SessionStats num) : num :=
  if nlt nzero (monthlyBudget cfg)
  then nmin (nint 100) (nmul (ndiv (totalCreditsUsed stats) (monthlyBudget cfg)) (nint 100))
  else nzero.

(** Update status bar with credit budget *)
Definition updateStatusBar (model : option (ModelDefinition num)) : M num unit :=
  modify (fun m =>
    let stats := sessionStats m in
    let usedPercent := statusBarPercent stats in
    let tip :=
      match model with
      | Some md => Some {| tipModel := md; tipCredits := totalCreditsUsed stats;
                           tipBudget := monthlyBudget cfg; tipPercent := usedPercent;
                           tipRequests := requestCount stats |}
      | None => sbTooltip (statusBarItem m)
      end in
    let bg :=
      if nle (nint 90) usedPercent then ErrorBackground
      else if nle (nint 70) usedPercent then WarningBackground
      else NoBackground in
    set_statusBarItem
      {| sbModel := option_map name model; sbPercent := usedPercent;
         sbTooltip := tip; backgroundColor := bg |} m).

(** The fallback chain of [selectCopilotModel]. *)
Fixpoint try_fallbacks (fallbacks : list string)
  (last : M num (option Vscode.LanguageModelChat)) : M num (option Vscode.LanguageModelChat) :=
  match fallbacks with
  | [] => last
  | fb :: rest =>
      match getModel fb with
      | Some fbDef =>
          t <- tick ;;
          match Vscode.selectChatModels W t (Some (family fbDef)) with
          | Vscode.SelectFails => ret None
          | Vscode.SelectReturns (b :: _) => ret (Some b)
          | Vscode.SelectReturns [] => try_fallbacks rest last
          end
      | None => try_fallbacks rest last
      end
  end.

(** Select the best Copilot model; an error of the selection is caught and
    gives [null]. *)
Definition selectCopilotModel (modelDef : ModelDefinition num)
  : M num (option Vscode.LanguageModelChat) :=
  t <- tick ;;
  match Vscode.selectChatModels W t (Some (family modelDef)) with
  | Vscode.SelectFails => ret None
  | Vscode.SelectReturns (b :: _) => ret (Some b)
  | Vscode.SelectReturns [] =>
      try_fallbacks ["gpt-4o"; "gpt-4.1"; "gpt-5-mini"]
        (t' <- tick ;;
         match Vscode.selectChatModels W t' None with
         | Vscode.SelectFails => ret None
         | Vscode.SelectReturns models => ret (hd_error models)
         end)
  end.

End Router.

(* ================================================================== *)
(** ** The chat handler and the commands *)
(* ================================================================== *)

Module Chat.

(** The fields of [vscode.ChatRequest] that the handler reads. *)
Record ChatRequest : Type := {
  prompt : text;
  command : option string
}.

End Chat.

Section Handler.
Context {num : Type} {NUM : JsNumber num} {CM : CaseMapping}.
Variable cfg : Config num.
Variable W : Vscode.World.

(** Stable sort of the entries of an object by value, largest first: what
    [Object.entries(o).sort(([, a], [, b]) => b - a)] gives for values that
    the comparison orders consistently. *)
Fixpoint insert_desc (x : string * num) (l : list (string * num)) : list (string * num) :=
  match l with
  | [] => [x]
  | y :: l' => if nlt (snd x) (snd y) then y :: insert_desc x l' else x :: l
  end.

Definition sort_desc (o : Obj num) : list (string * num) :=
  fold_right insert_desc [] o.

Fixpoint emit_all (es : list (Emit num)) : M num unit :=
  match es with
  | [] => ret tt
  | e :: es' => emit e ;; emit_all es'
  end.

(** The used percentage that the stats command prints. *)
Definition statsPercent (stats : SessionStats num) : PercentText num :=
  if nlt nzero (monthlyBudget cfg)
  then Fixed1 (nmul (ndiv (totalCreditsUsed stats) (monthlyBudget cfg)) (nint 100))
  else Literal0.

Definition handleStatsCommand : M num (ChatResult num) :=
  m <- get ;;
  let stats := sessionStats m in
  emit (MdStatsTable (requestCount stats) (totalCreditsUsed stats) (statsPercent stats)
          (monthlyBudget cfg)
          (nround (input (tokenCount stats))) (nround (output (tokenCount stats)))) ;;
  emit_all (map (fun kv =>
              MdModelRow (match getModel (num := num) (fst kv) with
                          | Some model => name model
                          | None => fst kv
                          end) (snd kv))
            (sort_desc (creditsByModel stats))) ;;
  emit_all (map (fun kv => MdTaskRow (fst kv) (snd kv)) (sort_desc (taskTypes stats))) ;;
  ret (ResultCommand "stats").

(** The used percentage that the budget command prints, with [toFixed(1)]. *)
Definition budgetPercent (stats : SessionStats num) : num :=
  nmul (ndiv (totalCreditsUsed stats) (monthlyBudget cfg)) (nint 100).

Definition handleBudgetCommand : M num (ChatResult num) :=
  m <- get ;;
  let stats := sessionStats m in
  let used := totalCreditsUsed stats in
  let remaining := nmax (nint 0) (nsub (monthlyBudget cfg) used) in
  let usedPercent := budgetPercent stats in
  let blocks := nround (nmul (ndiv used (monthlyBudget cfg)) (nint 20)) in
  match nrepeat blocks with
  | None => throw RangeError
  | Some filled =>
      match nrepeat (nmax (nint 0) (nsub (nint 20) blocks)) with
      | None => throw RangeError
      | Some empty =>
          emit (MdBudgetReport filled empty usedPercent used remaining (monthlyBudget cfg)) ;;
          (if nlt remaining (nint 30)
           then emit MdLowCredits ;; emit ButtonRequestCredits
           else ret tt) ;;
          ret (ResultCommand "budget")
      end
  end.

(** The aliases of the [@name] syntax. *)
Definition modelPatterns : Obj string := [
  ("opus", "claude-opus-4.5"); ("sonnet4.5", "claude-sonnet-4.5"); ("sonnet", "claude-sonnet-4");
  ("geminipro", "gemini-2.5-pro"); ("gpt5.2", "gpt-5.2"); ("gpt5.1", "gpt-5.1");
  ("gpt5", "gpt-5"); ("gpt4o", "gpt-4o"); ("gpt4.1", "gpt-4.1");
  ("haiku", "claude-haiku-4.5"); ("flash", "gemini-3-flash"); ("codexmini", "gpt-5.1-codex-mini")
].

(** The members that an object literal inherits from [Object.prototype];
    each of them is a truthy value that is not a string. *)
Definition inheritedMembers : list string := [
  "constructor"; "__defineGetter__"; "__defineSetter__"; "hasOwnProperty";
  "__lookupGetter__"; "__lookupSetter__"; "isPrototypeOf"; "propertyIsEnumerable";
  "toString"; "valueOf"; "__proto__"; "toLocaleString"
].

Inductive PatternLookup : Type :=
  | OwnValue (modelId : string)
  | InheritedMember
  | NoProperty.

(** [modelPatterns[key]] *)
Definition lookupPattern (key : text) : PatternLookup :=
  match find (fun kv => text_eqb (txt (fst kv)) key) modelPatterns with
  | Some kv => OwnValue (snd kv)
  | None =>
      if existsb (fun n => text_eqb (txt n) key) inheritedMembers
      then InheritedMember else NoProperty
  end.

(** The statistics after a completed request (the updates that follow the
    draining of the response in [handleChatRequest]). *)
Definition recordCompletion (stats : SessionStats num) (selected : ModelDefinition num)
  (taskType : TaskType) (cleanPrompt : text) (outputTokens : num) : SessionStats num :=
  {| requestCount := nadd (requestCount stats) (nint 1);
     tokenCount :=
       {| input := nadd (input (tokenCount stats)) (ndiv (nlength cleanPrompt) (nint 4));
          output := nadd (output (tokenCount stats)) outputTokens |};
     creditsByModel :=
       obj_set (id selected)
         (nadd (or_zero (obj_get (id selected) (creditsByModel stats)))
               (creditMultiplier selected))
         (creditsByModel stats);
     taskTypes :=
       obj_set (task_name taskType)
         (nadd (or_zero (obj_get (task_name taskType) (taskTypes stats))) (nint 1))
         (taskTypes stats);
     totalCreditsUsed := nadd (totalCreditsUsed stats) (creditMultiplier selected) |}.

(** Build messages with history *)
Fixpoint historyMessages (history : list Vscode.ChatTurn)
  : list Vscode.LanguageModelChatMessage :=
  match history with
  | [] => []
  | Vscode.ChatRequestTurn p :: rest => (Vscode.User, p) :: historyMessages rest
  | Vscode.ChatResponseTurn parts :: rest =>
      let resp := List.concat (map (fun part => match part with
                                                | Some v => v
                                                | None => []
                                                end) parts) in
      match resp with
      | [] => historyMessages rest
      | _ :: _ => (Vscode.Assistant, resp) :: historyMessages rest
      end
  | Vscode.OtherTurn :: rest => historyMessages rest
  end.

(** Pass 1 of [handleChatRequest]: the task type, the selected model and
    the reason shown, for the forced id and the cleaned prompt. *)
Definition pass1 (rid : string) (forcedId : option string) (cleanPrompt : text)
  : M num (TaskType * ModelDefinition num * Reason) :=
  let automatic :=
    emit Progress ;;
    taskType <- classifyPrompt cfg W cleanPrompt ;;
    match getModelForTask cfg taskType with
    | Some selected => ret (taskType, selected, Routed taskType (name selected))
    | None => throw TypeError
    end in
  match forcedId with
  | None => automatic
  | Some forced =>
      if String.eqb forced "" then automatic
      else
        (* Manual override *)
        match getModel forced with
        | None => throw TypeError
        | Some selected =>
            let taskType := fallbackClassify cleanPrompt in
            m <- get ;;
            (match lastRequest m with
             | Some last =>
                 if negb (String.eqb (modelId last) forced)
                 then recordOverride cfg W rid (modelId last) forced (task_name taskType)
                 else ret tt
             | None => ret tt
             end) ;;
            ret (taskType, selected, Manual (name selected))
        end
  end.

(** Check policy: a selected model that is not allowed is replaced by
    [getModel('gpt-4o')], with a notice. *)
Definition policyGuard (selected : ModelDefinition num) : M num (ModelDefinition num) :=
  if negb (isModelAllowed cfg selected) then
    emit (MdRestricted (name selected)) ;;
    match getModel "gpt-4o" with
    | Some fallback => ret fallback
    | None => throw TypeError
    end
  else ret selected.

(** Pass 2 of [handleChatRequest]: execute with the selected model, then
    update the statistics and the last request. *)
Definition pass2 (rid : string) (cleanPrompt : text) (taskType : TaskType)
  (selected : ModelDefinition num) (reason : Reason)
  (history : list Vscode.ChatTurn) : M num (ChatResult num) :=
  backend <- selectCopilotModel W selected ;;
  match backend with
  | None =>
      emit (MdNotAvailable (name selected)) ;;
      ret (ResultError "no_model")
  | Some model =>
      (if showModelInfo cfg
       then emit (MdRoutingInfo (Vscode.name model) (creditMultiplier selected) reason)
       else ret tt) ;;
      updateStatusBar cfg (Some selected) ;;
      let messages := (Vscode.User, cleanPrompt) :: historyMessages history in
      t <- tick ;;
      let response := Vscode.sendRequest W t model messages in
      emit_all (map MdChunk (Vscode.chunks response)) ;;
      match Vscode.ending response with
      | Vscode.StreamLanguageModelError message =>
          emit (MdError message) ;;
          ret (ResultError "request_failed")
      | Vscode.StreamOtherError => throw Rethrown
      | Vscode.StreamDone =>
          let outputTokens :=
            fold_left (fun acc chunk => nadd acc (ndiv (nlength chunk) (nint 4)))
                      (Vscode.chunks response) (nint 0) in
          (* Update stats *)
          modify (fun m =>
            set_sessionStats
              (recordCompletion (sessionStats m) selected taskType cleanPrompt outputTokens) m) ;;
          (* Save last request for retry *)
          modify (set_lastRequest
                    (Some {| prompt := cleanPrompt; requestId := rid;
                             modelId := id selected; taskType := taskType |})) ;;
          (if collectFeedback cfg
           then emit_all [MdRule; ButtonFeedback true rid (id selected) taskType;
                          ButtonFeedback false rid (id selected) taskType]
           else ret tt) ;;
          emit (ButtonRetry cleanPrompt) ;;
          updateStatusBar cfg (Some selected) ;;
          (* Check budget warnings *)
          m <- get ;;
          let usedPercent :=
            nmul (ndiv (totalCreditsUsed (sessionStats m)) (monthlyBudget cfg)) (nint 100) in
          (if nle (nint 90) usedPercent
           then emit (MdBudgetAt usedPercent) ;; emit ButtonRequestCredits
           else ret tt) ;;
          ret (ResultDone (name selected) taskType (creditMultiplier selected) rid)
      end
  end.

Definition is_command (c : string) (request : Chat.ChatRequest) : bool :=
  match Chat.command request with
  | Some c' => String.eqb c' c
  | None => false
  end.

(** The scan for a force model override: the forced id and the cleaned
    prompt, from the prompt and the id chosen in the picker.  [None] stands
    for an alias that names an inherited member of the alias table: the
    forced id is then an object that is no string. *)
Definition scanForce (prompt : text) (picked : option string)
  : option (option string * text) :=
  match match_force prompt with
  | Some capture =>
      match lookupPattern (remove_hyphens (toLowerCase capture)) with
      | OwnValue forced => Some (Some forced, trim (remove_first (64%N :: capture) prompt))
      | InheritedMember => None
      | NoProperty => Some (picked, prompt)
      end
  | None => Some (picked, prompt)
  end.

Definition handleChatRequest (request : Chat.ChatRequest)
  (history : list Vscode.ChatTurn) : M num (ChatResult num) :=
  if negb (enabled cfg) then
    emit MdDisabled ;; ret (ResultError "disabled")
  else
    rid <- generateRequestId W ;;
    (* Check for slash commands *)
    if is_command "stats" request then handleStatsCommand
    else if is_command "budget" request then handleBudgetCommand
    else
      (* Check for force model override *)
      m <- get ;;
      modify (set_forceModelId None) ;;
      match scanForce (Chat.prompt request) (forceModelId m) with
      | None =>
          (* no catalog entry has the object as its id, and the name of
             [undefined] is read *)
          throw TypeError
      | Some (forcedId, cleanPrompt) =>
          (* Pass 1: classification *)
          routed <- pass1 rid forcedId cleanPrompt ;;
          let taskType := fst (fst routed) in
          let reason := snd routed in
          (* Check policy *)
          selected <- policyGuard (snd (fst routed)) ;;
          (* Pass 2: execute with selected model *)
          pass2 rid cleanPrompt taskType selected reason history
      end.

(** The [detail] of the items of the model picker that can be chosen, in
    the order shown: the automatic entry, then the models tier by tier. *)
Definition pickerDetails : list string :=
  "auto" ::
  map id (getModelsByTier (num := num) free ++ getModelsByTier cheap
          ++ getModelsByTier standard ++ getModelsByTier premium).

(** The model picker of the status bar.  [choice] is the position of the
    chosen item, [None] when the picker is dismissed. *)
Definition showModelPicker (choice : option nat) : M num unit :=
  match choice with
  | None => ret tt
  | Some i =>
      match nth_error pickerDetails i with
      | None => ret tt
      | Some detail =>
          if String.eqb detail "" then ret tt
          else
            (if String.eqb detail "auto" then modify (set_forceModelId None)
             else modify (set_forceModelId (Some detail))) ;;
            updateStatusBar cfg None
      end
  end.

(** The [detail] of the items of the picker of the retry button. *)
Definition retryDetails : list string := map id (MODELS (num := num)).

(** The picker of the retry button. *)
Definition retryWithModel (choice : option nat) : M num unit :=
  match choice with
  | None => ret tt
  | Some i =>
      match nth_error retryDetails i with
      | None => ret tt
      | Some detail =>
          if String.eqb detail "" then ret tt
          else modify (set_forceModelId (Some detail))
      end
  end.

End Handler.

(* ================================================================== *)
(** ** The runs of the extension *)
(* ================================================================== *)

Section Runs.
Context {num : Type} {NUM : JsNumber num} {CM : CaseMapping}.

(** The machine that a computation leaves, whether it returns or throws. *)
Definition after {A} (r : Result num A) : Machine num :=
  match r with
  | Ok _ m => m
  | Throw _ m => m
  end.

(** What happens to the extension once it is activated: a chat request on
    a fresh response stream, a choice in one of the two pickers, a thumbs
    up or down on an earlier answer, a change of the configuration. *)
Inductive Action : Type :=
  | ChatRequested (cfg : Config num) (W : Vscode.World)
      (request : Chat.ChatRequest) (history : list Vscode.ChatTurn)
  | ModelPicked (cfg : Config num) (choice : option nat)
  | RetryPicked (choice : option nat)
  | ThumbGiven (cfg : Config num) (W : Vscode.World) (rid model task : string) (up : bool)
  | ConfigurationChanged (cfg : Config num).

Definition perform (a : Action) (m : Machine num) : Machine num :=
  match a with
  | ChatRequested cfg W request history =>
      after (handleChatRequest cfg W request history (set_stream [] m))
  | ModelPicked cfg choice => after (showModelPicker cfg choice m)
  | RetryPicked choice => after (retryWithModel choice m)
  | ThumbGiven cfg W rid model task up =>
      after (recordFeedback cfg W rid model task up None None m)
  | ConfigurationChanged cfg => after (updateStatusBar cfg None m)
  end.

(** Activation: the statistics start empty, the feedback log is read from
    the global state, the status bar is drawn. *)
Definition activate (cfg : Config num) (stored : list (Feedback.FeedbackEntry num))
  : Machine num :=
  after ((initFeedback ;; updateStatusBar cfg None)
    {| sessionStats := initial_stats;
       statusBarItem := {| sbModel := None; sbPercent := nzero; sbTooltip := None;
                           backgroundColor := NoBackground |};
       forceModelId := None; lastRequest := None;
       feedbackLog := []; globalState := stored; posted := [];
       stream := []; clock := 0 |}).

Inductive reachable : Machine num -> Prop :=
  | reach_activate : forall cfg stored, reachable (activate cfg stored)
  | reach_perform : forall a m, reachable m -> reachable (perform a m).

Fixpoint perform_all (acts : list Action) (m : Machine num) : Machine num :=
  match acts with
  | [] => m
  | a :: rest => perform_all rest (perform a m)
  end.

(** [Object.values(o).reduce((a, b) => a + b, 0)], as the admin panel sums
    the credits. *)
Definition sum_values (o : Obj num) : num :=
  fold_left nadd (obj_values o) nzero.

End Runs.


(* ================================================================== *)
(** ** Vocabulary of the statements *)
(* ================================================================== *)

Section Vocabulary.
Context {num : Type} {NUM : JsNumber num} {CM : CaseMapping}.

(** [c] leaves the component [proj] of the machine as it is. *)
Definition kept {X A} (proj : Machine num -> X) (c : M num A) : Prop :=
  forall m, proj (after (c m)) = proj m.

(** The position of a tier in the order free < cheap < standard < premium. *)
Definition tierIndex (t : CreditTier) : Z :=
  match t with
  | free => 0
  | cheap => 1
  | standard => 2
  | premium => 3
  end%Z.

(** The tier that a setting names, if it names one. *)
Definition parseTier (s : string) : option CreditTier :=
  find (fun t => String.eqb (tier_name t) s) [free; cheap; standard; premium].

(** The rules of the keyword classifier as a table, in the fixed order
    test, debug, security, architecture, refactor, algorithm, review,
    documentation, conversion, function, simple, autocomplete. *)
Definition classifier_rules : list (TaskType * list text) := [
  (test, re_test); (debug, re_debug); (security, re_security);
  (architecture, re_architecture); (refactor, re_refactor); (algorithm, re_algorithm);
  (review, re_review); (documentation, re_documentation); (conversion, re_conversion);
  (function, re_function); (simple, re_simple); (autocomplete, re_autocomplete)
].

(** The label of the first rule of the table that matches [p]. *)
Definition first_matching_rule (p : text) : option TaskType :=
  option_map fst (find (fun r => regex_test (snd r) p) classifier_rules).

(** The response contains, somewhere, [TASK:] in any letter case followed
    by a label that is the task type [t] once lowercased. *)
Definition has_task_tag (response : text) (t : TaskType) : Prop :=
  exists before tag label rest,
    response = before ++ tag ++ label ++ rest /\
    map fold_ascii tag = map fold_ascii (txt "TASK:") /\
    toLowerCase label = txt (task_name t).

(** The response contains a [TASK:] tag whose label is a whole run of
    characters other than white space (it ends the response or is followed
    by white space) and is the task type [t] once lowercased. *)
Definition has_task_token (response : text) (t : TaskType) : Prop :=
  exists before tag label rest,
    response = before ++ tag ++ label ++ rest /\
    map fold_ascii tag = map fold_ascii (txt "TASK:") /\
    forallb (fun c => negb (is_space c)) label = true /\
    match rest with
    | [] => True
    | c :: _ => is_space c = true
    end /\
    toLowerCase label = txt (task_name t).

(** The budget utilization of the specification:
    [min(100, totalCreditsUsed / monthlyBudget * 100)] for a positive
    budget, and 0 otherwise. *)
Definition specifiedPercent (cfg : Config num) (stats : SessionStats num) : num :=
  if nlt nzero (monthlyBudget cfg)
  then nmin (nint 100) (nmul (ndiv (totalCreditsUsed stats) (monthlyBudget cfg)) (nint 100))
  else nzero.

(** The number that a printed percentage stands for. *)
Definition percent_value (p : PercentText num) : num :=
  match p with
  | Fixed1 v => v
  | Literal0 => nzero
  end.

(** A call of one of the two recording functions of [feedback.ts]. *)
Inductive FeedbackCall : Type :=
  | Explicit (rid selected task : string) (thumbsUp : bool) (promptLen respTime : option num)
  | Implicit (rid originalModel overridden task : string).

Definition call (cfg : Config num) (W : Vscode.World) (c : FeedbackCall) : M num unit :=
  match c with
  | Explicit rid selected task up pl rt => recordFeedback cfg W rid selected task up pl rt
  | Implicit rid orig to task => recordOverride cfg W rid orig to task
  end.

Fixpoint call_all (cfg : Config num) (W : Vscode.World) (cs : list FeedbackCall)
  (m : Machine num) : Machine num :=
  match cs with
  | [] => m
  | c :: rest => call_all cfg W rest (after (call cfg W c m))
  end.

(** The entry that a call appends when the clock shows [t]. *)
Definition entry_of (W : Vscode.World) (c : FeedbackCall) (t : nat)
  : Feedback.FeedbackEntry num :=
  match c with
  | Explicit rid selected task up pl rt =>
      {| Feedback.timestamp := Vscode.isoTimeAt W t;
         Feedback.requestId := rid;
         Feedback.selectedModel := selected;
         Feedback.taskType := task;
         Feedback.rating := if up then Feedback.positive else Feedback.negative;
         Feedback.overriddenTo := None;
         Feedback.promptLength := pl;
         Feedback.responseTime := rt |}
  | Implicit rid orig to task =>
      {| Feedback.timestamp := Vscode.isoTimeAt W t;
         Feedback.requestId := rid;
         Feedback.selectedModel := orig;
         Feedback.taskType := task;
         Feedback.rating := Feedback.override;
         Feedback.overriddenTo := Some to;
         Feedback.promptLength := None;
         Feedback.responseTime := None |}
  end.

(** The external calls that one recording makes: the clock for the
    timestamp, and the post when an endpoint is configured. *)
Definition ticks_of (cfg : Config num) : nat :=
  if String.eqb (feedbackEndpoint cfg) "" then 1 else 2.

(** The entries that a sequence of calls appends, oldest first, when it
    starts with the clock at [t]. *)
Fixpoint appended (cfg : Config num) (W : Vscode.World) (cs : list FeedbackCall) (t : nat)
  : list (Feedback.FeedbackEntry num) :=
  match cs with
  | [] => []
  | c :: rest => entry_of W c t :: appended cfg W rest (t + ticks_of cfg)
  end.

(** The statistics are left as they are, or one completion is added. *)
Definition accounting_step (s s' : SessionStats num) : Prop :=
  s' = s \/ exists sel t cleanPrompt out, s' = recordCompletion s sel t cleanPrompt out.

(** The invariant of the specification: the total is the sum of the
    credits by model. *)
Definition balanced (s : SessionStats num) : Prop :=
  totalCreditsUsed s = sum_values (creditsByModel s).

End Vocabulary.

(** *** Concrete configurations, worlds and machines *)

(** A world in which every selection returns one backend of the family
    asked for and every request is answered by [response], drained
    without error. *)
Definition world_answering (response : text) : Vscode.World := {|
  Vscode.selectChatModels := fun _ fam =>
    Vscode.SelectReturns
      [{| Vscode.name := "Copilot";
          Vscode.family := match fam with Some f => f | None => "" end |}];
  Vscode.sendRequest := fun _ _ _ =>
    {| Vscode.chunks := [response]; Vscode.ending := Vscode.StreamDone |};
  Vscode.requestIdAt := fun _ => "1700000000000-abc123";
  Vscode.isoTimeAt := fun _ => "2024-01-01T00:00:00.000Z"
|}.

(** The default configuration, with doubles. *)
Definition double_config : Config float := default_config.

(** The machine after activation with an empty stored log, with doubles. *)
Definition double_start : Machine float := activate double_config [].

(** A request without a slash command. *)
Definition plain_request (p : string) : Chat.ChatRequest :=
  {| Chat.prompt := txt p; Chat.command := None |}.

(** A slash command. *)
Definition command_request (c : string) : Chat.ChatRequest :=
  {| Chat.prompt := []; Chat.command := Some c |}.

(** Chat requests with the given prompts, one after the other, each
    answered by a backend. *)
Definition chats (cfg : Config float) (prompts : list string) : list (Action (num := float)) :=
  map (fun p => ChatRequested cfg (world_answering (txt "ok")) (plain_request p) []) prompts.

(** Four completed requests: Claude Haiku 4.5 (0.33x) twice, Claude Sonnet 4
    (1x), Claude Haiku 4.5 again. *)
Definition double_after_four : Machine float :=
  perform_all (CM := ascii_case)
    (chats double_config ["@haiku hi"; "@haiku hi"; "@sonnet hi"; "@haiku hi"])
    double_start.

(** A placeholder for an id that is not in the catalog. *)
Definition unlisted : ModelDefinition float := {|
  id := ""; family := ""; name := ""; creditMultiplier := nzero; creditTier := free;
  isPreview := false; capabilities := caps 0 0 0 0; bestFor := []
|}.

(** The catalog entry with the given id, with doubles. *)
Definition catalog_entry (i : string) : ModelDefinition float :=
  match getModel i with
  | Some m => m
  | None => unlisted
  end.

(** Claude Opus 4.5 is blocked and the ceiling is the standard tier. *)
Definition restricted_config : Config float := {|
  enabled := true; classifierModel := "gpt-4o"; blockedModels := ["claude-opus-4.5"];
  maxCreditTier := "standard"; taskRouting := []; monthlyBudget := nint 300;
  showModelInfo := true; collectFeedback := true; feedbackEndpoint := "";
  teamId := ""; departmentId := ""
|}.

(** The machine after a request that forces Claude Opus 4.5 under that
    configuration, answered by a backend. *)
Definition after_restricted_request : Machine float :=
  after (handleChatRequest (CM := ascii_case) restricted_config
           (world_answering (txt "ok")) (plain_request "@opus design it") [] double_start).

(** The setting of the ceiling names no tier (a capital letter). *)
Definition mistyped_tier_config : Config float := {|
  enabled := true; classifierModel := "gpt-4o"; blockedModels := [];
  maxCreditTier := "Premium"; taskRouting := []; monthlyBudget := nint 300;
  showModelInfo := true; collectFeedback := true; feedbackEndpoint := "";
  teamId := ""; departmentId := ""
|}.

(** GPT-4o itself is blocked, with Claude Opus 4.5. *)
Definition default_blocked_config : Config float := {|
  enabled := true; classifierModel := "gpt-4o";
  blockedModels := ["gpt-4o"; "claude-opus-4.5"];
  maxCreditTier := "premium"; taskRouting := []; monthlyBudget := nint 300;
  showModelInfo := true; collectFeedback := true; feedbackEndpoint := "";
  teamId := ""; departmentId := ""
|}.

(** Admin routing for three task types; two models are blocked. *)
Definition routing_config : Config float := {|
  enabled := true; classifierModel := "gpt-4o";
  blockedModels := ["claude-opus-4.5"; "claude-sonnet-4.5"];
  maxCreditTier := "premium";
  taskRouting := [("test", "gpt-5"); ("debug", "claude-opus-4.5");
                  ("review", "no-such-model")];
  monthlyBudget := nint 300;
  showModelInfo := true; collectFeedback := true; feedbackEndpoint := "";
  teamId := ""; departmentId := ""
|}.

(** 1001 recordings: a thumbs up, then 1000 overrides. *)
Definition calls_1001 : list (FeedbackCall (num := float)) :=
  Explicit "first" "gpt-4o" "function" true None None
  :: repeat (Implicit "later" "gpt-4o" "gpt-5" "function") 1000.

(** Three completed requests, with exact rationals. *)
Definition exact_after_three : Machine Qc :=
  perform_all (CM := ascii_case)
    (map (fun p => ChatRequested default_config (world_answering (txt "ok"))
                     (plain_request p) [])
         ["@haiku hi"; "@sonnet hi"; "@haiku hi"])
    (activate default_config []).

(** A monthly budget of 100 credits. *)
Definition budget_100 : Config float := {|
  enabled := true; classifierModel := "gpt-4o"; blockedModels := [];
  maxCreditTier := "premium"; taskRouting := []; monthlyBudget := nint 100;
  showModelInfo := true; collectFeedback := true; feedbackEndpoint := "";
  teamId := ""; departmentId := ""
|}.

(** 34 completed requests with Claude Opus 4.5 (3x) under that budget: 102
    credits are used. *)
Definition double_over_budget : Machine float :=
  perform_all (CM := ascii_case)
    (chats budget_100 (repeat "@opus design it" 34))
    (activate budget_100 []).

(** 93 completed requests with Claude Opus 4.5 and one with Claude Sonnet 4
    under the default budget of 300 credits: 280 credits are used. *)
Definition double_at_280 : Machine float :=
  perform_all (CM := ascii_case)
    (chats double_config (repeat "@opus design it" 93 ++ ["@sonnet tidy up"]))
    double_start.

(* ================================================================== *)
(** ** models.ts: pattern detection and recommendation *)
(* ================================================================== *)

(** [String.prototype.toUpperCase], which the [i] flag of a regular
    expression uses to compare characters; like [toLowerCase] it is a
    parameter of the development. *)
Class UpperCaseMapping : Type := { toUpperCase : text -> text }.

(** The mapping on ASCII letters. *)
Definition ascii_upper_case : UpperCaseMapping := {| toUpperCase := map fold_ascii |}.

Module Patterns.

Section IgnoreCase.
Context {UM : UpperCaseMapping}.

(** Canonicalisation of a code unit under the [i] flag without the [u]
    flag: the upper case of the one-unit string when that is one unit,
    except that a unit outside ASCII is never mapped into ASCII. *)
Definition canonicalize (c : N) : N :=
  match toUpperCase [c] with
  | [cu] => if ((128 <=? c) && (cu <? 128))%N then c else cu
  | _ => c
  end.

Fixpoint startsWith_i (p s : text) : bool :=
  match p, s with
  | [], _ => true
  | _ :: _, [] => false
  | x :: p', y :: s' => N.eqb (canonicalize x) (canonicalize y) && startsWith_i p' s'
  end.

Fixpoint includes_i (p s : text) : bool :=
  startsWith_i p s ||
  match s with
  | [] => false
  | _ :: s' => includes_i p s'
  end.

(** The test of a regular expression with the [i] flag that is an
    alternation of literals. *)
Definition regex_test_i (alternatives : list text) (s : text) : bool :=
  existsb (fun a => includes_i a s) alternatives.

End IgnoreCase.

Record TaskPattern : Type := {
  type : TaskType;
  patterns : list (list text);
  keywords : list text
}.

Definition u_umlaut : text := [252%N].
Definition o_umlaut : text := [246%N].

Definition TASK_PATTERNS : list TaskPattern := [
  {| type := autocomplete;
     patterns := [map txt ["tamamla"; "complete"; "finish"]];
     keywords := map txt ["autocomplete"] |};
  {| type := simple;
     patterns := [map txt ["basit"; "simple"; "kolay"]];
     keywords := map txt ["renk"; "color"; "import"; "typo"] |};
  {| type := function;
     patterns := [map txt ["fonksiyon"; "function"; "method"]];
     keywords := map txt ["yaz"; "write"; "create"] |};
  {| type := algorithm;
     patterns := [map txt ["algoritma"; "algorithm"; "sort"; "search"]];
     keywords := map txt ["binary"; "hash"; "recursive"] |};
  {| type := test;
     patterns := [map txt ["test"; "spec"; "jest"; "pytest"]];
     keywords := map txt ["unit"; "integration"; "mock"] |};
  {| type := debug;
     patterns := [map txt ["debug"; "hata"; "error"; "bug"; "fix"]];
     keywords := map txt ["neden"; "why"; "crash"] |};
  {| type := refactor;
     patterns := [map txt ["refactor"; "yeniden yaz"; "rewrite"]];
     keywords := map txt ["pattern"; "solid"; "clean"] |};
  {| type := architecture;
     patterns := [map txt ["architecture"; "mimari"; "design"]];
     keywords := map txt ["microservice"; "api"; "scale"] |};
  {| type := security;
     patterns := [[txt "security"; txt "g" ++ u_umlaut ++ txt "venlik"; txt "vulnerability"]];
     keywords := map txt ["sql"; "xss"; "auth"] |};
  {| type := documentation;
     patterns := [map txt ["document"; "yorum"; "readme"]];
     keywords := [txt "jsdoc"; txt "a" ++ [231%N; 305%N] ++ txt "kla"] |};
  {| type := conversion;
     patterns := [[txt "convert";
                   txt "d" ++ o_umlaut ++ txt "n" ++ u_umlaut ++ [351%N] ++ txt "t"
                     ++ u_umlaut ++ txt "r";
                   txt "migrate"]];
     keywords := map txt ["typescript"; "async"] |};
  {| type := review;
     patterns := [map txt ["review"; "incele"; "check"]];
     keywords := map txt ["best practice"; "improve"] |}
].

Section Detect.
Context {CM : CaseMapping} {UM : UpperCaseMapping}.

(** One turn of the outer loop of [detectTaskType]: some regular
    expression of the pattern matches the prompt, or some keyword occurs
    in the lowercased prompt. *)
Definition pattern_hits (p : TaskPattern) (prompt : text) : bool :=
  existsb (fun re => regex_test_i re prompt) (patterns p)
  || existsb (fun kw => includes kw (toLowerCase prompt)) (keywords p).

Fixpoint detect_in (ps : list TaskPattern) (prompt : text) : TaskType :=
  match ps with
  | [] => function
  | p :: rest => if pattern_hits p prompt then type p else detect_in rest prompt
  end.

Definition detectTaskType (prompt : text) : TaskType := detect_in TASK_PATTERNS prompt.

End Detect.

End Patterns.

Module AdminConfig.

(** The fields of [AdminConfig] that the code reads. *)
Record t : Type := {
  taskRouting : Obj string;
  blockedModels : list string;
  maxCreditTier : string
}.

End AdminConfig.

Definition DEFAULT_ADMIN_CONFIG : AdminConfig.t := {|
  AdminConfig.taskRouting := [];
  AdminConfig.blockedModels := [];
  AdminConfig.maxCreditTier := "premium"
|}.

Section Recommendation.
Context {num : Type} {NUM : JsNumber num}.

(** The admin configuration that [activate] and the configuration watcher
    build from the settings. *)
Definition adminConfigOf (cfg : Config num) : AdminConfig.t := {|
  AdminConfig.taskRouting := taskRouting cfg;
  AdminConfig.blockedModels := blockedModels cfg;
  AdminConfig.maxCreditTier := maxCreditTier cfg
|}.

Inductive RecommendationReason : Type :=
  | LongContext
  | AdminConfigured (t : TaskType)
  | TaskDefault (t : TaskType).

(** The result of [getRecommendedModel]; the model is what [getModel]
    returned, which the source asserts to be defined. *)
Record Recommendation : Type := {
  recModel : option (ModelDefinition num);
  recReason : RecommendationReason
}.

Definition getRecommendedModel (taskType : TaskType) (adminConfig : AdminConfig.t)
  (contextSize : option num) : Recommendation :=
  let byDefault :=
    {| recModel := getModel (DEFAULT_TASK_ROUTING taskType);
       recReason := TaskDefault taskType |} in
  let routed :=
    match obj_get (task_name taskType) (AdminConfig.taskRouting adminConfig) with
    | Some adminRouting =>
        if String.eqb adminRouting "" then byDefault
        else
          match getModel adminRouting with
          | Some model => {| recModel := Some model; recReason := AdminConfigured taskType |}
          | None => byDefault
          end
    | None => byDefault
    end in
  match contextSize with
  | Some size =>
      if negb (nfalsy size) && nlt (nint 100000) size
      then {| recModel := getModel "gemini-2.5-pro"; recReason := LongContext |}
      else routed
  | None => routed
  end.

(** The routing row of a task type in the admin panel:
    [taskRouting[t] || DEFAULT_TASK_ROUTING[t]]. *)
Definition panelRouting (routing : Obj string) (t : TaskType) : string :=
  match obj_get (task_name t) routing with
  | Some custom => if String.eqb custom "" then DEFAULT_TASK_ROUTING t else custom
  | None => DEFAULT_TASK_ROUTING t
  end.

End Recommendation.

(* ================================================================== *)
(** ** feedback.ts: statistics of the feedback log *)
(* ================================================================== *)

Module FeedbackStats.

(** The counters of [getFeedbackStats] count entries of an array, so they
    stay below 2^32, where the additions of doubles are exact: they are
    natural numbers here. *)
Record ModelCounts : Type := {
  mPositive : nat;
  mNegative : nat;
  mOverrides : nat
}.

Record TaskCounts : Type := {
  tPositive : nat;
  tNegative : nat
}.

Record Stats : Type := {
  total : nat;
  positive : nat;
  negative : nat;
  overrides : nat;
  byModel : Obj ModelCounts;
  byTask : Obj TaskCounts
}.

End FeedbackStats.

Section FeedbackStatistics.
Context {num : Type}.

(** A key that reads an inherited member of an object literal: the
    member is truthy, so no own property is created for it, and the
    increment goes to the inherited object. *)
Definition inherited (k : string) : bool :=
  existsb (String.eqb k) inheritedMembers.

Definition bump_model (r : Feedback.Rating) (c : FeedbackStats.ModelCounts)
  : FeedbackStats.ModelCounts :=
  match r with
  | Feedback.positive =>
      {| FeedbackStats.mPositive := S (FeedbackStats.mPositive c);
         FeedbackStats.mNegative := FeedbackStats.mNegative c;
         FeedbackStats.mOverrides := FeedbackStats.mOverrides c |}
  | Feedback.negative =>
      {| FeedbackStats.mPositive := FeedbackStats.mPositive c;
         FeedbackStats.mNegative := S (FeedbackStats.mNegative c);
         FeedbackStats.mOverrides := FeedbackStats.mOverrides c |}
  | Feedback.override =>
      {| FeedbackStats.mPositive := FeedbackStats.mPositive c;
         FeedbackStats.mNegative := FeedbackStats.mNegative c;
         FeedbackStats.mOverrides := S (FeedbackStats.mOverrides c) |}
  end.

Definition bump_task (r : Feedback.Rating) (c : FeedbackStats.TaskCounts)
  : FeedbackStats.TaskCounts :=
  match r with
  | Feedback.positive =>
      {| FeedbackStats.tPositive := S (FeedbackStats.tPositive c);
         FeedbackStats.tNegative := FeedbackStats.tNegative c |}
  | Feedback.negative =>
      {| FeedbackStats.tPositive := FeedbackStats.tPositive c;
         FeedbackStats.tNegative := S (FeedbackStats.tNegative c) |}
  | Feedback.override => c
  end.

(** The entry of a key after one turn of the loop: created with zeros
    when it is missing, then incremented. *)
Definition count_under {C} (zero : C) (bump : C -> C) (k : string) (o : Obj C) : Obj C :=
  if inherited k then o
  else
    match obj_get k o with
    | Some c => obj_set k (bump c) o
    | None => obj_set k (bump zero) o
    end.

(** One turn of the loop of [getFeedbackStats]. *)
Definition count_entry (stats : FeedbackStats.Stats) (e : Feedback.FeedbackEntry num)
  : FeedbackStats.Stats :=
  let r := Feedback.rating e in
  {| FeedbackStats.total := FeedbackStats.total stats;
     FeedbackStats.positive :=
       match r with
       | Feedback.positive => S (FeedbackStats.positive stats)
       | _ => FeedbackStats.positive stats
       end;
     FeedbackStats.negative :=
       match r with
       | Feedback.negative => S (FeedbackStats.negative stats)
       | _ => FeedbackStats.negative stats
       end;
     FeedbackStats.overrides :=
       match r with
       | Feedback.override => S (FeedbackStats.overrides stats)
       | _ => FeedbackStats.overrides stats
       end;
     FeedbackStats.byModel :=
       count_under
         {| FeedbackStats.mPositive := 0; FeedbackStats.mNegative := 0;
            FeedbackStats.mOverrides := 0 |}
         (bump_model r) (Feedback.selectedModel e) (FeedbackStats.byModel stats);
     FeedbackStats.byTask :=
       count_under {| FeedbackStats.tPositive := 0; FeedbackStats.tNegative := 0 |}
         (bump_task r) (Feedback.taskType e) (FeedbackStats.byTask stats) |}.

(** Get feedback statistics *)
Definition getFeedbackStats (log : list (Feedback.FeedbackEntry num)) : FeedbackStats.Stats :=
  fold_left count_entry log
    {| FeedbackStats.total := List.length log;
       FeedbackStats.positive := 0; FeedbackStats.negative := 0;
       FeedbackStats.overrides := 0;
       FeedbackStats.byModel := []; FeedbackStats.byTask := [] |}.

(** Get all feedback entries (for admin panel): a copy of the log. *)
Definition getFeedbackLog (m : Machine num) : list (Feedback.FeedbackEntry num) :=
  feedbackLog m.

(** The sum of a counter over the entries of an object. *)
Definition sum_over {C} (f : C -> nat) (o : Obj C) : nat :=
  fold_right (fun kv acc => (f (snd kv) + acc)%nat) 0%nat o.

(** Every entry with a rating and no other carries [overriddenTo] exactly
    when the rating is [override]. *)
Definition well_tagged (e : Feedback.FeedbackEntry num) : Prop :=
  Feedback.rating e = Feedback.override <-> Feedback.overriddenTo e <> None.

End FeedbackStatistics.

(* ================================================================== *)
(** ** Vocabulary of the statements about the session and the log *)
(* ================================================================== *)

(** [Object.keys(o)] *)
Definition keys {V} (o : Obj V) : list string := map fst o.

Section LogVocabulary.
Context {num : Type}.

Definition rating_eqb (a b : Feedback.Rating) : bool :=
  match a, b with
  | Feedback.positive, Feedback.positive => true
  | Feedback.negative, Feedback.negative => true
  | Feedback.override, Feedback.override => true
  | _, _ => false
  end.

(** The number of entries of the log with the rating [r]. *)
Definition rated (r : Feedback.Rating) (log : list (Feedback.FeedbackEntry num)) : nat :=
  List.length (filter (fun e => rating_eqb r (Feedback.rating e)) log).

(** The number of entries with the rating [r] whose [selectedModel] is
    [k]. *)
Definition rated_for_model (r : Feedback.Rating) (k : string)
  (log : list (Feedback.FeedbackEntry num)) : nat :=
  List.length (filter (fun e => String.eqb (Feedback.selectedModel e) k
                                && rating_eqb r (Feedback.rating e)) log).

(** The number of entries with the rating [r] whose [taskType] is [k]. *)
Definition rated_for_task (r : Feedback.Rating) (k : string)
  (log : list (Feedback.FeedbackEntry num)) : nat :=
  List.length (filter (fun e => String.eqb (Feedback.taskType e) k
                                && rating_eqb r (Feedback.rating e)) log).

(** The counter [f] of the row of [k] in a table, 0 when [k] has no row. *)
Definition counter {C} (f : C -> nat) (k : string) (o : Obj C) : nat :=
  match obj_get k o with
  | Some c => f c
  | None => 0%nat
  end.

(** The feedback log, its stored copy and the bodies posted. *)
Definition feedbackState (m : Machine num)
  : list (Feedback.FeedbackEntry num) * list (Feedback.FeedbackEntry num)
    * list (Feedback.Posted num) :=
  (feedbackLog m, globalState m, posted m).

End LogVocabulary.

(** *** Sessions whose credits are whole numbers *)

(** What "the additions of the whole numbers up to [bound] are exact"
    means: the sum of two of them, when it does not exceed [bound], is
    the number of their sum, and none of them but 0 is falsy.  The
    doubles of the code have this property far beyond any session (up to
    2^53); [DoubleIntegers] checks it, by evaluation, up to 3000. *)
Class ExactIntegers (num : Type) `{JsNumber num} (bound : Z) : Prop := {
  int_add : forall a b : Z, (0 <= a)%Z -> (0 <= b)%Z -> (a + b <= bound)%Z ->
            nadd (nint a) (nint b) = nint (a + b);
  int_truthy : forall a : Z, (0 < a <= bound)%Z -> nfalsy (nint a) = false
}.

Module DoubleIntegers.

(** [start], [start + 1], ..., [len] numbers in all. *)
Fixpoint upto (len : nat) (start : Z) : list Z :=
  match len with
  | O => []
  | S n => start :: upto n (start + 1)
  end.

(** The additions [a + b] of doubles, for all whole [a], [b] from 0 with
    [a + b <= bound], give the double of the sum, and no whole number
    from 1 to [bound] is falsy. *)
Definition adds_exact (bound : Z) : bool :=
  forallb (fun a : Z =>
             ((a =? 0)%Z || negb (nfalsy (nint a : float)))
             && forallb (fun b : Z =>
                           PrimFloat.Leibniz.eqb (nadd (nint a) (nint b)) (nint (a + b)))
                        (upto (Z.to_nat (bound - a + 1)) 0))
          (upto (Z.to_nat (bound + 1)) 0).

End DoubleIntegers.

Section WholeCredits.
Context {num : Type} {NUM : JsNumber num}.

(** A table whose values are whole numbers. *)
Definition int_table (cs : list (string * Z)) : Obj num :=
  map (fun kc => (fst kc, nint (snd kc))) cs.

Definition int_total (cs : list (string * Z)) : Z :=
  fold_right Z.add 0%Z (map snd cs).

(** All values of the table are 0 or more. *)
Definition nonneg_table (cs : list (string * Z)) : Prop :=
  Forall (fun kc => (0 <= snd kc)%Z) cs.

(** The number of filled blocks of the bar of the budget command,
    [Math.round(used / monthlyBudget * 20)]. *)
Definition budgetBlocks (cfg : Config num) (stats : SessionStats num) : num :=
  nround (nmul (ndiv (totalCreditsUsed stats) (monthlyBudget cfg)) (nint 20)).

(** No key of [creditsByModel] is a model of the cheap tier, whose
    multiplier is 0.33: the multipliers of the other tiers are 0, 1
    and 3.  Keys are never removed, so this says that no request of the
    session was completed by a model of the cheap tier. *)
Definition whole_multipliers (s : SessionStats num) : bool :=
  forallb (fun k => match getModel (num := num) k with
                    | Some sel => match creditTier sel with
                                  | cheap => false
                                  | _ => true
                                  end
                    | None => true
                    end)
          (keys (creditsByModel s)).

End WholeCredits.

(** *** Further concrete configurations and machines *)

(** A monthly budget of 0. *)
Definition zero_budget : Config float := {|
  enabled := true; classifierModel := "gpt-4o"; blockedModels := [];
  maxCreditTier := "premium"; taskRouting := []; monthlyBudget := nint 0;
  showModelInfo := true; collectFeedback := true; feedbackEndpoint := "";
  teamId := ""; departmentId := ""
|}.

(** The default configuration with another monthly budget. *)
Definition with_budget (budget : float) : Config float := {|
  enabled := true; classifierModel := "gpt-4o"; blockedModels := [];
  maxCreditTier := "premium"; taskRouting := []; monthlyBudget := budget;
  showModelInfo := true; collectFeedback := true; feedbackEndpoint := "";
  teamId := ""; departmentId := ""
|}.

(** The smallest positive double, and the double nearest to 1e-7. *)
Definition smallest_budget : float := 0x1p-1074%float.
Definition small_budget : float := nlit 1 10000000.

(** One completed request with Claude Opus 4.5 (3x) under that budget. *)
Definition double_at_zero_budget : Machine float :=
  perform_all (CM := ascii_case) (chats zero_budget ["@opus design it"])
    (activate zero_budget []).

(** A stored log of one override. *)
Definition stored_override : list (Feedback.FeedbackEntry float) :=
  [entry_of (world_answering []) (Implicit "1700000000000-abc123" "gpt-4o" "gpt-5" "function") 0].

(** The machine after a request that forces Claude Haiku 4.5 under the
    default configuration, answered by a backend. *)
Definition after_haiku_request : Machine float :=
  after (handleChatRequest (CM := ascii_case) double_config
           (world_answering (txt "ok")) (plain_request "@haiku hi") [] double_start).

(** The machine after a request that forces Claude Opus 4.5 under the
    default configuration, answered by a backend. *)
Definition after_opus_request : Machine float :=
  after (handleChatRequest (CM := ascii_case) double_config
           (world_answering (txt "ok")) (plain_request "@opus design it") [] double_start).

(* ================================================================== *)
(** * Properties *)
(* ================================================================== *)

Arguments txt : simpl never.
Arguments getModel : simpl never.
Arguments fallbackClassify : simpl never.
Arguments isModelAllowed : simpl never.
Arguments getModelForTask : simpl never.
Arguments statusBarPercent : simpl never.
Arguments recordCompletion : simpl never.
Arguments historyMessages : simpl never.
Arguments classifierMessages : simpl never.
Arguments slice_last : simpl never.

(** ** The monad: what a computation leaves unchanged *)

Section Frames.
Context {num : Type} {NUM : JsNumber num}.
Context {X : Type} (proj : Machine num -> X).

Lemma kept_ret : forall A (a : A), kept proj (ret a).
Proof. intros A a m. reflexivity. Qed.

Lemma kept_throw : forall A e, kept proj (throw (A := A) e).
Proof. intros A e m. reflexivity. Qed.

Lemma kept_get : kept proj get.
Proof. intro m. reflexivity. Qed.

Lemma kept_modify : forall f, (forall m, proj (f m) = proj m) -> kept proj (modify f).
Proof. intros f H m. apply H. Qed.

Lemma kept_bind : forall A B (c : M num A) (k : A -> M num B),
  kept proj c -> (forall a, kept proj (k a)) -> kept proj (bind c k).
Proof.
  intros A B c k Hc Hk m. unfold bind.
  specialize (Hc m). destruct (c m) as [a m1 | e m1]; simpl in *.
  - rewrite Hk. exact Hc.
  - exact Hc.
Qed.

Hypothesis proj_clock : forall k m, proj (set_clock k m) = proj m.

Lemma kept_tick : kept proj tick.
Proof. intro m. unfold tick. simpl. apply proj_clock. Qed.

Hypothesis proj_stream : forall s m, proj (set_stream s m) = proj m.

Lemma kept_emit : forall e, kept proj (emit e).
Proof. intros e m. unfold emit, modify. simpl. apply proj_stream. Qed.

Lemma kept_emit_all : forall es, kept proj (emit_all es).
Proof.
  induction es as [| e es IH]; simpl.
  - apply kept_ret.
  - apply kept_bind; [apply kept_emit | intros _; exact IH].
Qed.

End Frames.

(** Splits a goal [kept proj c] along the structure of [c]. *)
Ltac frame_step :=
  first
    [ apply kept_ret
    | apply kept_throw
    | apply kept_get
    | apply kept_tick; solve [assumption | intros; reflexivity]
    | apply kept_emit; solve [assumption | intros; reflexivity]
    | apply kept_emit_all; solve [assumption | intros; reflexivity]
    | apply kept_modify; intros; reflexivity
    | apply kept_bind; [ | intros ? ]
    | match goal with
      | |- kept _ (match ?x with _ => _ end) => destruct x
      | |- kept _ (let _ := _ in _) => cbv zeta
      end ].

Ltac frame := repeat frame_step.

Section Basics.
Context {num : Type} {NUM : JsNumber num} {CM : CaseMapping}.

Lemma emit_all_run : forall (es : list (Emit num)) m,
  emit_all es m = Ok tt (set_stream (stream m ++ es) m).
Proof.
  induction es as [| e es IH]; intro m; simpl.
  - unfold ret. rewrite app_nil_r. destruct m; reflexivity.
  - unfold bind, emit, modify. rewrite IH. simpl.
    rewrite <- app_assoc. reflexivity.
Qed.

(** Selecting a backend never throws and only makes external calls. *)
Lemma try_fallbacks_run : forall W fbs last,
  (forall m, exists b k, last m = Ok b (set_clock k m)) ->
  forall m : Machine num, exists b k, try_fallbacks W fbs last m = Ok b (set_clock k m).
Proof.
  intros W fbs last Hlast. induction fbs as [| fb rest IH]; intro m; simpl.
  - apply Hlast.
  - destruct (getModel fb) as [fbDef |]; [| apply IH].
    unfold bind, tick.
    destruct (Vscode.selectChatModels W (clock m) (Some (family fbDef))) as [| [| b bs]].
    + eexists; eexists; reflexivity.
    + destruct (IH (set_clock (S (clock m)) m)) as (b & k & E).
      rewrite E. exists b, k. reflexivity.
    + eexists; eexists; reflexivity.
Qed.

Lemma selectCopilotModel_run : forall W (sel : ModelDefinition num) m,
  exists b k, selectCopilotModel W sel m = Ok b (set_clock k m).
Proof.
  intros W sel m. unfold selectCopilotModel, bind, tick.
  destruct (Vscode.selectChatModels W (clock m) (Some (family sel))) as [| [| b bs]].
  - eexists; eexists; reflexivity.
  - match goal with
    | |- context [try_fallbacks W ?f ?l ?m0] =>
        destruct (try_fallbacks_run W f l) with (m := m0) as (b & k & E)
    end.
    + intro m1. unfold bind, tick.
      destruct (Vscode.selectChatModels W (clock m1) None); eexists; eexists; reflexivity.
    + rewrite E. exists b, k. reflexivity.
  - eexists; eexists; reflexivity.
Qed.

End Basics.

(* ================================================================== *)
(** ** The policy check and the resolution of a model *)
(* ================================================================== *)

Arguments regex_test : simpl never.

Section Policy.
Context {num : Type} {NUM : JsNumber num}.

Lemma existsb_eqb_In : forall (x : string) (l : list string),
  existsb (String.eqb x) l = true <-> In x l.
Proof.
  intros x l. rewrite existsb_exists. split.
  - intros (y & Hin & Heq). apply String.eqb_eq in Heq. subst y. exact Hin.
  - intro Hin. exists x. split; [exact Hin | apply String.eqb_refl].
Qed.

Lemma indexOf_tier : forall t : CreditTier, indexOf (tier_name t) tierOrder = tierIndex t.
Proof. destruct t; reflexivity. Qed.

Lemma parseTier_name : forall s t, parseTier s = Some t -> s = tier_name t.
Proof.
  intros s t H. unfold parseTier in H. apply find_some in H.
  destruct H as [_ H]. apply String.eqb_eq in H. symmetry. exact H.
Qed.

Lemma parseTier_none_index : forall s, parseTier s = None -> indexOf s tierOrder = (-1)%Z.
Proof.
  intros s H. unfold parseTier in H.
  assert (Hno : forall t, String.eqb (tier_name t) s = false).
  { intro t. apply (find_none _ _ H). destruct t; simpl; auto. }
  pose proof (Hno free) as H1. pose proof (Hno cheap) as H2.
  pose proof (Hno standard) as H3. pose proof (Hno premium) as H4.
  unfold tier_name in H1, H2, H3, H4.
  unfold indexOf, tierOrder, indexOf_from.
  rewrite H1, H2, H3, H4. reflexivity.
Qed.

Lemma isModelAllowed_blocked : forall (cfg : Config num) (m : ModelDefinition num),
  In (id m) (blockedModels cfg) -> isModelAllowed cfg m = false.
Proof.
  intros cfg m Hin. unfold isModelAllowed.
  apply existsb_eqb_In in Hin. rewrite Hin. reflexivity.
Qed.

(** C3.  The policy check is a function of the model and the configuration
    alone.  It answers false for a model whose id is in [blockedModels];
    for any other model it answers true exactly when the index of the
    model's tier in the order free, cheap, standard, premium is at most the
    index of the configured [maxCreditTier] (an index that is -1, as
    [indexOf] gives it, when the setting names no tier, so that no model
    is then allowed). *)
Theorem C3_isModelAllowed_policy : forall (cfg : Config num) (m : ModelDefinition num),
  (In (id m) (blockedModels cfg) -> isModelAllowed cfg m = false) /\
  (~ In (id m) (blockedModels cfg) ->
     (isModelAllowed cfg m = true <->
      (indexOf (tier_name (creditTier m)) tierOrder
       <= indexOf (maxCreditTier cfg) tierOrder)%Z)) /\
  (forall ceiling, ~ In (id m) (blockedModels cfg) ->
     parseTier (maxCreditTier cfg) = Some ceiling ->
     (isModelAllowed cfg m = true <-> (tierIndex (creditTier m) <= tierIndex ceiling)%Z)) /\
  (parseTier (maxCreditTier cfg) = None -> isModelAllowed cfg m = false).
Proof.
  intros cfg m.
  assert (Hfree : ~ In (id m) (blockedModels cfg) ->
            isModelAllowed cfg m =
            (indexOf (tier_name (creditTier m)) tierOrder
             <=? indexOf (maxCreditTier cfg) tierOrder)%Z).
  { intro Hnot. unfold isModelAllowed.
    destruct (existsb (String.eqb (id m)) (blockedModels cfg)) eqn:E; [| reflexivity].
    apply existsb_eqb_In in E. contradiction. }
  split; [| split; [| split]].
  - apply isModelAllowed_blocked.
  - intro Hnot. rewrite (Hfree Hnot). apply Z.leb_le.
  - intros ceiling Hnot Hparse. rewrite (Hfree Hnot).
    rewrite (parseTier_name _ _ Hparse), !indexOf_tier. apply Z.leb_le.
  - intro Hnone. unfold isModelAllowed.
    destruct (existsb (String.eqb (id m)) (blockedModels cfg)); [reflexivity |].
    rewrite (parseTier_none_index _ Hnone), indexOf_tier.
    destruct (creditTier m); reflexivity.
Qed.

Lemma getModel_gpt4o : exists g : ModelDefinition num,
  getModel "gpt-4o" = Some g /\ id g = "gpt-4o" /\ name g = "GPT-4o" /\
  creditMultiplier g = nint 0 /\ creditTier g = free.
Proof. eexists. split; [reflexivity |]. repeat split. Qed.

Lemma getModel_empty : getModel (num := num) "" = None.
Proof. reflexivity. Qed.

Lemma getModel_id : forall i (m : ModelDefinition num), getModel i = Some m -> id m = i.
Proof.
  intros i m H. unfold getModel in H. apply find_some in H.
  destruct H as [_ H]. apply String.eqb_eq. exact H.
Qed.

(** C2.  Automatic resolution by priority: the model that
    [taskRouting] names for the task type, when it is in the catalog and
    passes the policy check; otherwise the model of the default routing
    table, under the same two conditions; otherwise the catalog entry
    [gpt-4o], whose credit multiplier is 0. *)
Theorem C2_getModelForTask_priority : forall (cfg : Config num) (t : TaskType),
  (forall i model,
     obj_get (task_name t) (taskRouting cfg) = Some i ->
     getModel i = Some model -> isModelAllowed cfg model = true ->
     getModelForTask cfg t = Some model) /\
  ((forall i model,
      obj_get (task_name t) (taskRouting cfg) = Some i ->
      getModel i = Some model -> isModelAllowed cfg model = false) ->
   (forall model,
      getModel (DEFAULT_TASK_ROUTING t) = Some model ->
      isModelAllowed cfg model = true ->
      getModelForTask cfg t = Some model) /\
   ((forall model,
       getModel (DEFAULT_TASK_ROUTING t) = Some model ->
       isModelAllowed cfg model = false) ->
    exists g, getModelForTask cfg t = Some g /\ getModel "gpt-4o" = Some g /\
              id g = "gpt-4o" /\ creditMultiplier g = nint 0)).
Proof.
  intros cfg t. split.
  - intros i model Hget Hcat Hok. unfold getModelForTask. rewrite Hget.
    destruct (String.eqb i "") eqn:E.
    + apply String.eqb_eq in E. subst i. rewrite getModel_empty in Hcat. discriminate.
    + rewrite Hcat, Hok. reflexivity.
  - intro Hadmin.
    assert (Hskip : getModelForTask cfg t =
              match getModel (DEFAULT_TASK_ROUTING t) with
              | Some model => if isModelAllowed cfg model then Some model else getModel "gpt-4o"
              | None => getModel "gpt-4o"
              end).
    { unfold getModelForTask.
      destruct (obj_get (task_name t) (taskRouting cfg)) as [i |] eqn:Hget; [| reflexivity].
      destruct (String.eqb i ""); [reflexivity |].
      destruct (getModel i) as [model |] eqn:Hcat; [| reflexivity].
      rewrite (Hadmin i model eq_refl Hcat). reflexivity. }
    split.
    + intros model Hcat Hok. rewrite Hskip, Hcat, Hok. reflexivity.
    + intro Hdefault. destruct getModel_gpt4o as (g & Hg & Hid & _ & Hmult & _).
      exists g. rewrite Hskip.
      destruct (getModel (DEFAULT_TASK_ROUTING t)) as [model |] eqn:Hcat.
      * rewrite (Hdefault model eq_refl). auto.
      * auto.
Qed.

End Policy.

(* ================================================================== *)
(** ** Classification *)
(* ================================================================== *)

Section Classification.
Context {num : Type} {NUM : JsNumber num} {CM : CaseMapping}.

(** C4.  The keyword classifier is a function of the prompt, defined for
    every prompt: its result is the label of the first rule of the table
    (in the order test, debug, security, architecture, refactor, algorithm,
    review, documentation, conversion, function, simple, autocomplete)
    that matches the lowercased prompt, and [function] when no rule
    matches.  In particular a prompt with vocabulary of the test rule is
    classified as [test] whatever else it contains. *)
Theorem C4_fallbackClassify_first_rule : forall prompt : text,
  map fst classifier_rules =
    [test; debug; security; architecture; refactor; algorithm; review;
     documentation; conversion; function; simple; autocomplete] /\
  (forall t, first_matching_rule (toLowerCase prompt) = Some t ->
             fallbackClassify prompt = t) /\
  (first_matching_rule (toLowerCase prompt) = None ->
   fallbackClassify prompt = function) /\
  (regex_test re_test (toLowerCase prompt) = true ->
   regex_test re_debug (toLowerCase prompt) = true ->
   fallbackClassify prompt = test).
Proof.
  intro prompt. split; [reflexivity |].
  assert (Heq : fallbackClassify prompt =
                match first_matching_rule (toLowerCase prompt) with
                | Some t => t
                | None => function
                end).
  { unfold fallbackClassify, first_matching_rule, classifier_rules.
    cbv zeta. cbn [find option_map fst snd].
    repeat match goal with
           | |- context [regex_test ?r ?p] => destruct (regex_test r p); try reflexivity
           end. }
  split; [| split].
  - intros t H. rewrite Heq, H. reflexivity.
  - intro H. rewrite Heq, H. reflexivity.
  - intros Htest _. unfold fallbackClassify. cbv zeta. rewrite Htest. reflexivity.
Qed.

(** What the classifier reads off a drained response. *)
Lemma classifyPrompt_run : forall (cfg : Config num) W prompt (m : Machine num),
  exists t k, classifyPrompt cfg W prompt m = Ok t (set_clock k m) /\
              (clock m <= k <= clock m + 2)%nat.
Proof.
  intros cfg W prompt m. unfold classifyPrompt.
  destruct (getModel (classifierModel cfg)) as [cdef |].
  2: { exists (fallbackClassify prompt), (clock m). unfold ret.
       split; [destruct m; reflexivity | lia]. }
  unfold bind, tick.
  destruct (Vscode.selectChatModels W (clock m) (Some (family cdef))) as [| [| b bs]].
  1, 2: (exists (fallbackClassify prompt), (S (clock m)); unfold ret;
         split; [reflexivity | lia]).
  cbv zeta. cbn [clock set_clock].
  match goal with
  | |- context [Vscode.ending ?r] => destruct (Vscode.ending r)
  end.
  2, 3: (exists (fallbackClassify prompt), (S (S (clock m))); unfold ret;
         split; [reflexivity | lia]).
  match goal with
  | |- context [match_TASK ?r] => destruct (match_TASK r) as [label |]
  end.
  2: (exists (fallbackClassify prompt), (S (S (clock m))); unfold ret;
      split; [reflexivity | lia]).
  destruct (task_of_label (toLowerCase label)) as [t |].
  - exists t, (S (S (clock m))). unfold ret. split; [reflexivity | lia].
  - exists (fallbackClassify prompt), (S (S (clock m))). unfold ret.
    split; [reflexivity | lia].
Qed.

Lemma startsWith_split : forall p s : text,
  startsWith p s = true -> exists rest, s = p ++ rest.
Proof.
  induction p as [| x p IH]; intros s H.
  - exists s. reflexivity.
  - destruct s as [| y s]; [discriminate H |]. simpl in H.
    apply andb_true_iff in H. destruct H as [Hx Hp].
    apply N.eqb_eq in Hx. subst y.
    destruct (IH s Hp) as (rest & E). exists rest. rewrite E. reflexivity.
Qed.

(** [s.includes(p)] says that [p] occurs in [s]. *)
Lemma includes_occurs : forall p s : text,
  includes p s = true <-> exists before rest, s = before ++ p ++ rest.
Proof.
  intros p s. split.
  - induction s as [| c s IH]; intro H; simpl in H; apply orb_true_iff in H.
    + destruct H as [H | H]; [| discriminate H].
      destruct (startsWith_split _ _ H) as (rest & E). exists [], rest. exact E.
    + destruct H as [H | H].
      * destruct (startsWith_split _ _ H) as (rest & E). exists [], rest. exact E.
      * destruct (IH H) as (before & rest & E). exists (c :: before), rest.
        rewrite E. reflexivity.
  - intros (before & rest & E). subst s.
    assert (Hstart : forall r, startsWith p (p ++ r) = true).
    { intro r. induction p as [| x p IH]; simpl; [reflexivity |].
      rewrite N.eqb_refl. exact IH. }
    assert (Hhead : forall r, startsWith p r = true -> includes p r = true).
    { intros r Hr. destruct r; simpl; rewrite Hr; reflexivity. }
    induction before as [| c before IH]; simpl.
    + apply Hhead. apply Hstart.
    + rewrite IH. apply orb_true_r.
Qed.

Lemma startsWith_ci_split : forall p s : text,
  startsWith_ci p s = true ->
  s = firstn (List.length p) s ++ skipn (List.length p) s /\
  map fold_ascii (firstn (List.length p) s) = map fold_ascii p.
Proof.
  induction p as [| x p IH]; intros s H.
  - split; reflexivity.
  - destruct s as [| y s]; [discriminate H |]. simpl in H.
    apply andb_true_iff in H. destruct H as [Hx Hp].
    apply N.eqb_eq in Hx. destruct (IH s Hp) as [E1 E2].
    split; simpl.
    + rewrite <- E1. reflexivity.
    + rewrite E2, Hx. reflexivity.
Qed.

Lemma take_nonspace_split : forall s : text,
  exists rest,
    s = take_nonspace s ++ rest /\
    forallb (fun c => negb (is_space c)) (take_nonspace s) = true /\
    match rest with
    | [] => True
    | c :: _ => is_space c = true
    end.
Proof.
  induction s as [| c s IH]; simpl.
  - exists []. repeat split.
  - destruct (is_space c) eqn:E.
    + exists (c :: s). repeat split. exact E.
    + destruct IH as (rest & E1 & E2 & E3). exists rest. simpl.
      rewrite E, E2, <- E1. repeat split. exact E3.
Qed.

(** What [match_TASK] returns is the label of a tag of the response: a
    non-empty whole run of characters other than white space, after
    [TASK:] in some letter case. *)
Lemma match_TASK_shape : forall s label,
  match_TASK s = Some label ->
  label <> [] /\
  exists before tag rest,
    s = before ++ tag ++ label ++ rest /\
    map fold_ascii tag = map fold_ascii (txt "TASK:") /\
    forallb (fun c => negb (is_space c)) label = true /\
    match rest with
    | [] => True
    | c :: _ => is_space c = true
    end.
Proof.
  induction s as [| c s IH]; intros label H; [discriminate H |].
  cbn [match_TASK] in H.
  assert (Hlater : match_TASK s = Some label ->
                   label <> [] /\
                   exists before tag rest,
                     c :: s = before ++ tag ++ label ++ rest /\
                     map fold_ascii tag = map fold_ascii (txt "TASK:") /\
                     forallb (fun c => negb (is_space c)) label = true /\
                     match rest with
                     | [] => True
                     | c :: _ => is_space c = true
                     end).
  { intro Hs. destruct (IH label Hs) as (Hne & before & tag & rest & E & Htag & Hrun & Hend).
    split; [exact Hne |]. exists (c :: before), tag, rest.
    rewrite E. repeat split; assumption. }
  destruct (startsWith_ci (txt "TASK:") (c :: s)) eqn:Hstart; [| exact (Hlater H)].
  destruct (take_nonspace (skipn 5 (c :: s))) as [| l0 ls] eqn:Hrun; [exact (Hlater H) |].
  inversion H; subst label. clear H Hlater.
  split; [discriminate |].
  destruct (startsWith_ci_split _ _ Hstart) as [Esplit Etag].
  destruct (take_nonspace_split (skipn 5 (c :: s))) as (rest & E1 & E2 & E3).
  rewrite Hrun in E1, E2.
  exists [], (firstn 5 (c :: s)), rest.
  change (List.length (txt "TASK:")) with 5%nat in Esplit, Etag.
  repeat split; try assumption.
  rewrite <- E1. exact Esplit.
Qed.

Lemma text_eqb_eq : forall a b : text, text_eqb a b = true <-> a = b.
Proof.
  induction a as [| x a IH]; destruct b as [| y b]; simpl; split; intro H;
    try reflexivity; try discriminate.
  - apply andb_true_iff in H. destruct H as [Hx Hab].
    apply N.eqb_eq in Hx. apply IH in Hab. subst. reflexivity.
  - inversion H; subst. rewrite N.eqb_refl. apply IH. reflexivity.
Qed.

(** A label is accepted exactly when it is the name of a task type. *)
Lemma task_of_label_name : forall label t,
  task_of_label label = Some t <-> label = txt (task_name t).
Proof.
  intros label t. split.
  - intro H. unfold task_of_label in H. apply find_some in H.
    destruct H as [_ H]. apply text_eqb_eq in H. symmetry. exact H.
  - intro H. subst label. destruct t; reflexivity.
Qed.

(** C8, as the code has it.  The classifier reads the first place of the
    response where [TASK:] (in any letter case) is followed by a character
    that is no white space, and takes as label the whole run of such
    characters.  When that label, lowercased, is the name of a task type,
    the task type is the result.  In every other case (the classifier
    model is not in the catalog, the selection fails or returns no backend,
    the request or its stream raises, the response has no such place, the
    label is no task type) the result is that of the keyword classifier.
    The run makes at most two external calls, one selection and one
    request, and changes nothing else. *)
Theorem C8_classifyPrompt_first_tag : forall (cfg : Config num) W prompt (m : Machine num),
  (forall cdef b bs label t,
     getModel (classifierModel cfg) = Some cdef ->
     Vscode.selectChatModels W (clock m) (Some (family cdef)) = Vscode.SelectReturns (b :: bs) ->
     Vscode.ending (Vscode.sendRequest W (S (clock m)) b (classifierMessages prompt))
       = Vscode.StreamDone ->
     match_TASK (List.concat
       (Vscode.chunks (Vscode.sendRequest W (S (clock m)) b (classifierMessages prompt))))
       = Some label ->
     toLowerCase label = txt (task_name t) ->
     classifyPrompt cfg W prompt m = Ok t (set_clock (2 + clock m) m)) /\
  (getModel (classifierModel cfg) = None ->
   classifyPrompt cfg W prompt m = Ok (fallbackClassify prompt) m) /\
  (forall cdef,
     getModel (classifierModel cfg) = Some cdef ->
     Vscode.selectChatModels W (clock m) (Some (family cdef)) = Vscode.SelectFails \/
     Vscode.selectChatModels W (clock m) (Some (family cdef)) = Vscode.SelectReturns [] ->
     classifyPrompt cfg W prompt m = Ok (fallbackClassify prompt) (set_clock (1 + clock m) m)) /\
  (forall cdef b bs,
     getModel (classifierModel cfg) = Some cdef ->
     Vscode.selectChatModels W (clock m) (Some (family cdef)) = Vscode.SelectReturns (b :: bs) ->
     Vscode.ending (Vscode.sendRequest W (S (clock m)) b (classifierMessages prompt))
       <> Vscode.StreamDone \/
     match_TASK (List.concat
       (Vscode.chunks (Vscode.sendRequest W (S (clock m)) b (classifierMessages prompt))))
       = None \/
     (exists label,
        match_TASK (List.concat
          (Vscode.chunks (Vscode.sendRequest W (S (clock m)) b (classifierMessages prompt))))
          = Some label /\
        forall t, toLowerCase label <> txt (task_name t)) ->
     classifyPrompt cfg W prompt m = Ok (fallbackClassify prompt) (set_clock (2 + clock m) m)) /\
  (exists t k, classifyPrompt cfg W prompt m = Ok t (set_clock k m) /\
               (clock m <= k <= clock m + 2)%nat).
Proof.
  intros cfg W prompt m. repeat split.
  - intros cdef b bs label t Hcat Hsel Hend Hmatch Hlabel.
    unfold classifyPrompt. rewrite Hcat. unfold bind, tick. rewrite Hsel.
    cbv zeta. cbn [clock set_clock]. rewrite Hend, Hmatch.
    apply task_of_label_name in Hlabel. rewrite Hlabel. reflexivity.
  - intro Hcat. unfold classifyPrompt. rewrite Hcat. reflexivity.
  - intros cdef Hcat [Hsel | Hsel]; unfold classifyPrompt; rewrite Hcat;
      unfold bind, tick; rewrite Hsel; reflexivity.
  - intros cdef b bs Hcat Hsel Hcases.
    unfold classifyPrompt. rewrite Hcat. unfold bind, tick. rewrite Hsel.
    cbv zeta. cbn [clock set_clock].
    destruct (Vscode.ending (Vscode.sendRequest W (S (clock m)) b (classifierMessages prompt)))
      eqn:Hend; try reflexivity.
    destruct Hcases as [Hnot | [Hnone | (label & Hsome & Hunknown)]].
    + contradiction.
    + rewrite Hnone. reflexivity.
    + rewrite Hsome.
      destruct (task_of_label (toLowerCase label)) as [t |] eqn:Htask; [| reflexivity].
      apply task_of_label_name in Htask. destruct (Hunknown t Htask).
  - destruct (classifyPrompt_run cfg W prompt m) as (t & k & E & Hk).
    exists t, k. split; [exact E | exact Hk].
Qed.

End Classification.

(* ================================================================== *)
(** ** The feedback log *)
(* ================================================================== *)

Section FeedbackCap.
Context {num : Type} {NUM : JsNumber num}.

Lemma slice_last_all : forall A n (l : list A),
  (List.length l <= n)%nat -> slice_last n l = l.
Proof.
  intros A n l H. unfold slice_last.
  replace (List.length l - n)%nat with 0%nat by lia. reflexivity.
Qed.

Lemma slice_last_length : forall A n (l : list A),
  List.length (slice_last n l) = Nat.min n (List.length l).
Proof. intros A n l. unfold slice_last. rewrite length_skipn. lia. Qed.

Lemma trim_is_slice : forall A (l : list A),
  (if (1000 <? List.length l)%nat then slice_last 1000 l else l) = slice_last 1000 l.
Proof.
  intros A l. destruct (1000 <? List.length l)%nat eqn:E; [reflexivity |].
  apply Nat.ltb_ge in E. symmetry. apply slice_last_all. exact E.
Qed.

Lemma slice_last_app : forall A n (a b : list A),
  slice_last n (slice_last n a ++ b) = slice_last n (a ++ b).
Proof.
  intros A n a b.
  destruct (Nat.le_gt_cases (List.length a) n) as [Hle | Hgt].
  - rewrite (slice_last_all _ _ _ Hle). reflexivity.
  - unfold slice_last at 1 3. rewrite !length_app, slice_last_length.
    replace (Nat.min n (List.length a) + List.length b - n)%nat
      with (List.length b) by lia.
    replace (List.length a + List.length b - n)%nat
      with ((List.length a - n) + List.length b)%nat by lia.
    unfold slice_last.
    rewrite Nat.add_comm, <- skipn_skipn. f_equal.
    rewrite skipn_app.
    replace (List.length a - n - List.length a)%nat with 0%nat by lia.
    reflexivity.
Qed.

(** One recording: the entry is appended, the log is cut to its last 1000
    entries, and the clock advances by the external calls made. *)
Lemma call_run : forall (cfg : Config num) W c (m : Machine num),
  feedbackLog (after (call cfg W c m))
    = slice_last 1000 (feedbackLog m ++ [entry_of W c (clock m)]) /\
  clock (after (call cfg W c m)) = (clock m + ticks_of cfg)%nat.
Proof.
  intros cfg W c m.
  destruct c; unfold call, recordFeedback, recordOverride, ticks_of, sendToEndpoint,
    persistFeedback, push_entry, bind, tick, modify, ret;
    destruct (String.eqb (feedbackEndpoint cfg) ""); cbn -[Nat.ltb];
    rewrite trim_is_slice; split; try reflexivity; lia.
Qed.

Lemma call_all_log : forall (cfg : Config num) W cs (m : Machine num),
  slice_last 1000 (feedbackLog (call_all cfg W cs m))
    = slice_last 1000 (feedbackLog m ++ appended cfg W cs (clock m)).
Proof.
  intros cfg W cs. induction cs as [| c rest IH]; intro m; simpl.
  - rewrite app_nil_r. reflexivity.
  - rewrite IH. destruct (call_run cfg W c m) as [Hlog Hclock].
    rewrite Hlog, Hclock, slice_last_app, <- app_assoc. reflexivity.
Qed.

Lemma call_all_trimmed : forall (cfg : Config num) W cs (m : Machine num),
  cs <> [] -> (List.length (feedbackLog (call_all cfg W cs m)) <= 1000)%nat.
Proof.
  intros cfg W cs. induction cs as [| c rest IH]; intros m Hne; [congruence |].
  simpl. destruct rest as [| c' rest'].
  - simpl. destruct (call_run cfg W c m) as [Hlog _].
    rewrite Hlog, slice_last_length. lia.
  - apply IH. discriminate.
Qed.

Lemma appended_length : forall (cfg : Config num) W cs t,
  List.length (appended cfg W cs t) = List.length cs.
Proof.
  intros cfg W cs. induction cs as [| c rest IH]; intro t; simpl; [| rewrite IH]; reflexivity.
Qed.

Lemma appended_skipn : forall (cfg : Config num) W k cs t,
  skipn k (appended cfg W cs t) = appended cfg W (skipn k cs) (t + k * ticks_of cfg).
Proof.
  intros cfg W k. induction k as [| k IH]; intros cs t.
  - simpl. rewrite Nat.add_0_r. reflexivity.
  - destruct cs as [| c rest]; [reflexivity |].
    simpl skipn. cbn [appended]. rewrite IH. f_equal. lia.
Qed.

(** C6.  After a call of [recordFeedback] or of [recordOverride] the
    feedback log has at most 1000 entries, whatever it held before.  After
    1000 + k calls (k >= 1) it holds exactly 1000 entries: those appended
    by the last 1000 calls, in the order of the calls. *)
Theorem C6_feedback_log_capped : forall (cfg : Config num) W (m : Machine num),
  (forall c, (List.length (feedbackLog (after (call cfg W c m))) <= 1000)%nat) /\
  (forall cs k, (1 <= k)%nat -> List.length cs = (1000 + k)%nat ->
     List.length (feedbackLog (call_all cfg W cs m)) = 1000%nat /\
     feedbackLog (call_all cfg W cs m) = slice_last 1000 (appended cfg W cs (clock m)) /\
     feedbackLog (call_all cfg W cs m)
       = appended cfg W (skipn k cs) (clock m + k * ticks_of cfg)).
Proof.
  intros cfg W m. split.
  - intro c. destruct (call_run cfg W c m) as [Hlog _].
    rewrite Hlog, slice_last_length. lia.
  - intros cs k Hk Hlen.
    assert (Hne : cs <> []) by (intro E; subst cs; simpl in Hlen; lia).
    pose proof (call_all_trimmed cfg W cs m Hne) as Htrim.
    pose proof (call_all_log cfg W cs m) as Hlog.
    rewrite (slice_last_all _ _ _ Htrim) in Hlog.
    assert (Hlast : feedbackLog (call_all cfg W cs m)
                    = slice_last 1000 (appended cfg W cs (clock m))).
    { rewrite Hlog. unfold slice_last.
      rewrite length_app, appended_length, Hlen.
      replace (List.length (feedbackLog m) + (1000 + k) - 1000)%nat
        with (List.length (feedbackLog m) + k)%nat by lia.
      replace (1000 + k - 1000)%nat with k by lia.
      rewrite Nat.add_comm, <- skipn_skipn. f_equal.
      rewrite skipn_app, skipn_all, Nat.sub_diag. reflexivity. }
    split; [| split].
    + rewrite Hlast, slice_last_length, appended_length, Hlen. lia.
    + exact Hlast.
    + rewrite Hlast. unfold slice_last. rewrite appended_length, Hlen.
      replace (1000 + k - 1000)%nat with k by lia.
      apply appended_skipn.
Qed.

End FeedbackCap.

(* ================================================================== *)
(** ** The chat handler: what each phase changes *)
(* ================================================================== *)

Section PhaseFrames.
Context {num : Type} {NUM : JsNumber num} {CM : CaseMapping}.
Context {X : Type} (proj : Machine num -> X).
Hypothesis proj_clock : forall k m, proj (set_clock k m) = proj m.

Lemma kept_of_run : forall A (c : M num A),
  (forall m, exists a k, c m = Ok a (set_clock k m)) -> kept proj c.
Proof.
  intros A c Hrun m. destruct (Hrun m) as (a & k & E). rewrite E. simpl.
  apply proj_clock.
Qed.

Lemma selectCopilotModel_kept : forall W (sel : ModelDefinition num),
  kept proj (selectCopilotModel W sel).
Proof. intros W sel. apply kept_of_run. apply selectCopilotModel_run. Qed.

Lemma classifyPrompt_kept : forall (cfg : Config num) W prompt,
  kept proj (classifyPrompt cfg W prompt).
Proof.
  intros cfg W prompt. apply kept_of_run. intro m.
  destruct (classifyPrompt_run cfg W prompt m) as (t & k & E & _).
  exists t, k. exact E.
Qed.

Lemma generateRequestId_kept : forall W, kept proj (generateRequestId W).
Proof. intro W. unfold generateRequestId. frame. Qed.

Hypothesis proj_stream : forall s m, proj (set_stream s m) = proj m.

Lemma policyGuard_kept : forall (cfg : Config num) sel, kept proj (policyGuard cfg sel).
Proof. intros cfg sel. unfold policyGuard. frame. Qed.

Lemma handleStatsCommand_kept : forall cfg : Config num, kept proj (handleStatsCommand cfg).
Proof. intro cfg. unfold handleStatsCommand. frame. Qed.

Lemma handleBudgetCommand_kept : forall cfg : Config num, kept proj (handleBudgetCommand cfg).
Proof. intro cfg. unfold handleBudgetCommand. frame. Qed.

Hypothesis proj_statusBarItem : forall v m, proj (set_statusBarItem v m) = proj m.
Hypothesis proj_sessionStats : forall v m, proj (set_sessionStats v m) = proj m.
Hypothesis proj_lastRequest : forall v m, proj (set_lastRequest v m) = proj m.

(** Pass 2 writes the clock, the stream, the status bar, the statistics
    and the last request, and nothing else. *)
Lemma pass2_kept : forall (cfg : Config num) W rid cleanPrompt t sel reason history,
  kept proj (pass2 cfg W rid cleanPrompt t sel reason history).
Proof.
  intros. unfold pass2.
  assert (Hbar : forall mo, kept proj (updateStatusBar cfg mo)).
  { intro mo. unfold updateStatusBar. apply kept_modify. intro m.
    apply proj_statusBarItem. }
  apply kept_bind; [apply selectCopilotModel_kept | intro backend].
  destruct backend as [model |]; [| frame].
  apply kept_bind; [frame | intros _].
  apply kept_bind; [apply Hbar | intros _].
  cbv zeta. apply kept_bind; [frame | intro t0].
  apply kept_bind; [frame | intros _].
  destruct (Vscode.ending _); [| frame | frame].
  apply kept_bind; [apply kept_modify; intro; apply proj_sessionStats | intros _].
  apply kept_bind; [apply kept_modify; intro; apply proj_lastRequest | intros _].
  apply kept_bind; [frame | intros _].
  apply kept_bind; [frame | intros _].
  apply kept_bind; [apply Hbar | intros _].
  frame.
Qed.

End PhaseFrames.

Section HandlerFrames.
Context {num : Type} {NUM : JsNumber num} {CM : CaseMapping}.

Lemma updateStatusBar_stats : forall (cfg : Config num) mo,
  kept sessionStats (updateStatusBar cfg mo).
Proof. intros cfg mo. unfold updateStatusBar. frame. Qed.

Lemma updateStatusBar_feedback : forall (cfg : Config num) mo,
  kept feedbackLog (updateStatusBar cfg mo).
Proof. intros cfg mo. unfold updateStatusBar. frame. Qed.

Lemma recordOverride_stats : forall (cfg : Config num) W rid a b t,
  kept sessionStats (recordOverride cfg W rid a b t).
Proof.
  intros. unfold recordOverride, push_entry, persistFeedback, sendToEndpoint. frame.
Qed.

Lemma recordFeedback_stats : forall (cfg : Config num) W rid a t up pl rt,
  kept sessionStats (recordFeedback cfg W rid a t up pl rt).
Proof.
  intros. unfold recordFeedback, push_entry, persistFeedback, sendToEndpoint. frame.
Qed.

Lemma recordFeedback_force : forall (cfg : Config num) W rid a t up pl rt,
  kept forceModelId (recordFeedback cfg W rid a t up pl rt).
Proof.
  intros. unfold recordFeedback, push_entry, persistFeedback, sendToEndpoint. frame.
Qed.

Lemma pass1_stats : forall (cfg : Config num) W rid forcedId cleanPrompt,
  kept sessionStats (pass1 cfg W rid forcedId cleanPrompt).
Proof.
  intros. unfold pass1. cbv zeta.
  assert (Hauto : kept sessionStats
            (emit (num := num) Progress ;;
             taskType <- classifyPrompt cfg W cleanPrompt ;;
             match getModelForTask cfg taskType with
             | Some selected => ret (taskType, selected, Routed taskType (name selected))
             | None => throw TypeError
             end)).
  { apply kept_bind; [apply kept_emit; reflexivity | intros _].
    apply kept_bind; [apply classifyPrompt_kept; reflexivity | intro t].
    frame. }
  destruct forcedId as [forced |]; [| exact Hauto].
  destruct (String.eqb forced ""); [exact Hauto |].
  destruct (getModel forced); [| frame].
  apply kept_bind; [frame | intro m0].
  apply kept_bind; [| intros; frame].
  destruct (lastRequest m0) as [last |]; [| frame].
  destruct (negb (String.eqb (modelId last) forced)); [| frame].
  apply recordOverride_stats.
Qed.

Lemma pass1_force : forall (cfg : Config num) W rid forcedId cleanPrompt,
  kept forceModelId (pass1 cfg W rid forcedId cleanPrompt).
Proof.
  intros. unfold pass1. cbv zeta.
  assert (Hauto : kept forceModelId
            (emit (num := num) Progress ;;
             taskType <- classifyPrompt cfg W cleanPrompt ;;
             match getModelForTask cfg taskType with
             | Some selected => ret (taskType, selected, Routed taskType (name selected))
             | None => throw TypeError
             end)).
  { apply kept_bind; [apply kept_emit; reflexivity | intros _].
    apply kept_bind; [apply classifyPrompt_kept; reflexivity | intro t].
    frame. }
  destruct forcedId as [forced |]; [| exact Hauto].
  destruct (String.eqb forced ""); [exact Hauto |].
  destruct (getModel forced); [| frame].
  apply kept_bind; [frame | intro m0].
  apply kept_bind; [| intros; frame].
  destruct (lastRequest m0) as [last |]; [| frame].
  destruct (negb (String.eqb (modelId last) forced)); [| frame].
  unfold recordOverride, push_entry, persistFeedback, sendToEndpoint. frame.
Qed.

End HandlerFrames.

Section HandlerRuns.
Context {num : Type} {NUM : JsNumber num} {CM : CaseMapping}.

Lemma recordOverride_run : forall (cfg : Config num) W rid a b t m,
  recordOverride cfg W rid a b t m = Ok tt (after (recordOverride cfg W rid a b t m)).
Proof.
  intros. unfold recordOverride, push_entry, persistFeedback, sendToEndpoint,
    bind, tick, modify, ret.
  destruct (String.eqb (feedbackEndpoint cfg) ""); reflexivity.
Qed.

(** Pass 1 with a forced model of the catalog: the task type comes from
    the keyword classifier, and an override is recorded exactly when a
    last request exists and its model id differs from the forced one. *)
Lemma pass1_forced : forall (cfg : Config num) W rid forced cleanPrompt sel m,
  forced <> "" -> getModel forced = Some sel ->
  pass1 cfg W rid (Some forced) cleanPrompt m =
  Ok (fallbackClassify cleanPrompt, sel, Manual (name sel))
     match lastRequest m with
     | Some last =>
         if String.eqb (modelId last) forced then m
         else after (recordOverride cfg W rid (modelId last) forced
                       (task_name (fallbackClassify cleanPrompt)) m)
     | None => m
     end.
Proof.
  intros cfg W rid forced cleanPrompt sel m Hne Hcat. unfold pass1. cbv zeta.
  apply String.eqb_neq in Hne. rewrite Hne, Hcat.
  unfold bind at 1. unfold get at 1.
  destruct (lastRequest m) as [last |]; [| reflexivity].
  destruct (String.eqb (modelId last) forced); [reflexivity |].
  unfold bind. cbn [negb]. rewrite recordOverride_run. reflexivity.
Qed.

Lemma policyGuard_allowed : forall (cfg : Config num) sel m,
  isModelAllowed cfg sel = true -> policyGuard cfg sel m = Ok sel m.
Proof. intros cfg sel m H. unfold policyGuard. rewrite H. reflexivity. Qed.

(** The policy guard on a model that is not allowed: a notice, and the
    catalog entry [gpt-4o], which is not checked in its turn. *)
Lemma policyGuard_restricted : forall (cfg : Config num) sel m,
  isModelAllowed cfg sel = false ->
  exists g, getModel "gpt-4o" = Some g /\
    policyGuard cfg sel m = Ok g (set_stream (stream m ++ [MdRestricted (name sel)]) m).
Proof.
  intros cfg sel m H. destruct getModel_gpt4o as (g & Hg & _).
  exists g. split; [exact Hg |].
  unfold policyGuard. rewrite H. cbn [negb]. unfold bind, emit, modify.
  rewrite Hg. reflexivity.
Qed.

(** Pass 2 either leaves the statistics and the last request as they were
    and does not complete, or completes: the statistics are those of
    [recordCompletion] for the selected model and the last request names
    it.  In both cases the response stream only grows. *)
Lemma pass2_cases : forall (cfg : Config num) W rid cleanPrompt t sel reason history m,
  (exists tail,
     stream (after (pass2 cfg W rid cleanPrompt t sel reason history m)) = stream m ++ tail) /\
  ((sessionStats (after (pass2 cfg W rid cleanPrompt t sel reason history m)) = sessionStats m /\
    lastRequest (after (pass2 cfg W rid cleanPrompt t sel reason history m)) = lastRequest m /\
    forall nm t' c rid' m',
      pass2 cfg W rid cleanPrompt t sel reason history m <> Ok (ResultDone nm t' c rid') m')
   \/
   (exists out,
      pass2 cfg W rid cleanPrompt t sel reason history m =
        Ok (ResultDone (name sel) t (creditMultiplier sel) rid)
           (after (pass2 cfg W rid cleanPrompt t sel reason history m)) /\
      sessionStats (after (pass2 cfg W rid cleanPrompt t sel reason history m))
        = recordCompletion (sessionStats m) sel t cleanPrompt out /\
      lastRequest (after (pass2 cfg W rid cleanPrompt t sel reason history m))
        = Some {| prompt := cleanPrompt; requestId := rid;
                  modelId := id sel; taskType := t |})).
Proof.
  intros. remember (pass2 cfg W rid cleanPrompt t sel reason history m) as r eqn:Hr.
  unfold pass2 in Hr. unfold bind at 1 in Hr.
  destruct (selectCopilotModel_run W sel m) as (backend & k & E). rewrite E in Hr.
  destruct backend as [model |].
  2: { subst r. split; [eexists; reflexivity |].
       left. split; [reflexivity | split; [reflexivity | intros; discriminate]]. }
  cbv zeta in Hr.
  unfold bind, emit, modify, updateStatusBar, tick, ret, get in Hr.
  destruct (showModelInfo cfg); cbn -[recordCompletion statusBarPercent nle] in Hr;
    rewrite emit_all_run in Hr;
    match type of Hr with
    | context [Vscode.ending ?x] => destruct (Vscode.ending x)
    end;
    cbn -[recordCompletion statusBarPercent nle] in Hr;
    try (subst r; split; [cbn; rewrite <- ?app_assoc; eexists; reflexivity |];
         left; split; [reflexivity | split; [reflexivity | intros; discriminate]]).
  all: destruct (collectFeedback cfg); cbn -[recordCompletion statusBarPercent nle] in Hr;
    match type of Hr with
    | context [if nle ?a ?b then _ else _] => destruct (nle a b)
    end; cbn -[recordCompletion statusBarPercent nle] in Hr;
    subst r; split.
  all: try (cbn; rewrite <- ?app_assoc; eexists; reflexivity).
  all: right; eexists; split; try reflexivity; split; reflexivity.
Qed.

End HandlerRuns.

(* ================================================================== *)
(** ** The chat handler: forced models, policy and accounting *)
(* ================================================================== *)

Section HandlerProps.
Context {num : Type} {NUM : JsNumber num} {CM : CaseMapping}.

(** An enabled handler, on a request that is no slash command and whose
    scan gives a forced id and a cleaned prompt, runs the three phases with
    a fresh request id and the picker's choice consumed. *)
Lemma handleChatRequest_phases : forall (cfg : Config num) W request history m forcedId cleanPrompt,
  enabled cfg = true ->
  is_command "stats" request = false ->
  is_command "budget" request = false ->
  scanForce (Chat.prompt request) (forceModelId m) = Some (forcedId, cleanPrompt) ->
  handleChatRequest cfg W request history m =
  (routed <- pass1 cfg W (Vscode.requestIdAt W (clock m)) forcedId cleanPrompt ;;
   selected <- policyGuard cfg (snd (fst routed)) ;;
   pass2 cfg W (Vscode.requestIdAt W (clock m)) cleanPrompt (fst (fst routed)) selected
     (snd routed) history)
  (set_forceModelId None (set_clock (S (clock m)) m)).
Proof.
  intros cfg W request history m forcedId cleanPrompt Hen Hstats Hbudget Hscan.
  unfold handleChatRequest. rewrite Hen. cbn [negb].
  unfold generateRequestId. unfold bind at 1. unfold bind at 1. unfold tick at 1.
  unfold ret at 1. rewrite Hstats, Hbudget.
  unfold bind at 1. unfold get at 1. unfold bind at 1. unfold modify at 1.
  cbn [forceModelId set_clock]. rewrite Hscan. reflexivity.
Qed.

Lemma after_bind_ok : forall A B (c : M num A) (k : A -> M num B) m a m1,
  c m = Ok a m1 -> bind c k m = k a m1.
Proof. intros A B c k m a m1 H. unfold bind. rewrite H. reflexivity. Qed.

Lemma guard_then_pass2_feedback :
  forall (cfg : Config num) W rid cleanPrompt t sel reason history,
  kept feedbackLog
    (selected <- policyGuard cfg sel ;;
     pass2 cfg W rid cleanPrompt t selected reason history).
Proof.
  intros. apply kept_bind.
  - apply policyGuard_kept. reflexivity.
  - intro selected. apply pass2_kept; reflexivity.
Qed.

(** C7.  With a last request recorded, a request that forces a model of
    the catalog appends no feedback entry when the forced id is the model
    id of the last request, and appends one entry (after which the log is
    cut to its last 1000 entries) when it differs: an entry with rating
    [override], whose [selectedModel] is the last request's model id and
    whose [overriddenTo] is the forced id.  This holds however the request
    then ends. *)
Theorem C7_override_on_forced_change :
  forall (cfg : Config num) W request history m last forced cleanPrompt sel,
  enabled cfg = true ->
  is_command "stats" request = false ->
  is_command "budget" request = false ->
  scanForce (Chat.prompt request) (forceModelId m) = Some (Some forced, cleanPrompt) ->
  getModel forced = Some sel ->
  lastRequest m = Some last ->
  (modelId last = forced ->
   feedbackLog (after (handleChatRequest cfg W request history m)) = feedbackLog m) /\
  (modelId last <> forced ->
   exists e,
     feedbackLog (after (handleChatRequest cfg W request history m))
       = slice_last 1000 (feedbackLog m ++ [e]) /\
     ((List.length (feedbackLog m) < 1000)%nat ->
      feedbackLog (after (handleChatRequest cfg W request history m)) = feedbackLog m ++ [e]) /\
     Feedback.rating e = Feedback.override /\
     Feedback.selectedModel e = modelId last /\
     Feedback.overriddenTo e = Some forced /\
     Feedback.taskType e = task_name (fallbackClassify cleanPrompt) /\
     Feedback.requestId e = Vscode.requestIdAt W (clock m)).
Proof.
  intros cfg W request history m last forced cleanPrompt sel
    Hen Hstats Hbudget Hscan Hcat Hlast.
  assert (Hne : forced <> "").
  { intro E. subst forced. rewrite getModel_empty in Hcat. discriminate. }
  assert (Hfinal :
    feedbackLog (after (handleChatRequest cfg W request history m)) =
    feedbackLog
      (if String.eqb (modelId last) forced
       then set_forceModelId None (set_clock (S (clock m)) m)
       else after (recordOverride cfg W (Vscode.requestIdAt W (clock m))
                     (modelId last) forced (task_name (fallbackClassify cleanPrompt))
                     (set_forceModelId None (set_clock (S (clock m)) m))))).
  { rewrite (handleChatRequest_phases cfg W request history m _ _ Hen Hstats Hbudget Hscan).
    erewrite after_bind_ok by (apply pass1_forced; eassumption).
    cbn [fst snd]. rewrite guard_then_pass2_feedback.
    cbn [lastRequest set_forceModelId set_clock]. rewrite Hlast. reflexivity. }
  split.
  - intro Hsame. apply String.eqb_eq in Hsame. rewrite Hfinal, Hsame. reflexivity.
  - intro Hdiff. apply String.eqb_neq in Hdiff.
    pose (c := Implicit (num := num) (Vscode.requestIdAt W (clock m)) (modelId last) forced
                 (task_name (fallbackClassify cleanPrompt))).
    destruct (call_run cfg W c (set_forceModelId None (set_clock (S (clock m)) m)))
      as [Hlog _].
    unfold c in Hlog. cbn [call feedbackLog clock set_forceModelId set_clock] in Hlog.
    exists (entry_of W c (S (clock m))).
    rewrite Hfinal, Hdiff.
    split; [exact Hlog | split; [| repeat split]].
    intro Hroom. rewrite Hlog.
    apply slice_last_all. rewrite length_app. simpl. lia.
Qed.

Lemma obj_get_set_other : forall V (k k' : string) (v : V) (o : Obj V),
  k <> k' -> obj_get k (obj_set k' v o) = obj_get k o.
Proof.
  intros V k k' v o Hne. induction o as [| [k0 v0] o IH]; simpl.
  - destruct (String.eqb k' k) eqn:E; [| reflexivity].
    apply String.eqb_eq in E. congruence.
  - destruct (String.eqb k0 k') eqn:E0; simpl.
    + apply String.eqb_eq in E0. subst k0.
      destruct (String.eqb k' k) eqn:E; [| reflexivity].
      apply String.eqb_eq in E. congruence.
    + destruct (String.eqb k0 k); [reflexivity | exact IH].
Qed.

Lemma obj_get_set_same : forall V (k : string) (v : V) (o : Obj V),
  obj_get k (obj_set k v o) = Some v.
Proof.
  intros V k v o. induction o as [| [k0 v0] o IH]; cbn [obj_set obj_get].
  - rewrite String.eqb_refl. reflexivity.
  - destruct (String.eqb k0 k) eqn:E; cbn [obj_get].
    + rewrite String.eqb_refl. reflexivity.
    + rewrite E. exact IH.
Qed.

(** A completed request whose selected model fails the policy check: it
    was executed, accounted and remembered as [gpt-4o], after a notice
    that names the selected model. *)
Lemma restricted_completion :
  forall (cfg : Config num) W request history m forcedId cleanPrompt t sel reason m1
         nm t' credit rid' m',
  enabled cfg = true ->
  is_command "stats" request = false ->
  is_command "budget" request = false ->
  scanForce (Chat.prompt request) (forceModelId m) = Some (forcedId, cleanPrompt) ->
  pass1 cfg W (Vscode.requestIdAt W (clock m)) forcedId cleanPrompt
    (set_forceModelId None (set_clock (S (clock m)) m)) = Ok (t, sel, reason) m1 ->
  isModelAllowed cfg sel = false ->
  handleChatRequest cfg W request history m = Ok (ResultDone nm t' credit rid') m' ->
  exists g out,
    getModel "gpt-4o" = Some g /\
    nm = name g /\ t' = t /\ credit = creditMultiplier g /\
    rid' = Vscode.requestIdAt W (clock m) /\
    sessionStats m' = recordCompletion (sessionStats m) g t cleanPrompt out /\
    lastRequest m' = Some {| prompt := cleanPrompt; requestId := rid';
                             modelId := id g; taskType := t |} /\
    In (MdRestricted (name sel)) (stream m').
Proof.
  intros cfg W request history m forcedId cleanPrompt t sel reason m1 nm t' credit rid' m'
    Hen Hstats Hbudget Hscan Hpass1 Hpolicy Hdone.
  rewrite (handleChatRequest_phases cfg W request history m _ _ Hen Hstats Hbudget Hscan)
    in Hdone.
  erewrite after_bind_ok in Hdone by exact Hpass1. cbn [fst snd] in Hdone.
  destruct (policyGuard_restricted cfg sel m1 Hpolicy) as (g & Hg & Hguard).
  erewrite after_bind_ok in Hdone by exact Hguard.
  pose proof (pass1_stats cfg W (Vscode.requestIdAt W (clock m)) forcedId cleanPrompt
                (set_forceModelId None (set_clock (S (clock m)) m))) as Hstats1.
  rewrite Hpass1 in Hstats1. cbn in Hstats1.
  destruct (pass2_cases cfg W (Vscode.requestIdAt W (clock m)) cleanPrompt t g reason history
              (set_stream (stream m1 ++ [MdRestricted (name sel)]) m1))
    as [(tail & Hstream) [(_ & _ & Hnot) | (out & Hrun & Hnew & Hlast)]].
  - destruct (Hnot _ _ _ _ _ Hdone).
  - rewrite Hrun in Hdone. inversion Hdone; subst. clear Hdone.
    exists g, out. repeat split; try assumption.
    + rewrite Hnew. cbn [sessionStats set_stream]. rewrite Hstats1. reflexivity.
    + rewrite Hstream. cbn [stream set_stream].
      apply in_or_app. left. apply in_or_app. right. left. reflexivity.
Qed.

(** C1.  A completed request in which the caller forces a model of the
    catalog that fails the policy check is executed with the catalog entry
    [gpt-4o], whose credit multiplier is 0.  A notice that the forced model
    is restricted is written to the response.  The statistics are those of
    a completion by [gpt-4o]: afterwards [creditsByModel] has the key
    [gpt-4o], whose value is what it was before (0 when it was absent)
    plus the multiplier of [gpt-4o]; every other key, the forced model
    among them, reads as before; [totalCreditsUsed] has grown by the
    multiplier of [gpt-4o]; and the last request names [gpt-4o]. *)
Theorem C1_forced_restricted_uses_default :
  forall (cfg : Config num) W request history m forced cleanPrompt x nm t credit rid m',
  enabled cfg = true ->
  is_command "stats" request = false ->
  is_command "budget" request = false ->
  scanForce (Chat.prompt request) (forceModelId m) = Some (Some forced, cleanPrompt) ->
  getModel forced = Some x ->
  isModelAllowed cfg x = false ->
  handleChatRequest cfg W request history m = Ok (ResultDone nm t credit rid) m' ->
  exists g,
    getModel "gpt-4o" = Some g /\ creditMultiplier g = nint 0 /\
    nm = name g /\ credit = nint 0 /\
    In (MdRestricted (name x)) (stream m') /\
    obj_get "gpt-4o" (creditsByModel (sessionStats m'))
      = Some (nadd (or_zero (obj_get "gpt-4o" (creditsByModel (sessionStats m)))) (nint 0)) /\
    (forall k, k <> "gpt-4o" ->
       obj_get k (creditsByModel (sessionStats m'))
         = obj_get k (creditsByModel (sessionStats m))) /\
    totalCreditsUsed (sessionStats m') = nadd (totalCreditsUsed (sessionStats m)) (nint 0) /\
    (forced <> "gpt-4o" ->
     obj_get forced (creditsByModel (sessionStats m'))
       = obj_get forced (creditsByModel (sessionStats m))) /\
    option_map modelId (lastRequest m') = Some "gpt-4o".
Proof.
  intros cfg W request history m forced cleanPrompt x nm t credit rid m'
    Hen Hstats Hbudget Hscan Hcat Hpolicy Hdone.
  assert (Hne : forced <> "").
  { intro E. subst forced. rewrite getModel_empty in Hcat. discriminate. }
  pose proof (pass1_forced cfg W (Vscode.requestIdAt W (clock m)) forced cleanPrompt x
                (set_forceModelId None (set_clock (S (clock m)) m)) Hne Hcat) as Hpass1.
  destruct (restricted_completion cfg W request history m _ _ _ _ _ _ _ _ _ _ _
              Hen Hstats Hbudget Hscan Hpass1 Hpolicy Hdone)
    as (g & out & Hg & Hnm & _ & Hcredit & _ & Hnew & Hlast & Hnotice).
  destruct getModel_gpt4o as (g' & Hg' & Hid & _ & Hmult & _).
  rewrite Hg in Hg'. inversion Hg'; subst g'. clear Hg'.
  exists g. rewrite Hnew, Hlast. unfold recordCompletion.
  cbn [creditsByModel totalCreditsUsed option_map modelId].
  rewrite Hid, Hmult.
  split; [exact Hg |]. split; [reflexivity |]. split; [exact Hnm |].
  split; [rewrite Hcredit; exact Hmult |]. split; [exact Hnotice |].
  split; [apply obj_get_set_same |].
  split; [intros k Hk; apply obj_get_set_other; exact Hk |].
  split; [reflexivity |].
  split; [intro Hother; apply obj_get_set_other; exact Hother | reflexivity].
Qed.

(** C10.  The model that replaces a selected model failing the policy
    check is [getModel('gpt-4o')], whatever the configuration says about
    [gpt-4o] itself.  With [gpt-4o] in [blockedModels], a completed request
    whose selected model failed the check (on the forced path as on the
    automatic one) was executed with [gpt-4o]: its multiplier is what was
    added to [creditsByModel] under the key [gpt-4o] and to
    [totalCreditsUsed], the last request names it, and it does not pass
    the policy check. *)
Theorem C10_substitute_not_rechecked :
  forall (cfg : Config num) (sel : ModelDefinition num),
  isModelAllowed cfg sel = false ->
  exists g,
    getModel "gpt-4o" = Some g /\ id g = "gpt-4o" /\
    (forall m, policyGuard cfg sel m
               = Ok g (set_stream (stream m ++ [MdRestricted (name sel)]) m)) /\
    (In "gpt-4o" (blockedModels cfg) ->
     isModelAllowed cfg g = false /\
     forall W request history m forcedId cleanPrompt t reason m1 nm t' credit rid' m',
       enabled cfg = true ->
       is_command "stats" request = false ->
       is_command "budget" request = false ->
       scanForce (Chat.prompt request) (forceModelId m) = Some (forcedId, cleanPrompt) ->
       pass1 cfg W (Vscode.requestIdAt W (clock m)) forcedId cleanPrompt
         (set_forceModelId None (set_clock (S (clock m)) m)) = Ok (t, sel, reason) m1 ->
       handleChatRequest cfg W request history m = Ok (ResultDone nm t' credit rid') m' ->
       nm = name g /\ credit = creditMultiplier g /\
       option_map modelId (lastRequest m') = Some "gpt-4o" /\
       creditsByModel (sessionStats m') =
         obj_set "gpt-4o"
           (nadd (or_zero (obj_get "gpt-4o" (creditsByModel (sessionStats m))))
                 (creditMultiplier g))
           (creditsByModel (sessionStats m)) /\
       totalCreditsUsed (sessionStats m')
         = nadd (totalCreditsUsed (sessionStats m)) (creditMultiplier g)).
Proof.
  intros cfg sel Hpolicy.
  destruct getModel_gpt4o as (g & Hg & Hid & _).
  exists g. split; [exact Hg | split; [exact Hid | split]].
  - intro m. destruct (policyGuard_restricted cfg sel m Hpolicy) as (g' & Hg' & Hrun).
    rewrite Hg in Hg'. inversion Hg'; subst g'. exact Hrun.
  - intro Hblocked. split.
    + apply isModelAllowed_blocked. rewrite Hid. exact Hblocked.
    + intros W request history m forcedId cleanPrompt t reason m1 nm t' credit rid' m'
        Hen Hstats Hbudget Hscan Hpass1 Hdone.
      destruct (restricted_completion cfg W request history m _ _ _ _ _ _ _ _ _ _ _
                  Hen Hstats Hbudget Hscan Hpass1 Hpolicy Hdone)
        as (g' & out & Hg' & Hnm & _ & Hcredit & _ & Hnew & Hlast & _).
      rewrite Hg in Hg'. inversion Hg'; subst g'. clear Hg'.
      rewrite Hnew, Hlast. unfold recordCompletion.
      cbn [creditsByModel totalCreditsUsed option_map modelId].
      rewrite Hid. repeat split; assumption.
Qed.

Lemma lookupPattern_catalog : forall key forced,
  lookupPattern key = OwnValue forced -> exists sel, getModel (num := num) forced = Some sel.
Proof.
  intros key forced H. unfold lookupPattern in H.
  destruct (find (fun kv => text_eqb (txt (fst kv)) key) modelPatterns) as [kv |] eqn:E.
  - inversion H; subst forced. apply find_some in E. destruct E as [Hin _].
    unfold modelPatterns in Hin. simpl in Hin.
    repeat (destruct Hin as [Hin | Hin]; [subst kv; eexists; reflexivity |]).
    destruct Hin.
  - destruct (existsb _ inheritedMembers); discriminate H.
Qed.

(** The forced id that the scan gives is the picker's choice or the value
    of an alias, which is an id of the catalog. *)
Lemma scanForce_forced : forall prompt picked forced cleanPrompt,
  scanForce prompt picked = Some (Some forced, cleanPrompt) ->
  picked = Some forced \/ exists sel, getModel (num := num) forced = Some sel.
Proof.
  intros prompt picked forced cleanPrompt H. unfold scanForce in H.
  destruct (match_force prompt) as [capture |].
  - destruct (lookupPattern (remove_hyphens (toLowerCase capture))) as [f | |] eqn:E.
    + inversion H; subst. right. apply (lookupPattern_catalog _ _ E).
    + discriminate H.
    + inversion H. left. reflexivity.
  - inversion H. left. reflexivity.
Qed.

Lemma handleChatRequest_force : forall (cfg : Config num) W request history m,
  forceModelId (after (handleChatRequest cfg W request history m)) = forceModelId m \/
  forceModelId (after (handleChatRequest cfg W request history m)) = None.
Proof.
  intros cfg W request history m.
  remember (handleChatRequest cfg W request history m) as r eqn:Hr.
  unfold handleChatRequest in Hr.
  destruct (enabled cfg); cbn [negb] in Hr; [| subst r; left; reflexivity].
  unfold generateRequestId in Hr. unfold bind at 1 in Hr. unfold bind at 1 in Hr.
  unfold tick at 1 in Hr. unfold ret at 1 in Hr.
  destruct (is_command "stats" request).
  { subst r. left. rewrite handleStatsCommand_kept; reflexivity. }
  destruct (is_command "budget" request).
  { subst r. left. rewrite handleBudgetCommand_kept; reflexivity. }
  right.
  unfold bind at 1 in Hr. unfold get at 1 in Hr. unfold bind at 1 in Hr.
  unfold modify at 1 in Hr. cbn [forceModelId set_clock] in Hr.
  destruct (scanForce (Chat.prompt request) (forceModelId m)) as [[forcedId cleanPrompt] |];
    [| subst r; reflexivity].
  subst r.
  match goal with
  | |- forceModelId (after (bind ?c ?k ?m0)) = None =>
      change None with (forceModelId m0);
      apply (kept_bind forceModelId _ _ c k)
  end.
  - apply pass1_force.
  - intro routed. apply kept_bind.
    + apply policyGuard_kept. reflexivity.
    + intro selected. apply pass2_kept; reflexivity.
Qed.

Lemma details_in_catalog :
  (forall d, In d (pickerDetails (num := num)) ->
             d = "auto" \/ exists sel, getModel (num := num) d = Some sel) /\
  (forall d, In d (retryDetails (num := num)) -> exists sel, getModel (num := num) d = Some sel).
Proof.
  split; intros d Hin.
  - unfold pickerDetails in Hin. cbv in Hin.
    destruct Hin as [Hin | Hin]; [left; symmetry; exact Hin | right].
    repeat (destruct Hin as [Hin | Hin]; [subst d; eexists; reflexivity |]).
    destruct Hin.
  - unfold retryDetails in Hin. cbv in Hin.
    repeat (destruct Hin as [Hin | Hin]; [subst d; eexists; reflexivity |]).
    destruct Hin.
Qed.

(** In every reachable state the model chosen for the next request, if
    any, is a model of the catalog. *)
Lemma reachable_forced_in_catalog : forall m : Machine num,
  reachable m ->
  forall forced, forceModelId m = Some forced ->
  exists sel, getModel (num := num) forced = Some sel.
Proof.
  intros m Hreach. induction Hreach as [cfg stored | a m Hreach IH]; intros forced Hf.
  - discriminate Hf.
  - destruct a as [cfg W request history | cfg choice | choice
                  | cfg W rid model task up | cfg]; cbn [perform] in Hf.
    + destruct (handleChatRequest_force cfg W request history (set_stream [] m)) as [E | E];
        rewrite E in Hf; [apply IH; exact Hf | discriminate Hf].
    + unfold showModelPicker in Hf.
      destruct choice as [i |]; [| apply IH; exact Hf].
      destruct (nth_error pickerDetails i) as [detail |] eqn:Hnth; [| apply IH; exact Hf].
      apply nth_error_In in Hnth.
      destruct (String.eqb detail ""); [apply IH; exact Hf |].
      destruct (String.eqb detail "auto") eqn:Hauto; cbn in Hf; [discriminate Hf |].
      inversion Hf; subst forced.
      destruct (proj1 details_in_catalog detail Hnth) as [Ha | Hcat]; [| exact Hcat].
      subst detail. discriminate Hauto.
    + unfold retryWithModel in Hf.
      destruct choice as [i |]; [| apply IH; exact Hf].
      destruct (nth_error retryDetails i) as [detail |] eqn:Hnth; [| apply IH; exact Hf].
      apply nth_error_In in Hnth.
      destruct (String.eqb detail ""); [apply IH; exact Hf |].
      cbn in Hf. inversion Hf; subst forced.
      apply (proj2 details_in_catalog detail Hnth).
    + apply IH. rewrite <- Hf. symmetry.
      apply (recordFeedback_force cfg W rid model task up None None m).
    + apply IH. exact Hf.
Qed.

(** In a reachable state, a forced id that the scan gives is always the id
    of a model of the catalog: the hypothesis of the statements about
    forced models is met by every request that forces one. *)
Lemma forced_model_in_catalog : forall (m : Machine num) prompt forced cleanPrompt,
  reachable m ->
  scanForce prompt (forceModelId m) = Some (Some forced, cleanPrompt) ->
  exists sel, getModel (num := num) forced = Some sel.
Proof.
  intros m prompt forced cleanPrompt Hreach Hscan.
  destruct (scanForce_forced _ _ _ _ Hscan) as [Hpicked | Hcat]; [| exact Hcat].
  apply (reachable_forced_in_catalog m Hreach forced Hpicked).
Qed.

End HandlerProps.


(* ================================================================== *)
(** ** Session accounting *)
(* ================================================================== *)

Section Accounting.
Context {num : Type} {NUM : JsNumber num} {CM : CaseMapping}.

Lemma accounting_same : forall s s' : SessionStats num, s' = s -> accounting_step s s'.
Proof. intros s s' H. left. exact H. Qed.

Lemma reachable_perform_all : forall (acts : list Action) (m : Machine num),
  reachable m -> reachable (perform_all acts m).
Proof.
  induction acts as [| a acts IH]; intros m Hm; simpl.
  - exact Hm.
  - apply IH. apply reach_perform. exact Hm.
Qed.

(** The chat handler changes the statistics by at most one completion. *)
Lemma handleChatRequest_accounting : forall (cfg : Config num) W request history m,
  accounting_step (sessionStats m)
    (sessionStats (after (handleChatRequest cfg W request history m))).
Proof.
  intros cfg W request history m. unfold handleChatRequest.
  destruct (enabled cfg); cbn [negb]; [| left; reflexivity].
  unfold generateRequestId. unfold bind at 1. unfold bind at 1. unfold tick at 1.
  unfold ret at 1.
  destruct (is_command "stats" request).
  { left. rewrite handleStatsCommand_kept; reflexivity. }
  destruct (is_command "budget" request).
  { left. rewrite handleBudgetCommand_kept; reflexivity. }
  unfold bind at 1. unfold get at 1. unfold bind at 1. unfold modify at 1.
  cbn [forceModelId set_clock].
  destruct (scanForce (Chat.prompt request) (forceModelId m)) as [[forcedId cleanPrompt] |];
    [| left; reflexivity].
  set (m0 := set_forceModelId None (set_clock (S (clock m)) m)).
  set (rid := Vscode.requestIdAt W (clock m)).
  pose proof (pass1_stats cfg W rid forcedId cleanPrompt m0) as H1.
  unfold bind at 1.
  destruct (pass1 cfg W rid forcedId cleanPrompt m0) as [[[t sel] reason] m1 | e m1];
    cbn [after] in H1; [| left; exact H1].
  cbn [fst snd].
  pose proof (policyGuard_kept sessionStats (fun _ _ => eq_refl) cfg sel m1) as H2.
  unfold bind at 1.
  destruct (policyGuard cfg sel m1) as [selected m2 | e m2];
    cbn [after] in H2; [| left; cbn [after]; rewrite H2; exact H1].
  destruct (pass2_cases cfg W rid cleanPrompt t selected reason history m2)
    as [_ [(Hsame & _) | (out & _ & Hnew & _)]].
  - left. rewrite Hsame, H2. exact H1.
  - right. exists selected, t, cleanPrompt, out. rewrite Hnew, H2, H1. reflexivity.
Qed.

Lemma perform_accounting : forall (a : Action) (m : Machine num),
  accounting_step (sessionStats m) (sessionStats (perform a m)).
Proof.
  intros a m. destruct a as [cfg W request history | cfg choice | choice
                            | cfg W rid model task up | cfg]; cbn [perform].
  - apply (handleChatRequest_accounting cfg W request history (set_stream [] m)).
  - left. unfold showModelPicker.
    destruct choice as [i |]; [| reflexivity].
    destruct (nth_error pickerDetails i) as [detail |]; [| reflexivity].
    destruct (String.eqb detail ""); [reflexivity |].
    destruct (String.eqb detail "auto"); reflexivity.
  - left. unfold retryWithModel.
    destruct choice as [i |]; [| reflexivity].
    destruct (nth_error retryDetails i) as [detail |]; [| reflexivity].
    destruct (String.eqb detail ""); reflexivity.
  - left. apply recordFeedback_stats.
  - left. apply updateStatusBar_stats.
Qed.

Section ExactSums.
Context {EX : ExactAddition num}.

Lemma nadd_zero_r : forall a : num, nadd a nzero = a.
Proof. intro a. rewrite nadd_comm. apply nadd_zero_l. Qed.

Lemma fold_nadd_from : forall (l : list num) (a : num),
  fold_left nadd l a = nadd a (fold_left nadd l nzero).
Proof.
  induction l as [| y l IH]; intro a; simpl.
  - symmetry. apply nadd_zero_r.
  - rewrite (IH (nadd a y)), (IH (nadd nzero y)), nadd_zero_l. symmetry. apply nadd_assoc.
Qed.

Lemma sum_values_cons : forall k (v : num) (o : Obj num),
  sum_values ((k, v) :: o) = nadd v (sum_values o).
Proof.
  intros k v o. unfold sum_values, obj_values. simpl.
  rewrite fold_nadd_from, nadd_zero_l. reflexivity.
Qed.

Lemma or_zero_exact : forall v : num, or_zero (Some v) = v.
Proof.
  intro v. unfold or_zero. destruct (nfalsy v) eqn:E; [| reflexivity].
  symmetry. apply nfalsy_zero. exact E.
Qed.

(** Adding [c] under a key adds [c] to the sum of the values. *)
Lemma sum_values_add : forall k (c : num) (o : Obj num),
  sum_values (obj_set k (nadd (or_zero (obj_get k o)) c) o) = nadd (sum_values o) c.
Proof.
  intros k c o. induction o as [| [k0 v0] o IH].
  - cbn [obj_get obj_set or_zero]. rewrite sum_values_cons.
    unfold sum_values. simpl. rewrite nadd_zero_r. reflexivity.
  - cbn [obj_get obj_set]. destruct (String.eqb k0 k).
    + rewrite or_zero_exact, !sum_values_cons.
      rewrite <- !nadd_assoc. f_equal. apply nadd_comm.
    + rewrite !sum_values_cons, IH. apply nadd_assoc.
Qed.

Lemma recordCompletion_balanced : forall (s : SessionStats num) sel t cleanPrompt out,
  balanced s -> balanced (recordCompletion s sel t cleanPrompt out).
Proof.
  intros s sel t cleanPrompt out H. unfold balanced, recordCompletion in *.
  cbn [totalCreditsUsed creditsByModel]. rewrite sum_values_add, H. reflexivity.
Qed.

Lemma reachable_balanced : forall m : Machine num, reachable m -> balanced (sessionStats m).
Proof.
  intros m Hreach. induction Hreach as [cfg stored | a m Hreach IH].
  - reflexivity.
  - destruct (perform_accounting a m) as [Hsame | (sel & t & cp & out & Hnew)].
    + rewrite Hsame. exact IH.
    + rewrite Hnew. apply recordCompletion_balanced. exact IH.
Qed.

End ExactSums.

End Accounting.

(* ================================================================== *)
(** ** Budget utilization *)
(* ================================================================== *)

Section Budget.
Context {num : Type} {NUM : JsNumber num}.

Lemma updateStatusBar_percent : forall (cfg : Config num) mo (m : Machine num),
  sbPercent (statusBarItem (after (updateStatusBar cfg mo m)))
    = specifiedPercent cfg (sessionStats m).
Proof. intros cfg mo m. reflexivity. Qed.

Lemma handleStatsCommand_stream : forall (cfg : Config num) (m : Machine num),
  exists rest,
    stream (after (handleStatsCommand cfg m)) =
    stream m ++
    MdStatsTable (requestCount (sessionStats m)) (totalCreditsUsed (sessionStats m))
      (statsPercent cfg (sessionStats m)) (monthlyBudget cfg)
      (nround (input (tokenCount (sessionStats m))))
      (nround (output (tokenCount (sessionStats m)))) :: rest.
Proof.
  intros cfg m. unfold handleStatsCommand, bind, get, emit, modify.
  rewrite emit_all_run. cbn [sessionStats set_stream stream].
  rewrite emit_all_run. cbn -[sort_desc].
  rewrite <- !app_assoc. eexists. reflexivity.
Qed.

Lemma handleBudgetCommand_stream : forall (cfg : Config num) (m : Machine num) res m',
  handleBudgetCommand cfg m = Ok res m' ->
  exists filled empty remaining rest,
    stream m' =
    stream m ++
    MdBudgetReport filled empty (budgetPercent cfg (sessionStats m))
      (totalCreditsUsed (sessionStats m)) remaining (monthlyBudget cfg) :: rest.
Proof.
  intros cfg m res m' H. unfold handleBudgetCommand, bind, get in H.
  destruct (nrepeat _) as [filled |] in H; [| discriminate].
  destruct (nrepeat _) as [empty |] in H; [| discriminate].
  unfold emit, modify, ret in H.
  destruct (nlt _ (nint 30)) in H; inversion H; subst; cbn;
    rewrite <- ?app_assoc; repeat eexists.
Qed.

(** When the budget command throws and when it returns: it draws its bar
    first, and [repeat] decides. *)
Lemma handleBudgetCommand_cases : forall (cfg : Config num) (m : Machine num),
  (nrepeat (budgetBlocks cfg (sessionStats m)) = None \/
   nrepeat (nmax (nint 0) (nsub (nint 20) (budgetBlocks cfg (sessionStats m)))) = None ->
   handleBudgetCommand cfg m = Throw RangeError m) /\
  (forall filled empty,
     nrepeat (budgetBlocks cfg (sessionStats m)) = Some filled ->
     nrepeat (nmax (nint 0) (nsub (nint 20) (budgetBlocks cfg (sessionStats m)))) = Some empty ->
     exists rest,
       handleBudgetCommand cfg m =
       Ok (ResultCommand "budget")
          (set_stream
             (stream m ++
              MdBudgetReport filled empty (budgetPercent cfg (sessionStats m))
                (totalCreditsUsed (sessionStats m))
                (nmax (nint 0) (nsub (monthlyBudget cfg) (totalCreditsUsed (sessionStats m))))
                (monthlyBudget cfg) :: rest) m)).
Proof.
  intros cfg m. unfold budgetBlocks. split.
  - intro H. unfold handleBudgetCommand, bind, get. cbv zeta.
    destruct (nrepeat (nround (nmul (ndiv (totalCreditsUsed (sessionStats m))
                                           (monthlyBudget cfg)) (nint 20)))) as [filled |];
      [| reflexivity].
    destruct H as [H | H]; [discriminate H |]. rewrite H. reflexivity.
  - intros filled empty Hf He. unfold handleBudgetCommand, bind, get. cbv zeta.
    rewrite Hf, He. unfold emit, modify, ret.
    destruct (nlt _ (nint 30)); cbn; rewrite <- ?app_assoc; eexists; reflexivity.
Qed.

End Budget.


(* ================================================================== *)
(** ** The claims at concrete inputs *)
(* ================================================================== *)

(** The literal [0.33] is the double nearest to it. *)
Example double_one_third_credit :
  creditMultiplier (catalog_entry "claude-haiku-4.5") = 0x1.51eb851eb851fp-2%float.
Proof. vm_compute. reflexivity. Qed.


(** A response with two tags, the second of which names a task type: the
    classifier reads the first one only and answers with the keyword
    classifier, here [function] for the prompt [hello]. *)
Lemma C8_later_tag_counterexample :
  has_task_tag (CM := ascii_case) (txt "TASK:foo TASK:debug") debug /\
  has_task_token (CM := ascii_case) (txt "TASK:foo TASK:debug") debug /\
  classifyPrompt (CM := ascii_case) double_config
    (world_answering (txt "TASK:foo TASK:debug")) (txt "hello") double_start
    = Ok function (set_clock 2 double_start) /\
  function <> debug.
Proof.
  split; [| split; [| split; [vm_compute; reflexivity | discriminate]]].
  - exists (txt "TASK:foo "), (txt "TASK:"), (txt "debug"), [].
    repeat split; vm_compute; reflexivity.
  - exists (txt "TASK:foo "), (txt "TASK:"), (txt "debug"), [].
    repeat split; vm_compute; reflexivity.
Qed.

(** A tag that names a task type and is followed by a full stop is not
    accepted either: the label is the whole run up to the next white
    space. *)
Example tag_with_full_stop :
  has_task_tag (CM := ascii_case) (txt "TASK:debug.") debug /\
  classifyPrompt (CM := ascii_case) double_config
    (world_answering (txt "TASK:debug.")) (txt "hello") double_start
    = Ok function (set_clock 2 double_start).
Proof.
  split; [| vm_compute; reflexivity].
  exists [], (txt "TASK:"), (txt "debug"), (txt ".").
  repeat split; vm_compute; reflexivity.
Qed.


(** With a monthly budget of 0 and credits used, the budget command
    divides by zero and raises a RangeError on the bar it draws. *)
Example budget_command_zero_budget :
  forall m : Machine float,
    totalCreditsUsed (sessionStats m) = nint 3 ->
    handleBudgetCommand
      {| enabled := true; classifierModel := "gpt-4o"; blockedModels := [];
         maxCreditTier := "premium"; taskRouting := []; monthlyBudget := nint 0;
         showModelInfo := true; collectFeedback := true; feedbackEndpoint := "";
         teamId := ""; departmentId := "" |} m
    = Throw RangeError m.
Proof.
  intros m H. unfold handleBudgetCommand, bind, get. cbn [monthlyBudget].
  rewrite H. vm_compute. reflexivity.
Qed.

(** The prompt [write unit tests for UserService] under the default
    configuration, with no classifier backend answering a tag: the keyword
    classifier says [test], the default routing gives Claude Sonnet 4.5,
    and one credit is accounted to it. *)
Example scenario_unit_tests :
  fallbackClassify (CM := ascii_case) (txt "write unit tests for UserService") = test /\
  getModelForTask double_config test = Some (catalog_entry "claude-sonnet-4.5") /\
  creditsByModel
    (sessionStats
       (perform (CM := ascii_case)
          (ChatRequested double_config (world_answering (txt "ok"))
             (plain_request "write unit tests for UserService") [])
          double_start))
    = [("claude-sonnet-4.5", nint 1)].
Proof. repeat split; vm_compute; reflexivity. Qed.

(** The prompt [@opus analyze this architecture]: the alias is removed
    from the prompt, the forced id is that of Claude Opus 4.5, and the task
    type comes from the keyword classifier. *)
Example scenario_opus_alias :
  scanForce (CM := ascii_case) (txt "@opus analyze this architecture") None
    = Some (Some "claude-opus-4.5", txt "analyze this architecture") /\
  option_map taskType
    (lastRequest
       (perform (CM := ascii_case)
          (ChatRequested double_config (world_answering (txt "TASK:debug"))
             (plain_request "@opus analyze this architecture") [])
          double_start))
    = Some architecture.
Proof. repeat split; vm_compute; reflexivity. Qed.

(** An alias that names an inherited member of the alias table makes the
    handler throw. *)
Example scenario_inherited_alias :
  handleChatRequest (CM := ascii_case) double_config (world_answering (txt "ok"))
    (plain_request "@constructor hello") [] double_start
  = Throw TypeError (set_forceModelId None (set_clock 1 double_start)).
Proof. vm_compute. reflexivity. Qed.

(** The additions of the rationals are exact. *)
Lemma exact_rational_addition : ExactAddition Qc.
Proof.
  constructor.
  - exact Qcplus_assoc.
  - exact Qcplus_comm.
  - exact Qcplus_0_l.
  - intros a H. cbn in H. unfold Exact.falsy in H.
    destruct (Qc_eq_dec a (Q2Qc 0)) as [E | _]; [exact E | discriminate H].
Defined.

(** C1 at a request that forces Claude Opus 4.5 while it is blocked:
    afterwards [creditsByModel] holds the key [gpt-4o] with the value 0,
    and no entry for Claude Opus 4.5. *)
Lemma C1_witness :
  exists g : ModelDefinition float,
    getModel "gpt-4o" = Some g /\ creditMultiplier g = nint 0 /\
    "GPT-4o" = name g /\
    In (MdRestricted "Claude Opus 4.5") (stream after_restricted_request) /\
    obj_get "gpt-4o" (creditsByModel (sessionStats after_restricted_request))
      = Some (nint 0) /\
    obj_get "claude-opus-4.5" (creditsByModel (sessionStats after_restricted_request))
      = None /\
    keys (creditsByModel (sessionStats after_restricted_request)) = ["gpt-4o"] /\
    totalCreditsUsed (sessionStats after_restricted_request) = nint 0 /\
    option_map modelId (lastRequest after_restricted_request) = Some "gpt-4o".
Proof.
  unshelve epose proof
    (C1_forced_restricted_uses_default (CM := ascii_case) restricted_config
       (world_answering (txt "ok")) (plain_request "@opus design it") [] double_start
       "claude-opus-4.5" (txt "design it") (catalog_entry "claude-opus-4.5")
       "GPT-4o" architecture (nint 0) "1700000000000-abc123"
       after_restricted_request _ _ _ _ _ _ _) as H; [vm_compute; reflexivity .. |].
  destruct H as (g & Hg & Hmult & Hnm & _ & Hnotice & Hkey & Hothers & Htotal & _ & Hlast).
  exists g.
  split; [exact Hg |]. split; [exact Hmult |]. split; [exact Hnm |].
  split; [exact Hnotice |].
  split; [rewrite Hkey; vm_compute; reflexivity |].
  split; [rewrite Hothers by discriminate; vm_compute; reflexivity |].
  split; [vm_compute; reflexivity |].
  split; [rewrite Htotal; vm_compute; reflexivity | exact Hlast].
Defined.

(** C2 with an admin routing that is used, one that names a blocked model,
    and one that names no model while the default is blocked too. *)
Lemma C2_witness :
  getModelForTask routing_config test = Some (catalog_entry "gpt-5") /\
  getModelForTask routing_config debug = Some (catalog_entry "gpt-4o") /\
  (exists g : ModelDefinition float,
     getModelForTask routing_config review = Some g /\
     getModel "gpt-4o" = Some g /\ id g = "gpt-4o" /\ creditMultiplier g = nint 0).
Proof.
  assert (Hblocked : forall t i model,
            obj_get (task_name t) (taskRouting routing_config) = Some i ->
            i <> "gpt-5" ->
            getModel i = Some model -> isModelAllowed routing_config model = false).
  { intros t i model Hi Hne Hm.
    destruct t; vm_compute in Hi; inversion Hi; subst i;
      try (exfalso; apply Hne; reflexivity);
      vm_compute in Hm; inversion Hm; subst model; vm_compute; reflexivity. }
  split; [| split].
  - apply (C2_getModelForTask_priority routing_config test) with (i := "gpt-5");
      vm_compute; reflexivity.
  - apply (C2_getModelForTask_priority routing_config debug).
    + intros i model Hi Hm. apply (Hblocked debug i model Hi); [| exact Hm].
      vm_compute in Hi. inversion Hi. discriminate.
    + vm_compute. reflexivity.
    + vm_compute. reflexivity.
  - apply (C2_getModelForTask_priority routing_config review).
    + intros i model Hi Hm. apply (Hblocked review i model Hi); [| exact Hm].
      vm_compute in Hi. inversion Hi. discriminate.
    + intros model Hm. vm_compute in Hm. inversion Hm; subst model.
      vm_compute. reflexivity.
Defined.

(** C3 at a blocked model, at two allowed ones, and under a ceiling that
    names no tier. *)
Lemma C3_witness :
  isModelAllowed restricted_config (catalog_entry "claude-opus-4.5") = false /\
  (isModelAllowed restricted_config (catalog_entry "claude-sonnet-4") = true <->
   (tierIndex standard <= tierIndex standard)%Z) /\
  (isModelAllowed restricted_config (catalog_entry "gpt-4o") = true <->
   (indexOf "free" tierOrder <= indexOf "standard" tierOrder)%Z) /\
  isModelAllowed mistyped_tier_config (catalog_entry "gpt-4o") = false.
Proof.
  destruct (C3_isModelAllowed_policy restricted_config (catalog_entry "claude-opus-4.5"))
    as (Hblocked & _).
  destruct (C3_isModelAllowed_policy restricted_config (catalog_entry "claude-sonnet-4"))
    as (_ & _ & Hceiling & _).
  destruct (C3_isModelAllowed_policy restricted_config (catalog_entry "gpt-4o"))
    as (_ & Hindex & _).
  destruct (C3_isModelAllowed_policy mistyped_tier_config (catalog_entry "gpt-4o"))
    as (_ & _ & _ & Hnone).
  split; [| split; [| split]].
  - apply Hblocked. vm_compute. left. reflexivity.
  - apply (Hceiling standard).
    + vm_compute. intros [H | H]; [discriminate H | exact H].
    + vm_compute. reflexivity.
  - apply Hindex. vm_compute. intros [H | H]; [discriminate H | exact H].
  - apply Hnone. vm_compute. reflexivity.
Defined.

(** C4 at a prompt with test and debug vocabulary, at one without any
    keyword, and at one that the second rule matches first. *)
Lemma C4_witness :
  fallbackClassify (CM := ascii_case) (txt "Debug this failing TEST") = test /\
  fallbackClassify (CM := ascii_case) (txt "hello there") = function /\
  fallbackClassify (CM := ascii_case) (txt "fix the login bug") = debug.
Proof.
  destruct (C4_fallbackClassify_first_rule (CM := ascii_case)
              (txt "Debug this failing TEST")) as (_ & _ & _ & Hboth).
  destruct (C4_fallbackClassify_first_rule (CM := ascii_case) (txt "hello there"))
    as (_ & _ & Hnone & _).
  destruct (C4_fallbackClassify_first_rule (CM := ascii_case) (txt "fix the login bug"))
    as (_ & Hfirst & _).
  split; [| split].
  - apply Hboth; vm_compute; reflexivity.
  - apply Hnone. vm_compute. reflexivity.
  - apply Hfirst. vm_compute. reflexivity.
Defined.

(** With exact rationals the total is the sum of the credits by model,
    also after requests at 0.33x. *)
Example rationals_balanced : balanced (sessionStats exact_after_three).
Proof.
  apply (reachable_balanced (CM := ascii_case) (EX := exact_rational_addition)).
  apply reachable_perform_all. apply reach_activate.
Qed.

(** C6 at 1001 recordings: the first entry is dropped. *)
Lemma C6_witness :
  List.length (feedbackLog (call_all double_config (world_answering []) calls_1001
                              double_start)) = 1000%nat /\
  feedbackLog (call_all double_config (world_answering []) calls_1001 double_start)
    = appended double_config (world_answering []) (skipn 1 calls_1001)
        (clock double_start + 1 * ticks_of double_config).
Proof.
  destruct (C6_feedback_log_capped double_config (world_answering []) double_start)
    as (_ & Hmany).
  destruct (Hmany calls_1001 1%nat) as (Hlen & _ & Hlast).
  - lia.
  - reflexivity.
  - split; [exact Hlen | exact Hlast].
Defined.

(** C7 after a request executed by Claude Haiku 4.5: forcing it again, and
    forcing Claude Opus 4.5. *)
Lemma C7_witness :
  feedbackLog (after (handleChatRequest (CM := ascii_case) double_config
                        (world_answering (txt "ok")) (plain_request "@haiku again") []
                        double_after_four))
    = feedbackLog double_after_four /\
  (exists e : Feedback.FeedbackEntry float,
     feedbackLog (after (handleChatRequest (CM := ascii_case) double_config
                           (world_answering (txt "ok")) (plain_request "@opus design it") []
                           double_after_four))
       = feedbackLog double_after_four ++ [e] /\
     Feedback.rating e = Feedback.override /\
     Feedback.selectedModel e = "claude-haiku-4.5" /\
     Feedback.overriddenTo e = Some "claude-opus-4.5").
Proof.
  split.
  - unshelve epose proof
      (C7_override_on_forced_change (CM := ascii_case) double_config
         (world_answering (txt "ok")) (plain_request "@haiku again") []
         double_after_four
         {| prompt := txt "hi"; requestId := "1700000000000-abc123";
            modelId := "claude-haiku-4.5"; taskType := function |}
         "claude-haiku-4.5" (txt "again") (catalog_entry "claude-haiku-4.5")
         _ _ _ _ _ _) as H; [vm_compute; reflexivity .. |].
    destruct H as (Hsame & _). apply Hsame. reflexivity.
  - unshelve epose proof
      (C7_override_on_forced_change (CM := ascii_case) double_config
         (world_answering (txt "ok")) (plain_request "@opus design it") []
         double_after_four
         {| prompt := txt "hi"; requestId := "1700000000000-abc123";
            modelId := "claude-haiku-4.5"; taskType := function |}
         "claude-opus-4.5" (txt "design it") (catalog_entry "claude-opus-4.5")
         _ _ _ _ _ _) as H; [vm_compute; reflexivity .. |].
    destruct H as (_ & Hdiff).
    destruct Hdiff as (e & _ & Hone & Hrating & Hfrom & Hto & _).
    + cbn [modelId]. discriminate.
    + exists e. split; [apply Hone; vm_compute; lia | split; [exact Hrating |]].
      split; [exact Hfrom | exact Hto].
Defined.

(** C8 at a response whose first tag names a task type, and at one whose
    label carries a full stop. *)
Lemma C8_witness :
  classifyPrompt (CM := ascii_case) double_config (world_answering (txt "Task:Debug"))
    (txt "hello") double_start = Ok debug (set_clock (2 + clock double_start) double_start) /\
  classifyPrompt (CM := ascii_case) double_config (world_answering (txt "TASK:debug."))
    (txt "hello") double_start
    = Ok (fallbackClassify (CM := ascii_case) (txt "hello"))
         (set_clock (2 + clock double_start) double_start).
Proof.
  split.
  - destruct (C8_classifyPrompt_first_tag (CM := ascii_case) double_config
                (world_answering (txt "Task:Debug")) (txt "hello") double_start)
      as (Hprimary & _).
    apply (Hprimary (catalog_entry "gpt-4o")
             {| Vscode.name := "Copilot"; Vscode.family := "gpt-4o" |} []
             (txt "Debug") debug); vm_compute; reflexivity.
  - destruct (C8_classifyPrompt_first_tag (CM := ascii_case) double_config
                (world_answering (txt "TASK:debug.")) (txt "hello") double_start)
      as (_ & _ & _ & Hother & _).
    apply (Hother (catalog_entry "gpt-4o")
             {| Vscode.name := "Copilot"; Vscode.family := "gpt-4o" |} []);
      try (vm_compute; reflexivity).
    right. right. exists (txt "debug."). split; [vm_compute; reflexivity |].
    intros t H. destruct t; vm_compute in H; discriminate H.
Defined.


(** C10 at a request that forces the blocked Claude Opus 4.5 while
    [gpt-4o] is blocked as well. *)
Lemma C10_witness :
  exists g : ModelDefinition float,
    getModel "gpt-4o" = Some g /\
    isModelAllowed default_blocked_config g = false /\
    option_map modelId
      (lastRequest (after (handleChatRequest (CM := ascii_case) default_blocked_config
                             (world_answering (txt "ok")) (plain_request "@opus design it")
                             [] double_start))) = Some "gpt-4o" /\
    totalCreditsUsed
      (sessionStats (after (handleChatRequest (CM := ascii_case) default_blocked_config
                              (world_answering (txt "ok")) (plain_request "@opus design it")
                              [] double_start)))
      = nadd (totalCreditsUsed (sessionStats double_start)) (creditMultiplier g).
Proof.
  destruct (C10_substitute_not_rechecked (CM := ascii_case) default_blocked_config
              (catalog_entry "claude-opus-4.5"))
    as (g & Hg & _ & _ & Hblocked).
  - vm_compute. reflexivity.
  - destruct Hblocked as (Hnot & Hrun).
    + vm_compute. left. reflexivity.
    + exists g. split; [exact Hg | split; [exact Hnot |]].
      unshelve epose proof
        (Hrun (world_answering (txt "ok")) (plain_request "@opus design it") []
           double_start (Some "claude-opus-4.5") (txt "design it") architecture
           (Manual "Claude Opus 4.5")
           (set_forceModelId None (set_clock 1 double_start))
           "GPT-4o" architecture (nint 0) "1700000000000-abc123"
           (after (handleChatRequest (CM := ascii_case) default_blocked_config
                     (world_answering (txt "ok")) (plain_request "@opus design it")
                     [] double_start))
           _ _ _ _ _ _) as H; [vm_compute; reflexivity .. |].
      destruct H as (_ & _ & Hlast & _ & Htotal).
      split; [exact Hlast | exact Htotal].
Defined.

(* ================================================================== *)
(** ** The catalog, the policy check and the two routers *)
(* ================================================================== *)

Section CatalogProps.
Context {num : Type} {NUM : JsNumber num}.

Lemma getModel_of_catalog : forall m : ModelDefinition num,
  In m MODELS -> getModel (id m) = Some m.
Proof.
  intros m H. unfold MODELS in H. cbn [In] in H.
  repeat (destruct H as [H | H]; [subst m; reflexivity |]). destruct H.
Qed.

(** X1.  The ids of the catalog are pairwise different, and [getModel]
    is the inverse of [id] on it: looking up the id of a catalog entry
    gives that entry, and whatever [getModel] returns is a catalog entry
    with the id asked for. *)
Theorem X1_getModel_inverts_id :
  NoDup (map id (MODELS (num := num))) /\
  (forall m : ModelDefinition num, In m MODELS -> getModel (id m) = Some m) /\
  (forall i (m : ModelDefinition num), getModel i = Some m -> In m MODELS /\ id m = i).
Proof.
  split; [| split].
  - unfold MODELS. cbn [map id].
    repeat (constructor;
            [cbn [In]; intro H;
             repeat (destruct H as [H | H]; [discriminate H |]); exact H |]).
    constructor.
  - exact getModel_of_catalog.
  - intros i m H. unfold getModel in H. apply find_some in H.
    destruct H as [Hin Heq]. split; [exact Hin | apply String.eqb_eq; exact Heq].
Qed.

Lemma getModel_again : forall i (m : ModelDefinition num),
  getModel i = Some m -> getModel (id m) = Some m.
Proof. intros i m H. rewrite (getModel_id i m H). exact H. Qed.

Lemma default_routing_in_catalog : forall t : TaskType,
  exists m : ModelDefinition num, getModel (DEFAULT_TASK_ROUTING t) = Some m.
Proof. destruct t; eexists; reflexivity. Qed.

(** X2.  The policy check is monotone: a model allowed under a
    configuration stays allowed when the ceiling is raised and models are
    taken off the block list. *)
Theorem X2_isModelAllowed_monotone :
  forall (cfg cfg' : Config num) (m : ModelDefinition num) ceiling ceiling',
  incl (blockedModels cfg') (blockedModels cfg) ->
  parseTier (maxCreditTier cfg) = Some ceiling ->
  parseTier (maxCreditTier cfg') = Some ceiling' ->
  (tierIndex ceiling <= tierIndex ceiling')%Z ->
  isModelAllowed cfg m = true -> isModelAllowed cfg' m = true.
Proof.
  intros cfg cfg' m ceiling ceiling' Hincl Hc Hc' Hle Hok.
  unfold isModelAllowed in *.
  destruct (existsb (String.eqb (id m)) (blockedModels cfg)) eqn:Hb; [discriminate Hok |].
  destruct (existsb (String.eqb (id m)) (blockedModels cfg')) eqn:Hb'.
  - apply existsb_eqb_In in Hb'. apply Hincl in Hb'. apply existsb_eqb_In in Hb'.
    rewrite Hb' in Hb. discriminate Hb.
  - rewrite (parseTier_name _ _ Hc) in Hok. rewrite (parseTier_name _ _ Hc').
    rewrite !indexOf_tier in *. apply Z.leb_le. apply Z.leb_le in Hok. lia.
Qed.

Lemma getModelForTask_defined : forall (cfg : Config num) (t : TaskType),
  exists m : ModelDefinition num, getModelForTask cfg t = Some m.
Proof.
  intros cfg t.
  assert (Hdefault : exists m : ModelDefinition num,
            match getModel (DEFAULT_TASK_ROUTING t) with
            | Some model => if isModelAllowed cfg model then Some model else getModel "gpt-4o"
            | None => getModel "gpt-4o"
            end = Some m).
  { destruct getModel_gpt4o as (g & Hg & _).
    destruct (getModel (DEFAULT_TASK_ROUTING t)) as [model |]; [| exists g; exact Hg].
    destruct (isModelAllowed cfg model); [exists model; reflexivity | exists g; exact Hg]. }
  unfold getModelForTask.
  destruct (obj_get (task_name t) (taskRouting cfg)) as [custom |]; [| exact Hdefault].
  destruct (String.eqb custom ""); [exact Hdefault |].
  destruct (getModel custom) as [model |]; [| exact Hdefault].
  destruct (isModelAllowed cfg model); [exists model; reflexivity | exact Hdefault].
Qed.

Lemma getModelForTask_sound : forall (cfg : Config num) (t : TaskType) m,
  getModelForTask cfg t = Some m ->
  getModel (id m) = Some m /\ (isModelAllowed cfg m = true \/ id m = "gpt-4o").
Proof.
  intros cfg t m.
  assert (Hdefault :
            match getModel (DEFAULT_TASK_ROUTING t) with
            | Some model => if isModelAllowed cfg model then Some model else getModel "gpt-4o"
            | None => getModel "gpt-4o"
            end = Some m ->
            getModel (id m) = Some m /\ (isModelAllowed cfg m = true \/ id m = "gpt-4o")).
  { assert (Hlast : getModel "gpt-4o" = Some m ->
              getModel (id m) = Some m /\ (isModelAllowed cfg m = true \/ id m = "gpt-4o")).
    { intro H. split; [apply (getModel_again _ _ H) | right; apply (getModel_id _ _ H)]. }
    destruct (getModel (DEFAULT_TASK_ROUTING t)) as [model |] eqn:Hcat; [| exact Hlast].
    destruct (isModelAllowed cfg model) eqn:Hok; [| exact Hlast].
    intro H. inversion H; subst m. split; [apply (getModel_again _ _ Hcat) | left; exact Hok]. }
  unfold getModelForTask.
  destruct (obj_get (task_name t) (taskRouting cfg)) as [custom |]; [| exact Hdefault].
  destruct (String.eqb custom ""); [exact Hdefault |].
  destruct (getModel custom) as [model |] eqn:Hcat; [| exact Hdefault].
  destruct (isModelAllowed cfg model) eqn:Hok; [| exact Hdefault].
  intro H. inversion H; subst m. split; [apply (getModel_again _ _ Hcat) | left; exact Hok].
Qed.

(** X3.  [getModelForTask] always returns a model of the catalog, and the
    model passes the policy check unless it is the last-resort [gpt-4o]:
    no other model is ever returned against the policy. *)
Theorem X3_getModelForTask_filtered : forall (cfg : Config num) (t : TaskType),
  exists m : ModelDefinition num,
    getModelForTask cfg t = Some m /\
    getModel (id m) = Some m /\
    (isModelAllowed cfg m = true \/ id m = "gpt-4o").
Proof.
  intros cfg t. destruct (getModelForTask_defined cfg t) as (m & Hm).
  exists m. split; [exact Hm | apply (getModelForTask_sound cfg t m Hm)].
Qed.


(** X5.  The routing row that the admin panel shows for a task type,
    [taskRouting[t] || DEFAULT_TASK_ROUTING[t]], is the model the router
    uses whenever that model is in the catalog and passes the policy
    check. *)
Theorem X5_panel_row_is_routed : forall (cfg : Config num) (t : TaskType) m,
  getModel (panelRouting (taskRouting cfg) t) = Some m ->
  isModelAllowed cfg m = true ->
  getModelForTask cfg t = Some m.
Proof.
  intros cfg t m Hrow Hok. unfold panelRouting in Hrow. unfold getModelForTask.
  destruct (obj_get (task_name t) (taskRouting cfg)) as [custom |].
  - destruct (String.eqb custom "").
    + rewrite Hrow, Hok. reflexivity.
    + rewrite Hrow, Hok. reflexivity.
  - rewrite Hrow, Hok. reflexivity.
Qed.

End CatalogProps.

(* ================================================================== *)
(** ** The chat handler: how a request ends *)
(* ================================================================== *)

Section HandlerOutcome.
Context {num : Type} {NUM : JsNumber num} {CM : CaseMapping}.

Lemma recordOverride_last : forall (cfg : Config num) W rid a b t,
  kept lastRequest (recordOverride cfg W rid a b t).
Proof.
  intros. unfold recordOverride, push_entry, persistFeedback, sendToEndpoint. frame.
Qed.

Lemma pass1_last : forall (cfg : Config num) W rid forcedId cleanPrompt,
  kept lastRequest (pass1 cfg W rid forcedId cleanPrompt).
Proof.
  intros. unfold pass1. cbv zeta.
  assert (Hauto : kept lastRequest
            (emit (num := num) Progress ;;
             taskType <- classifyPrompt cfg W cleanPrompt ;;
             match getModelForTask cfg taskType with
             | Some selected => ret (taskType, selected, Routed taskType (name selected))
             | None => throw TypeError
             end)).
  { apply kept_bind; [apply kept_emit; reflexivity | intros _].
    apply kept_bind; [apply classifyPrompt_kept; reflexivity | intro t].
    frame. }
  destruct forcedId as [forced |]; [| exact Hauto].
  destruct (String.eqb forced ""); [exact Hauto |].
  destruct (getModel forced); [| frame].
  apply kept_bind; [frame | intro m0].
  apply kept_bind; [| intros; frame].
  destruct (lastRequest m0) as [last |]; [| frame].
  destruct (negb (String.eqb (modelId last) forced)); [| frame].
  apply recordOverride_last.
Qed.

(** What pass 1 returns: a model of the catalog, which is the forced one
    with the task type of the keyword classifier, or the one that
    [getModelForTask] gives for the task type of [classifyPrompt]. *)
Lemma pass1_result : forall (cfg : Config num) W rid forcedId cleanPrompt m t sel reason m1,
  pass1 cfg W rid forcedId cleanPrompt m = Ok (t, sel, reason) m1 ->
  getModel (id sel) = Some sel /\
  ((exists forced, forcedId = Some forced /\ forced <> "" /\ getModel forced = Some sel /\
                   t = fallbackClassify cleanPrompt /\ reason = Manual (name sel)) \/
   ((forcedId = None \/ forcedId = Some "") /\
    getModelForTask cfg t = Some sel /\ reason = Routed t (name sel))).
Proof.
  intros cfg W rid forcedId cleanPrompt m t sel reason m1 H.
  unfold pass1 in H. cbv zeta in H.
  assert (Hauto :
            (emit (num := num) Progress ;;
             taskType <- classifyPrompt cfg W cleanPrompt ;;
             match getModelForTask cfg taskType with
             | Some selected => ret (taskType, selected, Routed taskType (name selected))
             | None => throw TypeError
             end) m = Ok (t, sel, reason) m1 ->
            getModelForTask cfg t = Some sel /\ reason = Routed t (name sel)).
  { intro Ha. unfold bind at 1 in Ha. unfold emit, modify in Ha.
    unfold bind in Ha.
    destruct (classifyPrompt_run cfg W cleanPrompt
                (set_stream (stream m ++ [Progress]) m)) as (t0 & k & E & _).
    rewrite E in Ha.
    destruct (getModelForTask cfg t0) as [selected |] eqn:Hsel; [| discriminate Ha].
    unfold ret in Ha. inversion Ha; subst. split; [exact Hsel | reflexivity]. }
  assert (Hrouted :
            getModelForTask cfg t = Some sel /\ reason = Routed t (name sel) ->
            getModel (id sel) = Some sel).
  { intros [Hsel _]. apply (getModelForTask_sound cfg t sel Hsel). }
  destruct forcedId as [forced |].
  2: { specialize (Hauto H). split; [apply Hrouted; exact Hauto |].
       right. split; [left; reflexivity | exact Hauto]. }
  destruct (String.eqb forced "") eqn:Hempty.
  { specialize (Hauto H). split; [apply Hrouted; exact Hauto |].
    right. apply String.eqb_eq in Hempty. subst forced.
    split; [right; reflexivity | exact Hauto]. }
  destruct (getModel forced) as [selected |] eqn:Hcat; [| discriminate H].
  apply String.eqb_neq in Hempty.
  rewrite (pass1_forced cfg W rid forced cleanPrompt selected m Hempty Hcat) in H
    || (pose proof (pass1_forced cfg W rid forced cleanPrompt selected m Hempty Hcat) as Hp;
        unfold pass1 in Hp; cbv zeta in Hp;
        rewrite (proj2 (String.eqb_neq forced "") Hempty), Hcat in Hp;
        rewrite Hp in H).
  inversion H; subst. split; [apply (getModel_again _ _ Hcat) |].
  left. exists forced. repeat split; try assumption.
Qed.

(** The policy guard returns the model it is given when that model is
    allowed, and the catalog entry [gpt-4o] otherwise. *)
Lemma policyGuard_result : forall (cfg : Config num) sel m selected m1,
  getModel (id sel) = Some sel ->
  policyGuard cfg sel m = Ok selected m1 ->
  getModel (id selected) = Some selected /\
  ((selected = sel /\ isModelAllowed cfg sel = true) \/
   (isModelAllowed cfg sel = false /\ getModel "gpt-4o" = Some selected /\
    id selected = "gpt-4o")).
Proof.
  intros cfg sel m selected m1 Hcat H.
  destruct (isModelAllowed cfg sel) eqn:Hok.
  - rewrite (policyGuard_allowed cfg sel m Hok) in H. inversion H; subst.
    split; [exact Hcat | left; split; reflexivity].
  - destruct (policyGuard_restricted cfg sel m Hok) as (g & Hg & Hrun).
    rewrite Hrun in H. inversion H; subst.
    split; [apply (getModel_again _ _ Hg) |].
    right. split; [reflexivity | split; [exact Hg | apply (getModel_id _ _ Hg)]].
Qed.

(** How a request ends.  Either it does not complete, and the statistics
    and the last request are as before; or it completes: the handler
    returns the name and the multiplier of a model of the catalog that
    passes the policy check or is [gpt-4o], the statistics are those of
    [recordCompletion] for it, and the last request names it, with the
    request id generated for this request. *)
Lemma handleChatRequest_outcome : forall (cfg : Config num) W request history m,
  (sessionStats (after (handleChatRequest cfg W request history m)) = sessionStats m /\
   lastRequest (after (handleChatRequest cfg W request history m)) = lastRequest m /\
   forall nm t c rid m',
     handleChatRequest cfg W request history m <> Ok (ResultDone nm t c rid) m')
  \/
  (exists sel t forcedId cleanPrompt out,
     enabled cfg = true /\
     is_command "stats" request = false /\ is_command "budget" request = false /\
     scanForce (Chat.prompt request) (forceModelId m) = Some (forcedId, cleanPrompt) /\
     handleChatRequest cfg W request history m =
       Ok (ResultDone (name sel) t (creditMultiplier sel) (Vscode.requestIdAt W (clock m)))
          (after (handleChatRequest cfg W request history m)) /\
     sessionStats (after (handleChatRequest cfg W request history m))
       = recordCompletion (sessionStats m) sel t cleanPrompt out /\
     lastRequest (after (handleChatRequest cfg W request history m))
       = Some {| prompt := cleanPrompt; requestId := Vscode.requestIdAt W (clock m);
                 modelId := id sel; taskType := t |} /\
     getModel (id sel) = Some sel /\
     (isModelAllowed cfg sel = true \/ id sel = "gpt-4o") /\
     (forall forced, forcedId = Some forced -> forced <> "" ->
        t = fallbackClassify cleanPrompt /\
        exists x, getModel forced = Some x /\
                  (isModelAllowed cfg x = true -> sel = x))).
Proof.
  intros cfg W request history m.
  remember (handleChatRequest cfg W request history m) as r eqn:Hr.
  pose proof Hr as Hdef.
  unfold handleChatRequest in Hr.
  destruct (enabled cfg) eqn:Hen; cbn [negb] in Hr.
  2: { subst r. left. split; [reflexivity | split; [reflexivity | intros; discriminate]]. }
  unfold generateRequestId in Hr. unfold bind at 1 in Hr. unfold bind at 1 in Hr.
  unfold tick at 1 in Hr. unfold ret at 1 in Hr.
  destruct (is_command "stats" request) eqn:Hstats.
  { left. rewrite Hr. split; [| split].
    - rewrite handleStatsCommand_kept; reflexivity.
    - rewrite handleStatsCommand_kept; reflexivity.
    - intros nm t c rid m' E. unfold handleStatsCommand in E.
      unfold bind, get, emit, modify in E. rewrite !emit_all_run in E.
      unfold ret in E. discriminate E. }
  destruct (is_command "budget" request) eqn:Hbudget.
  { left. rewrite Hr. split; [| split].
    - rewrite handleBudgetCommand_kept; reflexivity.
    - rewrite handleBudgetCommand_kept; reflexivity.
    - intros nm t c rid m' E. unfold handleBudgetCommand in E.
      unfold bind, get in E.
      destruct (nrepeat _) in E; [| discriminate E].
      destruct (nrepeat _) in E; [| discriminate E].
      unfold emit, modify, ret in E.
      destruct (nlt _ (nint 30)) in E; discriminate E. }
  unfold bind at 1 in Hr. unfold get at 1 in Hr. unfold bind at 1 in Hr.
  unfold modify at 1 in Hr. cbn [forceModelId set_clock] in Hr.
  destruct (scanForce (Chat.prompt request) (forceModelId m))
    as [[forcedId cleanPrompt] |] eqn:Hscan.
  2: { subst r. left. split; [reflexivity | split; [reflexivity | intros; discriminate]]. }
  set (m0 := set_forceModelId None (set_clock (S (clock m)) m)) in *.
  set (rid := Vscode.requestIdAt W (clock m)) in *.
  pose proof (pass1_stats cfg W rid forcedId cleanPrompt m0) as Hs1.
  pose proof (pass1_last cfg W rid forcedId cleanPrompt m0) as Hl1.
  unfold bind at 1 in Hr.
  destruct (pass1 cfg W rid forcedId cleanPrompt m0) as [[[t sel] reason] m1 | e m1] eqn:Hp1;
    cbn [after] in Hs1, Hl1.
  2: { subst r. left. cbn [after].
       split; [exact Hs1 | split; [exact Hl1 | intros; discriminate]]. }
  cbn [fst snd] in Hr.
  destruct (pass1_result cfg W rid forcedId cleanPrompt m0 t sel reason m1 Hp1)
    as [Hcat Hhow].
  pose proof (policyGuard_kept sessionStats (fun _ _ => eq_refl) cfg sel m1) as Hs2.
  pose proof (policyGuard_kept lastRequest (fun _ _ => eq_refl) cfg sel m1) as Hl2.
  unfold bind at 1 in Hr.
  destruct (policyGuard cfg sel m1) as [selected m2 | e m2] eqn:Hg; cbn [after] in Hs2, Hl2.
  2: { subst r. left. cbn [after].
       split; [rewrite Hs2; exact Hs1 | split; [rewrite Hl2; exact Hl1 | intros; discriminate]]. }
  destruct (policyGuard_result cfg sel m1 selected m2 Hcat Hg) as [Hcat2 Hpol].
  destruct (pass2_cases cfg W rid cleanPrompt t selected reason history m2)
    as [_ [(Hsame & Hlast & Hnot) | (out & Hrun & Hnew & Hlast)]].
  - left. rewrite Hr. split; [| split].
    + rewrite Hsame, Hs2. exact Hs1.
    + rewrite Hlast, Hl2. exact Hl1.
    + exact Hnot.
  - right. exists selected, t, forcedId, cleanPrompt, out.
    split; [reflexivity |]. split; [reflexivity |]. split; [reflexivity |].
    split; [reflexivity |]. rewrite Hr.
    split; [exact Hrun |].
    split; [rewrite Hnew, Hs2, Hs1; reflexivity |].
    split; [exact Hlast |].
    split; [exact Hcat2 |].
    split.
    + destruct Hpol as [[E Hok] | (_ & _ & Hid)]; [left; subst; exact Hok | right; exact Hid].
    + intros forced Hf Hne.
      destruct Hhow as [(f & Ef & _ & Hcatf & Ht & _) | ([Ef | Ef] & _)].
      * rewrite Hf in Ef. inversion Ef; subst f.
        split; [exact Ht |]. exists sel. split; [exact Hcatf |].
        intro Hok. destruct Hpol as [[E _] | (Hno & _)]; [exact E |].
        rewrite Hok in Hno. discriminate Hno.
      * rewrite Hf in Ef. discriminate Ef.
      * rewrite Hf in Ef. inversion Ef. contradiction.
Qed.

End HandlerOutcome.

(* ================================================================== *)
(** ** The chat handler: completion, the forced model and the alias *)
(* ================================================================== *)

Section RequestProps.
Context {num : Type} {NUM : JsNumber num} {CM : CaseMapping}.

(** X6.  A request that completes was executed with a model of the
    catalog that passes the policy check or is [gpt-4o]: the name and the
    multiplier returned, the completion added to the statistics and the
    model id of the last request are those of that model, and the request
    id returned and remembered is the one generated for this request. *)
Theorem X6_completed_request_within_policy :
  forall (cfg : Config num) W request history m nm t credit rid m',
  handleChatRequest cfg W request history m = Ok (ResultDone nm t credit rid) m' ->
  exists sel cleanPrompt out,
    getModel (id sel) = Some sel /\
    (isModelAllowed cfg sel = true \/ id sel = "gpt-4o") /\
    nm = name sel /\ credit = creditMultiplier sel /\
    rid = Vscode.requestIdAt W (clock m) /\
    sessionStats m' = recordCompletion (sessionStats m) sel t cleanPrompt out /\
    lastRequest m' = Some {| prompt := cleanPrompt; requestId := rid;
                             modelId := id sel; taskType := t |}.
Proof.
  intros cfg W request history m nm t credit rid m' H.
  destruct (handleChatRequest_outcome cfg W request history m)
    as [(_ & _ & Hnot)
       | (sel & t0 & forcedId & cp & out & _ & _ & _ & _ & Hrun & Hnew & Hlast & Hcat & Hpol & _)].
  - destruct (Hnot _ _ _ _ _ H).
  - rewrite H in Hrun, Hnew, Hlast. cbn [after] in Hrun, Hnew, Hlast.
    inversion Hrun; subst. exists sel, cp, out. repeat split; assumption.
Qed.

(** X7.  A request that does not complete - the extension is disabled, a
    slash command, no backend, an error of the model, an exception -
    leaves the statistics and the last request as they were. *)
Theorem X7_nothing_accounted_unless_completed :
  forall (cfg : Config num) W request history m,
  (forall nm t credit rid m',
     handleChatRequest cfg W request history m <> Ok (ResultDone nm t credit rid) m') ->
  sessionStats (after (handleChatRequest cfg W request history m)) = sessionStats m /\
  lastRequest (after (handleChatRequest cfg W request history m)) = lastRequest m.
Proof.
  intros cfg W request history m Hnot.
  destruct (handleChatRequest_outcome cfg W request history m)
    as [(Hs & Hl & _) | (sel & t0 & forcedId & cp & out & _ & _ & _ & _ & Hrun & _)].
  - split; assumption.
  - destruct (Hnot _ _ _ _ _ Hrun).
Qed.

(** X8.  The model chosen in a picker is used up by the next request
    that is handled as a chat request: whenever the extension is enabled
    and the request is no slash command, the forced id is empty
    afterwards, however the request ends; a request to the disabled
    extension and the two slash commands leave it as it was. *)
Theorem X8_forced_id_is_single_use : forall (cfg : Config num) W request history m,
  forceModelId (after (handleChatRequest cfg W request history m)) =
  if enabled cfg && negb (is_command "stats" request) && negb (is_command "budget" request)
  then None else forceModelId m.
Proof.
  intros cfg W request history m.
  remember (handleChatRequest cfg W request history m) as r eqn:Hr.
  unfold handleChatRequest in Hr.
  destruct (enabled cfg); cbn [negb andb] in *; [| subst r; reflexivity].
  unfold generateRequestId in Hr. unfold bind at 1 in Hr. unfold bind at 1 in Hr.
  unfold tick at 1 in Hr. unfold ret at 1 in Hr.
  destruct (is_command "stats" request); cbn [negb andb].
  { subst r. rewrite handleStatsCommand_kept; reflexivity. }
  destruct (is_command "budget" request); cbn [negb andb].
  { subst r. rewrite handleBudgetCommand_kept; reflexivity. }
  unfold bind at 1 in Hr. unfold get at 1 in Hr. unfold bind at 1 in Hr.
  unfold modify at 1 in Hr. cbn [forceModelId set_clock] in Hr.
  destruct (scanForce (Chat.prompt request) (forceModelId m)) as [[forcedId cleanPrompt] |];
    [| subst r; reflexivity].
  subst r.
  match goal with
  | |- forceModelId (after (bind ?c ?k ?m0)) = None =>
      change None with (forceModelId m0);
      apply (kept_bind forceModelId _ _ c k)
  end.
  - apply pass1_force.
  - intro routed. apply kept_bind.
    + apply policyGuard_kept. reflexivity.
    + intro selected. apply pass2_kept; reflexivity.
Qed.

Lemma lookupPattern_inherited : forall n,
  In n inheritedMembers -> lookupPattern (txt n) = InheritedMember.
Proof.
  intros n H. unfold inheritedMembers in H. cbn [In] in H.
  repeat (destruct H as [H | H]; [subst n; reflexivity |]). destruct H.
Qed.

(** X9.  An alias that, lowercased and without hyphens, is the name of a
    member that the alias table inherits from [Object.prototype] (such as
    [constructor] or [__proto__]) makes the handler throw a TypeError: the
    forced id is then no string, no catalog entry is found for it, and
    the name of [undefined] is read.  Nothing but the request id was
    generated and the picker's choice was consumed. *)
Theorem X9_inherited_alias_throws :
  forall (cfg : Config num) W request history m capture n,
  enabled cfg = true ->
  is_command "stats" request = false ->
  is_command "budget" request = false ->
  match_force (Chat.prompt request) = Some capture ->
  remove_hyphens (toLowerCase capture) = txt n ->
  In n inheritedMembers ->
  handleChatRequest cfg W request history m
    = Throw TypeError (set_forceModelId None (set_clock (S (clock m)) m)).
Proof.
  intros cfg W request history m capture n Hen Hstats Hbudget Hmatch Hkey Hin.
  unfold handleChatRequest. rewrite Hen. cbn [negb].
  unfold generateRequestId. unfold bind at 1. unfold bind at 1. unfold tick at 1.
  unfold ret at 1. rewrite Hstats, Hbudget.
  unfold bind at 1. unfold get at 1. unfold bind at 1. unfold modify at 1.
  unfold scanForce. rewrite Hmatch, Hkey, (lookupPattern_inherited n Hin).
  reflexivity.
Qed.

(** X10.  A forced model of the catalog that passes the policy check is
    the model a completed request was executed with, and the task type is
    that of the keyword classifier on the cleaned prompt: no
    classification by a model takes place. *)
Theorem X10_allowed_forced_model_is_used :
  forall (cfg : Config num) W request history m forced cleanPrompt x nm t credit rid m',
  scanForce (Chat.prompt request) (forceModelId m) = Some (Some forced, cleanPrompt) ->
  getModel forced = Some x ->
  isModelAllowed cfg x = true ->
  handleChatRequest cfg W request history m = Ok (ResultDone nm t credit rid) m' ->
  nm = name x /\ credit = creditMultiplier x /\
  t = fallbackClassify cleanPrompt /\
  option_map modelId (lastRequest m') = Some forced /\
  exists out,
    sessionStats m' = recordCompletion (sessionStats m) x t cleanPrompt out.
Proof.
  intros cfg W request history m forced cleanPrompt x nm t credit rid m' Hscan Hcat Hok H.
  assert (Hne : forced <> "").
  { intro E. subst forced. rewrite getModel_empty in Hcat. discriminate. }
  destruct (handleChatRequest_outcome cfg W request history m)
    as [(_ & _ & Hnot)
       | (sel & t0 & forcedId & cp & out & _ & _ & _ & Hscan' & Hrun & Hnew & Hlast & _ & _
          & Hforced)].
  - destruct (Hnot _ _ _ _ _ H).
  - rewrite Hscan in Hscan'. inversion Hscan'; subst forcedId cp. clear Hscan'.
    destruct (Hforced forced eq_refl Hne) as (Ht & x' & Hcat' & Hsel).
    rewrite Hcat in Hcat'. inversion Hcat'; subst x'. specialize (Hsel Hok). subst sel.
    rewrite H in Hrun, Hnew, Hlast. cbn [after] in Hrun, Hnew, Hlast.
    inversion Hrun; subst. rewrite Hlast. cbn [option_map modelId].
    rewrite (getModel_id _ _ Hcat).
    repeat split. exists out. exact Hnew.
Qed.

End RequestProps.

(* ================================================================== *)
(** ** The alias scan *)
(* ================================================================== *)

Section AliasScan.
Context {CM : CaseMapping}.

Lemma match_force_cons : forall c w rest,
  match_force (c :: w :: rest) =
  if ((c =? 64)%N && is_word w)%bool then Some (w :: take_alias rest)
  else match_force (w :: rest).
Proof. reflexivity. Qed.

Lemma remove_first_unfold : forall p s,
  remove_first p s =
  if startsWith p s then skipn (List.length p) s
  else match s with
       | [] => []
       | c :: s' => c :: remove_first p s'
       end.
Proof. intros p s. destruct s; reflexivity. Qed.

Lemma startsWith_take_alias : forall r, startsWith (take_alias r) r = true.
Proof.
  induction r as [| c r IH]; simpl; [reflexivity |].
  destruct (is_word c || (c =? 46)%N || (c =? 45)%N); [| reflexivity].
  simpl. rewrite N.eqb_refl, IH. reflexivity.
Qed.

(** The leftmost match of the alias scan: where it is, what it captures,
    and what is left of the text once the match is removed. *)
Lemma match_force_split : forall s capture,
  match_force s = Some capture ->
  exists before w rest,
    s = before ++ 64%N :: w :: rest /\
    is_word w = true /\
    match_force before = None /\
    capture = w :: take_alias rest /\
    remove_first (64%N :: capture) s
      = before ++ skipn (List.length (take_alias rest)) rest.
Proof.
  induction s as [| c s' IH]; intros capture H; [discriminate H |].
  destruct s' as [| w rest]; [discriminate H |].
  rewrite match_force_cons in H.
  destruct ((c =? 64)%N && is_word w)%bool eqn:E.
  - inversion H; subst capture. apply andb_true_iff in E. destruct E as [Ec Ew].
    apply N.eqb_eq in Ec. subst c.
    exists [], w, rest. split; [reflexivity |]. split; [exact Ew |].
    split; [reflexivity |]. split; [reflexivity |].
    rewrite remove_first_unfold. cbn [startsWith].
    rewrite !N.eqb_refl, startsWith_take_alias. reflexivity.
  - destruct (IH capture H) as (before & w' & rest' & Hs & Hw & Hnone & Hcap & Hrem).
    exists (c :: before), w', rest'.
    split; [rewrite Hs; reflexivity |]. split; [exact Hw |].
    split.
    { destruct before as [| w0 r0]; [reflexivity |].
      rewrite match_force_cons. cbn [app] in Hs. inversion Hs; subst w0.
      rewrite E. exact Hnone. }
    split; [exact Hcap |].
    rewrite remove_first_unfold.
    assert (Hno : startsWith (64%N :: capture) (c :: w :: rest) = false).
    { rewrite Hcap. cbn [startsWith].
      destruct (N.eqb 64 c) eqn:Ec; [| reflexivity].
      destruct (N.eqb w' w) eqn:Ew; [| reflexivity].
      apply N.eqb_eq in Ec. apply N.eqb_eq in Ew. subst c w'.
      rewrite Hw in E. discriminate E. }
    rewrite Hno, Hrem. reflexivity.
Qed.

(** X11.  The scan of the prompt for an alias.  Without a match, or with
    a match that is no alias of the table and no inherited member, the
    prompt is left as it is and the picker's choice stands.  The match is
    the leftmost at-sign followed by a word character, with the longest
    run of word characters, dots and hyphens after it; when it is an
    alias of the table, its model replaces the picker's choice and the
    cleaned prompt is the prompt with exactly that occurrence cut out,
    trimmed. *)
Theorem X11_alias_scan : forall (prompt : text) (picked : option string),
  (match_force prompt = None -> scanForce prompt picked = Some (picked, prompt)) /\
  (forall capture, match_force prompt = Some capture ->
     exists before w rest,
       prompt = before ++ 64%N :: w :: rest /\
       is_word w = true /\
       match_force before = None /\
       capture = w :: take_alias rest /\
       (forall forced,
          lookupPattern (remove_hyphens (toLowerCase capture)) = OwnValue forced ->
          scanForce prompt picked
            = Some (Some forced,
                    trim (before ++ skipn (List.length (take_alias rest)) rest))) /\
       (lookupPattern (remove_hyphens (toLowerCase capture)) = NoProperty ->
        scanForce prompt picked = Some (picked, prompt))).
Proof.
  intros prompt picked. split.
  - intro H. unfold scanForce. rewrite H. reflexivity.
  - intros capture H.
    destruct (match_force_split prompt capture H)
      as (before & w & rest & Hs & Hw & Hnone & Hcap & Hrem).
    exists before, w, rest.
    split; [exact Hs |]. split; [exact Hw |]. split; [exact Hnone |].
    split; [exact Hcap |]. split.
    + intros forced Hlook. unfold scanForce. rewrite H, Hlook, Hrem. reflexivity.
    + intro Hlook. unfold scanForce. rewrite H, Hlook. reflexivity.
Qed.

End AliasScan.

(* ================================================================== *)
(** ** The keys of the session statistics *)
(* ================================================================== *)

Section SessionKeys.
Context {num : Type} {NUM : JsNumber num} {CM : CaseMapping}.

Lemma keys_obj_set : forall V (k : string) (v : V) (o : Obj V),
  keys (obj_set k v o) = if existsb (String.eqb k) (keys o) then keys o else keys o ++ [k].
Proof.
  intros V k v o. induction o as [| [k0 v0] o IH]; [reflexivity |].
  cbn [obj_set keys map fst existsb]. rewrite (String.eqb_sym k k0).
  destruct (String.eqb k0 k) eqn:E; cbn [orb].
  - apply String.eqb_eq in E. subst k0. reflexivity.
  - cbn [map fst]. fold (keys (obj_set k v o)). rewrite IH. fold (keys o).
    destruct (existsb (String.eqb k) (keys o)); reflexivity.
Qed.

(** Setting a property keeps the keys distinct, and keeps them within
    any set of names that holds the key. *)
Lemma obj_set_keys : forall V (P : string -> Prop) (k : string) (v : V) (o : Obj V),
  NoDup (keys o) -> (forall k', In k' (keys o) -> P k') -> P k ->
  NoDup (keys (obj_set k v o)) /\ (forall k', In k' (keys (obj_set k v o)) -> P k').
Proof.
  intros V P k v o Hnd Hall Hk. rewrite keys_obj_set.
  destruct (existsb (String.eqb k) (keys o)) eqn:E; [split; assumption |].
  split.
  - apply NoDup_app; [exact Hnd | repeat constructor; intros [] |].
    intros a Ha [Hb | []]. subst a.
    apply existsb_eqb_In in Ha. rewrite Ha in E. discriminate E.
  - intros k' Hin. apply in_app_or in Hin. destruct Hin as [Hin | [Hin | []]].
    + apply Hall. exact Hin.
    + subst k'. exact Hk.
Qed.

(** What an action does to the statistics: nothing, or one completion by
    a model of the catalog. *)
Lemma perform_outcome : forall (a : Action) (m : Machine num),
  sessionStats (perform a m) = sessionStats m \/
  exists sel t cleanPrompt out,
    getModel (id sel) = Some sel /\
    sessionStats (perform a m) = recordCompletion (sessionStats m) sel t cleanPrompt out.
Proof.
  intros a m. destruct a as [cfg W request history | cfg choice | choice
                            | cfg W rid model task up | cfg]; cbn [perform].
  - destruct (handleChatRequest_outcome cfg W request history (set_stream [] m))
      as [(Hs & _) | (sel & t & forcedId & cp & out & _ & _ & _ & _ & _ & Hnew & _ & Hcat & _)].
    + left. exact Hs.
    + right. exists sel, t, cp, out. split; [exact Hcat | exact Hnew].
  - left. unfold showModelPicker.
    destruct choice as [i |]; [| reflexivity].
    destruct (nth_error pickerDetails i) as [detail |]; [| reflexivity].
    destruct (String.eqb detail ""); [reflexivity |].
    destruct (String.eqb detail "auto"); reflexivity.
  - left. unfold retryWithModel.
    destruct choice as [i |]; [| reflexivity].
    destruct (nth_error retryDetails i) as [detail |]; [| reflexivity].
    destruct (String.eqb detail ""); reflexivity.
  - left. apply recordFeedback_stats.
  - left. apply updateStatusBar_stats.
Qed.

Lemma getModel_listed : forall k (sel : ModelDefinition num),
  getModel k = Some sel -> In k (map id (MODELS (num := num))).
Proof.
  intros k sel H. unfold getModel in H. apply find_some in H. destruct H as [Hin Heq].
  apply String.eqb_eq in Heq. subst k. apply in_map. exact Hin.
Qed.

(** X12.  In every reachable state the keys of [creditsByModel] are ids
    of the catalog and the keys of [taskTypes] are task types, without
    repetition: the two tables have at most 18 and 13 entries however
    long the session, and every row of the stats command is labelled with
    the name of a model. *)
Theorem X12_statistics_keys : forall m : Machine num,
  reachable m ->
  NoDup (keys (creditsByModel (sessionStats m))) /\
  (forall k, In k (keys (creditsByModel (sessionStats m))) ->
     exists sel : ModelDefinition num, getModel k = Some sel) /\
  NoDup (keys (taskTypes (sessionStats m))) /\
  (forall k, In k (keys (taskTypes (sessionStats m))) -> exists t, k = task_name t) /\
  (List.length (creditsByModel (sessionStats m)) <= 18)%nat /\
  (List.length (taskTypes (sessionStats m)) <= 13)%nat.
Proof.
  intros m Hreach.
  assert (Hinv :
    NoDup (keys (creditsByModel (sessionStats m))) /\
    (forall k, In k (keys (creditsByModel (sessionStats m))) ->
       exists sel : ModelDefinition num, getModel k = Some sel) /\
    NoDup (keys (taskTypes (sessionStats m))) /\
    (forall k, In k (keys (taskTypes (sessionStats m))) -> exists t, k = task_name t)).
  { induction Hreach as [cfg stored | a m Hreach IH].
    - cbn. repeat split; try constructor; intros k [].
    - destruct (perform_outcome a m) as [Hsame | (sel & t & cp & out & Hcat & Hnew)].
      + rewrite Hsame. exact IH.
      + rewrite Hnew. destruct IH as (Hnd1 & Hin1 & Hnd2 & Hin2).
        unfold recordCompletion. cbn [creditsByModel taskTypes].
        destruct (obj_set_keys num
                    (fun k => exists sel : ModelDefinition num, getModel k = Some sel)
                    (id sel)
                    (nadd (or_zero (obj_get (id sel) (creditsByModel (sessionStats m))))
                          (creditMultiplier sel))
                    (creditsByModel (sessionStats m)) Hnd1 Hin1)
          as [A1 A2]; [exists sel; exact Hcat |].
        destruct (obj_set_keys num (fun k => exists t, k = task_name t)
                    (task_name t)
                    (nadd (or_zero (obj_get (task_name t) (taskTypes (sessionStats m))))
                          (nint 1))
                    (taskTypes (sessionStats m)) Hnd2 Hin2)
          as [B1 B2]; [exists t; reflexivity |].
        repeat split; assumption. }
  destruct Hinv as (Hnd1 & Hin1 & Hnd2 & Hin2).
  repeat split; try assumption.
  - change 18%nat with (List.length (map id (MODELS (num := num)))).
    rewrite <- (length_map fst (creditsByModel (sessionStats m))).
    apply NoDup_incl_length; [exact Hnd1 |].
    intros k Hk. destruct (Hin1 k Hk) as (sel & Hsel). apply (getModel_listed k sel Hsel).
  - change 13%nat with (List.length (map task_name TASK_TYPES_LIST)).
    rewrite <- (length_map fst (taskTypes (sessionStats m))).
    apply NoDup_incl_length; [exact Hnd2 |].
    intros k Hk. destruct (Hin2 k Hk) as (t & Ht). subst k.
    apply in_map. destruct t; cbn; auto 20.
Qed.

Section ExactCounts.
Context {EX : ExactAddition num}.


End ExactCounts.

End SessionKeys.

(* ================================================================== *)
(** ** The slash commands *)
(* ================================================================== *)

Section Commands.
Context {num : Type} {NUM : JsNumber num}.

Lemma insert_desc_perm : forall (x : string * num) l, Permutation (insert_desc x l) (x :: l).
Proof.
  intros x l. induction l as [| y l IH]; cbn [insert_desc]; [apply Permutation_refl |].
  destruct (nlt (snd x) (snd y)); [| apply Permutation_refl].
  apply (Permutation_trans (l' := y :: x :: l)); [| apply perm_swap].
  apply perm_skip. exact IH.
Qed.

Lemma sort_desc_perm : forall o : Obj num, Permutation (sort_desc o) o.
Proof.
  induction o as [| x o IH]; [apply Permutation_refl |].
  unfold sort_desc. cbn [fold_right].
  apply (Permutation_trans (insert_desc_perm x _)). apply perm_skip. exact IH.
Qed.

(** X14.  The stats command never throws and changes nothing but the
    response stream: it writes the summary table, then one row for each
    entry of [creditsByModel] and one for each entry of [taskTypes] -
    every entry once, in the order of the sort - and returns the command
    result. *)
Theorem X14_stats_command_reports_every_entry : forall (cfg : Config num) (m : Machine num),
  exists modelRows taskRows,
    Permutation modelRows (creditsByModel (sessionStats m)) /\
    Permutation taskRows (taskTypes (sessionStats m)) /\
    handleStatsCommand cfg m =
    Ok (ResultCommand "stats")
       (set_stream
          (stream m ++
           MdStatsTable (requestCount (sessionStats m)) (totalCreditsUsed (sessionStats m))
             (statsPercent cfg (sessionStats m)) (monthlyBudget cfg)
             (nround (input (tokenCount (sessionStats m))))
             (nround (output (tokenCount (sessionStats m))))
           :: map (fun kv => MdModelRow (match getModel (num := num) (fst kv) with
                                         | Some model => name model
                                         | None => fst kv
                                         end) (snd kv)) modelRows
           ++ map (fun kv => MdTaskRow (fst kv) (snd kv)) taskRows) m).
Proof.
  intros cfg m.
  exists (sort_desc (creditsByModel (sessionStats m))), (sort_desc (taskTypes (sessionStats m))).
  split; [apply sort_desc_perm |]. split; [apply sort_desc_perm |].
  unfold handleStatsCommand, bind, get, emit, modify.
  rewrite emit_all_run. cbn [sessionStats set_stream stream].
  rewrite emit_all_run. unfold ret. cbn [sessionStats set_stream stream].
  unfold set_stream. cbn [sessionStats statusBarItem forceModelId lastRequest feedbackLog
                          globalState posted stream clock].
  rewrite <- !app_assoc. reflexivity.
Qed.

End Commands.

Section ZeroBudget.

Lemma positive_over_zero : forall used : float,
  PrimFloat.ltb 0 used = true -> PrimFloat.div used 0 = PrimFloat.infinity.
Proof.
  intros used H. apply Prim2SF_inj. rewrite FloatAxioms.div_spec.
  rewrite FloatAxioms.ltb_spec in H.
  change (Prim2SF 0) with (S754_zero false) in *.
  change (Prim2SF PrimFloat.infinity) with (S754_infinity false).
  destruct (Prim2SF used) as [s | s | | s mm e]; cbn in H; try discriminate H;
    destruct s; try discriminate H; reflexivity.
Qed.

(** X15.  With doubles, a monthly budget of 0 and credits used: the
    budget command divides by zero, the number of blocks of its bar is
    infinite and [repeat] raises a RangeError before anything is written;
    the stats command and the status bar, which test the budget first,
    show 0. *)
Theorem X15_budget_command_zero_budget :
  forall (cfg : Config float) (m : Machine float),
  monthlyBudget cfg = nint 0 ->
  nlt nzero (totalCreditsUsed (sessionStats m)) = true ->
  handleBudgetCommand cfg m = Throw RangeError m /\
  statsPercent cfg (sessionStats m) = Literal0 /\
  (forall mo, sbPercent (statusBarItem (after (updateStatusBar cfg mo m))) = nzero).
Proof.
  intros cfg m Hb Hpos.
  assert (Hzero : (nint 0 : float) = 0%float) by (vm_compute; reflexivity).
  assert (Hinf : ndiv (totalCreditsUsed (sessionStats m)) (monthlyBudget cfg)
                 = PrimFloat.infinity).
  { rewrite Hb, Hzero. apply positive_over_zero.
    unfold nzero in Hpos. rewrite Hzero in Hpos. exact Hpos. }
  assert (Hbar : nrepeat (nround (nmul PrimFloat.infinity (nint 20))) = None)
    by (vm_compute; reflexivity).
  assert (Hguard : nlt nzero (monthlyBudget cfg) = false)
    by (rewrite Hb; vm_compute; reflexivity).
  split; [| split].
  - unfold handleBudgetCommand, bind, get. cbv zeta. cbn [sessionStats].
    rewrite Hinf, Hbar. reflexivity.
  - unfold statsPercent. rewrite Hguard. reflexivity.
  - intro mo. rewrite updateStatusBar_percent. unfold specifiedPercent.
    rewrite Hguard. reflexivity.
Qed.

End ZeroBudget.

(* ================================================================== *)
(** ** The selection of a backend *)
(* ================================================================== *)

Section BackendSelection.
Context {num : Type} {NUM : JsNumber num}.

Lemma fallback_families :
  exists a b c : ModelDefinition num,
    getModel "gpt-4o" = Some a /\ family a = "gpt-4o" /\
    getModel "gpt-4.1" = Some b /\ family b = "gpt-4.1" /\
    getModel "gpt-5-mini" = Some c /\ family c = "gpt-5-mini".
Proof. do 3 eexists. repeat split; reflexivity. Qed.

(** X16.  [selectCopilotModel] never throws and asks for backends at most
    five times, in this order: the family of the model, then the families
    [gpt-4o], [gpt-4.1] and [gpt-5-mini], then any backend.  It stops at
    the first answer that is not an empty list, and returns the first
    backend of that answer, or [null] when that selection fails; after
    five empty answers it returns [null]. *)
Theorem X16_selectCopilotModel_chain :
  forall W (sel : ModelDefinition num) (m : Machine num),
  let queries := [Some (family sel); Some "gpt-4o"; Some "gpt-4.1"; Some "gpt-5-mini"; None] in
  exists n,
    (n < 5)%nat /\
    (forall j, (j < n)%nat ->
       Vscode.selectChatModels W (clock m + j) (nth j queries None) = Vscode.SelectReturns []) /\
    ((n < 4)%nat ->
     Vscode.selectChatModels W (clock m + n) (nth n queries None) <> Vscode.SelectReturns []) /\
    selectCopilotModel W sel m =
    Ok match Vscode.selectChatModels W (clock m + n) (nth n queries None) with
       | Vscode.SelectFails => None
       | Vscode.SelectReturns models => hd_error models
       end
       (set_clock (clock m + n + 1) m).
Proof.
  intros W sel m queries. subst queries.
  destruct fallback_families as (a & b & c & Ha & Hfa & Hb & Hfb & Hc & Hfc).
  unfold selectCopilotModel. cbn [try_fallbacks]. rewrite Ha, Hb, Hc, Hfa, Hfb, Hfc.
  unfold bind, tick, ret. cbn [clock set_clock].
  assert (E0 : (clock m + 0 = clock m)%nat) by lia.
  assert (E1 : (clock m + 1 = S (clock m))%nat) by lia.
  assert (E2 : (clock m + 2 = S (S (clock m)))%nat) by lia.
  assert (E3 : (clock m + 3 = S (S (S (clock m))))%nat) by lia.
  assert (E4 : (clock m + 4 = S (S (S (S (clock m)))))%nat) by lia.
  destruct (Vscode.selectChatModels W (clock m) (Some (family sel))) as [| [| x0 l0]] eqn:Q0.
  1, 3: (exists 0%nat; cbn [nth]; rewrite ?E0, ?E1, ?Nat.add_1_r, Q0;
         repeat split; [lia | intros j Hj; lia | intros _; discriminate]).
  cbn [clock set_clock].
  destruct (Vscode.selectChatModels W (S (clock m)) (Some "gpt-4o")) as [| [| x1 l1]] eqn:Q1.
  1, 3: (exists 1%nat; cbn [nth]; rewrite ?E1, ?Nat.add_1_r, Q1;
         repeat split; [lia | | intros _; discriminate];
         intros [| j] Hj; [cbn [nth]; rewrite E0; exact Q0 | lia]).
  cbn [clock set_clock].
  destruct (Vscode.selectChatModels W (S (S (clock m))) (Some "gpt-4.1")) as [| [| x2 l2]] eqn:Q2.
  1, 3: (exists 2%nat; cbn [nth]; rewrite ?E2, ?Nat.add_1_r, Q2;
         repeat split; [lia | | intros _; discriminate];
         intros [| [| j]] Hj; cbn [nth];
         [rewrite E0; exact Q0 | rewrite E1; exact Q1 | lia]).
  cbn [clock set_clock].
  destruct (Vscode.selectChatModels W (S (S (S (clock m)))) (Some "gpt-5-mini"))
    as [| [| x3 l3]] eqn:Q3.
  1, 3: (exists 3%nat; cbn [nth]; rewrite ?E3, ?Nat.add_1_r, Q3;
         repeat split; [lia | | intros _; discriminate];
         intros [| [| [| j]]] Hj; cbn [nth];
         [rewrite E0; exact Q0 | rewrite E1; exact Q1 | rewrite E2; exact Q2 | lia]).
  cbn [clock set_clock].
  exists 4%nat. cbn [nth]. rewrite ?E4, ?Nat.add_1_r.
  split; [lia |]. split; [| split; [intro; lia |]].
  - intros [| [| [| [| j]]]] Hj; cbn [nth];
      [rewrite E0; exact Q0 | rewrite E1; exact Q1 | rewrite E2; exact Q2
      | rewrite E3; exact Q3 | lia].
  - destruct (Vscode.selectChatModels W (S (S (S (S (clock m))))) None); reflexivity.
Qed.

End BackendSelection.

(* ================================================================== *)
(** ** The statistics of the feedback log *)
(* ================================================================== *)

Section FeedbackStatsProps.
Context {num : Type}.

Lemma obj_get_count_under : forall C (zero : C) bump k k' (o : Obj C),
  obj_get k' (count_under zero bump k o) =
  if negb (inherited k) && String.eqb k k'
  then Some (bump match obj_get k o with Some c => c | None => zero end)
  else obj_get k' o.
Proof.
  intros C zero bump k k' o. unfold count_under.
  destruct (inherited k); cbn [negb andb]; [reflexivity |].
  destruct (String.eqb k k') eqn:E.
  - apply String.eqb_eq in E. subst k'.
    destruct (obj_get k o); apply obj_get_set_same.
  - apply String.eqb_neq in E.
    destruct (obj_get k o); apply obj_get_set_other; congruence.
Qed.

(** One turn of the loop adds [delta] to the counter of the row of a key
    that is not inherited, when the key is the one of the entry. *)
Lemma counter_count_under : forall C (f : C -> nat) (zero : C) bump delta k k' (o : Obj C),
  inherited k' = false -> f zero = 0%nat -> (forall c, f (bump c) = (f c + delta)%nat) ->
  counter f k' (count_under zero bump k o)
    = (counter f k' o + if String.eqb k k' then delta else 0)%nat.
Proof.
  intros C f zero bump delta k k' o Hk Hzero Hbump. unfold counter.
  rewrite obj_get_count_under.
  destruct (String.eqb k k') eqn:E.
  - apply String.eqb_eq in E. subst k'. rewrite Hk. cbn [negb andb].
    rewrite Hbump. destruct (obj_get k o); [reflexivity | rewrite Hzero; reflexivity].
  - rewrite andb_false_r. lia.
Qed.

Lemma length_filter_cons : forall A (p : A -> bool) x l,
  List.length (filter p (x :: l)) = ((if p x then 1 else 0) + List.length (filter p l))%nat.
Proof. intros A p x l. cbn [filter]. destruct (p x); reflexivity. Qed.

Lemma fold_count_totals : forall (log : list (Feedback.FeedbackEntry num)) s r,
  FeedbackStats.total (fold_left count_entry log s) = FeedbackStats.total s /\
  match r with
  | Feedback.positive => FeedbackStats.positive
  | Feedback.negative => FeedbackStats.negative
  | Feedback.override => FeedbackStats.overrides
  end (fold_left count_entry log s)
  = (match r with
     | Feedback.positive => FeedbackStats.positive
     | Feedback.negative => FeedbackStats.negative
     | Feedback.override => FeedbackStats.overrides
     end s + rated r log)%nat.
Proof.
  induction log as [| e log IH]; intros s r; cbn [fold_left].
  - unfold rated. cbn. split; [reflexivity | lia].
  - destruct (IH (count_entry s e) r) as [Ht Hr]. rewrite Ht, Hr.
    unfold rated. rewrite length_filter_cons.
    split; [reflexivity |].
    generalize (List.length (filter (fun e0 => rating_eqb r (Feedback.rating e0)) log)).
    intro n. unfold count_entry. destruct r, (Feedback.rating e); cbn; lia.
Qed.

(** X17.  [getFeedbackStats]: the total is the length of the log, the
    three counters are the numbers of entries with each rating, and they
    add up to the total. *)
Theorem X17_getFeedbackStats_totals : forall log : list (Feedback.FeedbackEntry num),
  FeedbackStats.total (getFeedbackStats log) = List.length log /\
  FeedbackStats.positive (getFeedbackStats log) = rated Feedback.positive log /\
  FeedbackStats.negative (getFeedbackStats log) = rated Feedback.negative log /\
  FeedbackStats.overrides (getFeedbackStats log) = rated Feedback.override log /\
  (FeedbackStats.positive (getFeedbackStats log)
   + FeedbackStats.negative (getFeedbackStats log)
   + FeedbackStats.overrides (getFeedbackStats log)
   = FeedbackStats.total (getFeedbackStats log))%nat.
Proof.
  intro log. unfold getFeedbackStats.
  set (s0 := {| FeedbackStats.total := List.length log;
                FeedbackStats.positive := 0; FeedbackStats.negative := 0;
                FeedbackStats.overrides := 0;
                FeedbackStats.byModel := []; FeedbackStats.byTask := [] |}).
  destruct (fold_count_totals log s0 Feedback.positive) as [Ht Hp].
  destruct (fold_count_totals log s0 Feedback.negative) as [_ Hn].
  destruct (fold_count_totals log s0 Feedback.override) as [_ Ho].
  rewrite Ht, Hp, Hn, Ho. cbn [s0 FeedbackStats.total FeedbackStats.positive
                               FeedbackStats.negative FeedbackStats.overrides].
  repeat split.
  unfold rated. clear. induction log as [| e log IH]; [reflexivity |].
  rewrite !length_filter_cons. cbn [List.length].
  set (a := List.length (filter (fun e0 => rating_eqb Feedback.positive (Feedback.rating e0)) log))
    in *.
  set (b := List.length (filter (fun e0 => rating_eqb Feedback.negative (Feedback.rating e0)) log))
    in *.
  set (c := List.length (filter (fun e0 => rating_eqb Feedback.override (Feedback.rating e0)) log))
    in *.
  destruct (Feedback.rating e); cbn [rating_eqb]; lia.
Qed.

Lemma fold_count_model : forall (f : FeedbackStats.ModelCounts -> nat) r k,
  inherited k = false ->
  (forall r' c, f (bump_model r' c) = (f c + if rating_eqb r r' then 1 else 0)%nat) ->
  f {| FeedbackStats.mPositive := 0; FeedbackStats.mNegative := 0;
       FeedbackStats.mOverrides := 0 |} = 0%nat ->
  forall (log : list (Feedback.FeedbackEntry num)) s,
  counter f k (FeedbackStats.byModel (fold_left count_entry log s))
    = (counter f k (FeedbackStats.byModel s) + rated_for_model r k log)%nat.
Proof.
  intros f r k Hk Hbump Hzero. induction log as [| e log IH]; intro s; cbn [fold_left].
  - unfold rated_for_model. cbn. lia.
  - rewrite IH. unfold rated_for_model. rewrite length_filter_cons.
    unfold count_entry. cbn [FeedbackStats.byModel].
    rewrite (counter_count_under _ f _ _ (if rating_eqb r (Feedback.rating e) then 1 else 0)%nat
               _ k _ Hk Hzero (Hbump (Feedback.rating e))).
    destruct (String.eqb (Feedback.selectedModel e) k);
      destruct (rating_eqb r (Feedback.rating e)); cbn [andb]; lia.
Qed.

Lemma fold_count_task : forall (f : FeedbackStats.TaskCounts -> nat) r k,
  inherited k = false ->
  (forall r' c, f (bump_task r' c) = (f c + if rating_eqb r r' then 1 else 0)%nat) ->
  f {| FeedbackStats.tPositive := 0; FeedbackStats.tNegative := 0 |} = 0%nat ->
  forall (log : list (Feedback.FeedbackEntry num)) s,
  counter f k (FeedbackStats.byTask (fold_left count_entry log s))
    = (counter f k (FeedbackStats.byTask s) + rated_for_task r k log)%nat.
Proof.
  intros f r k Hk Hbump Hzero. induction log as [| e log IH]; intro s; cbn [fold_left].
  - unfold rated_for_task. cbn. lia.
  - rewrite IH. unfold rated_for_task. rewrite length_filter_cons.
    unfold count_entry. cbn [FeedbackStats.byTask].
    rewrite (counter_count_under _ f _ _ (if rating_eqb r (Feedback.rating e) then 1 else 0)%nat
               _ k _ Hk Hzero (Hbump (Feedback.rating e))).
    destruct (String.eqb (Feedback.taskType e) k);
      destruct (rating_eqb r (Feedback.rating e)); cbn [andb]; lia.
Qed.

(** The rows of a table after the loop: those it had, and one for each
    key of the entries that is not inherited. *)
Lemma fold_rows : forall C (zero : C) (bump : Feedback.Rating -> C -> C)
  (key : Feedback.FeedbackEntry num -> string) k
  (log : list (Feedback.FeedbackEntry num)) (o : Obj C),
  obj_get k (fold_left (fun o e => count_under zero (bump (Feedback.rating e)) (key e) o) log o)
    <> None
  <-> (obj_get k o <> None \/ (inherited k = false /\ exists e, In e log /\ key e = k)).
Proof.
  intros C zero bump key k. induction log as [| e log IH]; intro o; cbn [fold_left].
  - split; [intro H; left; exact H | intros [H | (_ & e & [] & _)]; exact H].
  - rewrite IH, obj_get_count_under. split.
    + intros [H | (Hk & e' & Hin & He')].
      * destruct (inherited (key e)) eqn:Hi; cbn [negb andb] in H; [left; exact H |].
        destruct (String.eqb (key e) k) eqn:E; [| left; exact H].
        apply String.eqb_eq in E. right. split; [subst k; exact Hi |].
        exists e. split; [left; reflexivity | exact E].
      * right. split; [exact Hk |]. exists e'. split; [right; exact Hin | exact He'].
    + intros [H | (Hk & e' & [He | Hin] & He')].
      * left. destruct (negb (inherited (key e)) && String.eqb (key e) k);
          [discriminate | exact H].
      * subst e'. left. rewrite He', Hk, String.eqb_refl. cbn. discriminate.
      * right. split; [exact Hk |]. exists e'. split; [exact Hin | exact He'].
Qed.

Lemma byModel_fold : forall (log : list (Feedback.FeedbackEntry num)) s,
  FeedbackStats.byModel (fold_left count_entry log s) =
  fold_left (fun o e =>
               count_under {| FeedbackStats.mPositive := 0; FeedbackStats.mNegative := 0;
                              FeedbackStats.mOverrides := 0 |}
                 (bump_model (Feedback.rating e)) (Feedback.selectedModel e) o)
            log (FeedbackStats.byModel s).
Proof.
  induction log as [| e log IH]; intro s; cbn [fold_left]; [reflexivity |].
  rewrite IH. reflexivity.
Qed.

Lemma byTask_fold : forall (log : list (Feedback.FeedbackEntry num)) s,
  FeedbackStats.byTask (fold_left count_entry log s) =
  fold_left (fun o e =>
               count_under {| FeedbackStats.tPositive := 0; FeedbackStats.tNegative := 0 |}
                 (bump_task (Feedback.rating e)) (Feedback.taskType e) o)
            log (FeedbackStats.byTask s).
Proof.
  induction log as [| e log IH]; intro s; cbn [fold_left]; [reflexivity |].
  rewrite IH. reflexivity.
Qed.

(** X18.  The tables of [getFeedbackStats].  A key that names a member
    which an object literal inherits never gets a row.  Any other key has
    a row in [byModel] exactly when some entry has it as [selectedModel],
    and in [byTask] exactly when some entry has it as [taskType] (an
    override alone gives a task row of zeros); the counters of its row are
    the numbers of entries with that key and each rating. *)
Theorem X18_getFeedbackStats_rows :
  forall (log : list (Feedback.FeedbackEntry num)) (k : string),
  (inherited k = true ->
   obj_get k (FeedbackStats.byModel (getFeedbackStats log)) = None /\
   obj_get k (FeedbackStats.byTask (getFeedbackStats log)) = None) /\
  (inherited k = false ->
   (obj_get k (FeedbackStats.byModel (getFeedbackStats log)) <> None
    <-> exists e, In e log /\ Feedback.selectedModel e = k) /\
   (obj_get k (FeedbackStats.byTask (getFeedbackStats log)) <> None
    <-> exists e, In e log /\ Feedback.taskType e = k) /\
   counter FeedbackStats.mPositive k (FeedbackStats.byModel (getFeedbackStats log))
     = rated_for_model Feedback.positive k log /\
   counter FeedbackStats.mNegative k (FeedbackStats.byModel (getFeedbackStats log))
     = rated_for_model Feedback.negative k log /\
   counter FeedbackStats.mOverrides k (FeedbackStats.byModel (getFeedbackStats log))
     = rated_for_model Feedback.override k log /\
   counter FeedbackStats.tPositive k (FeedbackStats.byTask (getFeedbackStats log))
     = rated_for_task Feedback.positive k log /\
   counter FeedbackStats.tNegative k (FeedbackStats.byTask (getFeedbackStats log))
     = rated_for_task Feedback.negative k log).
Proof.
  intros log k. unfold getFeedbackStats.
  set (s0 := {| FeedbackStats.total := List.length log;
                FeedbackStats.positive := 0; FeedbackStats.negative := 0;
                FeedbackStats.overrides := 0;
                FeedbackStats.byModel := []; FeedbackStats.byTask := [] |}).
  pose proof (fold_rows _ {| FeedbackStats.mPositive := 0; FeedbackStats.mNegative := 0;
                             FeedbackStats.mOverrides := 0 |}
                bump_model Feedback.selectedModel k log (FeedbackStats.byModel s0)) as Hm.
  pose proof (fold_rows _ {| FeedbackStats.tPositive := 0; FeedbackStats.tNegative := 0 |}
                bump_task Feedback.taskType k log (FeedbackStats.byTask s0)) as Ht.
  rewrite <- (byModel_fold log s0) in Hm. rewrite <- (byTask_fold log s0) in Ht.
  split.
  - intro Hk. split.
    + destruct (obj_get k (FeedbackStats.byModel (fold_left count_entry log s0))) eqn:E;
        [| reflexivity].
      assert (H : Some m <> None) by discriminate.
      apply Hm in H. destruct H as [H | (Hno & _)]; [destruct (H eq_refl) |].
      rewrite Hk in Hno. discriminate Hno.
    + destruct (obj_get k (FeedbackStats.byTask (fold_left count_entry log s0))) eqn:E;
        [| reflexivity].
      assert (H : Some t <> None) by discriminate.
      apply Ht in H. destruct H as [H | (Hno & _)]; [destruct (H eq_refl) |].
      rewrite Hk in Hno. discriminate Hno.
  - intro Hk. split; [| split].
    + rewrite Hm. split.
      * intros [H | (_ & H)]; [destruct (H eq_refl) | exact H].
      * intro H. right. split; [exact Hk | exact H].
    + rewrite Ht. split.
      * intros [H | (_ & H)]; [destruct (H eq_refl) | exact H].
      * intro H. right. split; [exact Hk | exact H].
    + repeat split.
      * rewrite (fold_count_model FeedbackStats.mPositive Feedback.positive k Hk);
          [reflexivity | intros r' c; destruct r'; cbn; lia | reflexivity].
      * rewrite (fold_count_model FeedbackStats.mNegative Feedback.negative k Hk);
          [reflexivity | intros r' c; destruct r'; cbn; lia | reflexivity].
      * rewrite (fold_count_model FeedbackStats.mOverrides Feedback.override k Hk);
          [reflexivity | intros r' c; destruct r'; cbn; lia | reflexivity].
      * rewrite (fold_count_task FeedbackStats.tPositive Feedback.positive k Hk);
          [reflexivity | intros r' c; destruct r'; cbn; lia | reflexivity].
      * rewrite (fold_count_task FeedbackStats.tNegative Feedback.negative k Hk);
          [reflexivity | intros r' c; destruct r'; cbn; lia | reflexivity].
Qed.

End FeedbackStatsProps.

(* ================================================================== *)
(** ** The feedback log across the extension *)
(* ================================================================== *)

Section FeedbackFlow.
Context {num : Type} {NUM : JsNumber num} {CM : CaseMapping}.

(** One recording, in full: the entry is appended and the log cut, the
    stored copy is the log, and the entry is posted when an endpoint is
    configured. *)
Lemma call_state : forall (cfg : Config num) W c (m : Machine num),
  feedbackState (after (call cfg W c m)) =
  (slice_last 1000 (feedbackLog m ++ [entry_of W c (clock m)]),
   slice_last 1000 (feedbackLog m ++ [entry_of W c (clock m)]),
   if String.eqb (feedbackEndpoint cfg) "" then posted m
   else posted m ++ [{| Feedback.entry := entry_of W c (clock m);
                        Feedback.postedTeamId := teamId cfg;
                        Feedback.postedDepartmentId := departmentId cfg |}]).
Proof.
  intros cfg W c m.
  destruct c; unfold feedbackState, call, recordFeedback, recordOverride, sendToEndpoint,
    persistFeedback, push_entry, bind, tick, modify, ret;
    destruct (String.eqb (feedbackEndpoint cfg) ""); cbn -[Nat.ltb];
    rewrite trim_is_slice; reflexivity.
Qed.

Lemma call_parts : forall (cfg : Config num) W c (m : Machine num),
  feedbackLog (after (call cfg W c m))
    = slice_last 1000 (feedbackLog m ++ [entry_of W c (clock m)]) /\
  globalState (after (call cfg W c m))
    = slice_last 1000 (feedbackLog m ++ [entry_of W c (clock m)]) /\
  posted (after (call cfg W c m))
    = if String.eqb (feedbackEndpoint cfg) "" then posted m
      else posted m ++ [{| Feedback.entry := entry_of W c (clock m);
                           Feedback.postedTeamId := teamId cfg;
                           Feedback.postedDepartmentId := departmentId cfg |}].
Proof.
  intros cfg W c m. pose proof (call_state cfg W c m) as H. unfold feedbackState in H.
  split; [| split].
  - exact (f_equal (fun p => fst (fst p)) H).
  - exact (f_equal (fun p => snd (fst p)) H).
  - exact (f_equal snd H).
Qed.

Lemma feedbackState_parts : forall m m' : Machine num,
  feedbackState m' = feedbackState m ->
  feedbackLog m' = feedbackLog m /\ globalState m' = globalState m /\ posted m' = posted m.
Proof.
  intros m m' H. unfold feedbackState in H. split; [| split].
  - exact (f_equal (fun p => fst (fst p)) H).
  - exact (f_equal (fun p => snd (fst p)) H).
  - exact (f_equal snd H).
Qed.

Lemma pass1_automatic_feedback : forall (cfg : Config num) W rid forcedId cleanPrompt,
  forcedId = None \/ forcedId = Some "" ->
  kept feedbackState (pass1 cfg W rid forcedId cleanPrompt).
Proof.
  intros cfg W rid forcedId cleanPrompt H. unfold pass1. cbv zeta.
  assert (Hauto : kept feedbackState
            (emit (num := num) Progress ;;
             taskType <- classifyPrompt cfg W cleanPrompt ;;
             match getModelForTask cfg taskType with
             | Some selected => ret (taskType, selected, Routed taskType (name selected))
             | None => throw TypeError
             end)).
  { apply kept_bind; [apply kept_emit; reflexivity | intros _].
    apply kept_bind; [apply classifyPrompt_kept; reflexivity | intro t].
    frame. }
  destruct H as [H | H]; subst forcedId; exact Hauto.
Qed.

Lemma guard_then_pass2_feedbackState :
  forall (cfg : Config num) W rid cleanPrompt t sel reason history,
  kept feedbackState
    (selected <- policyGuard cfg sel ;;
     pass2 cfg W rid cleanPrompt t selected reason history).
Proof.
  intros. apply kept_bind.
  - apply policyGuard_kept. reflexivity.
  - intro selected. apply pass2_kept; reflexivity.
Qed.

(** What a chat request does to the feedback log, its stored copy and the
    posts: nothing, or the one recording of an override - when a model is
    forced that differs from the model of the last request. *)
Lemma handleChatRequest_feedbackState : forall (cfg : Config num) W request history m,
  feedbackState (after (handleChatRequest cfg W request history m)) = feedbackState m \/
  exists last forced cleanPrompt,
    lastRequest m = Some last /\ modelId last <> forced /\
    scanForce (Chat.prompt request) (forceModelId m) = Some (Some forced, cleanPrompt) /\
    feedbackState (after (handleChatRequest cfg W request history m)) =
    feedbackState
      (after (call cfg W
                (Implicit (Vscode.requestIdAt W (clock m)) (modelId last) forced
                   (task_name (fallbackClassify cleanPrompt)))
                (set_forceModelId None (set_clock (S (clock m)) m)))).
Proof.
  intros cfg W request history m.
  destruct (enabled cfg) eqn:Hen.
  2: { left. unfold handleChatRequest. rewrite Hen. reflexivity. }
  destruct (is_command "stats" request) eqn:Hstats.
  { left. unfold handleChatRequest. rewrite Hen. cbn [negb].
    apply (kept_bind feedbackState); [apply generateRequestId_kept; reflexivity |].
    intro rid. rewrite Hstats. apply handleStatsCommand_kept; reflexivity. }
  destruct (is_command "budget" request) eqn:Hbudget.
  { left. unfold handleChatRequest. rewrite Hen. cbn [negb].
    apply (kept_bind feedbackState); [apply generateRequestId_kept; reflexivity |].
    intro rid. rewrite Hstats, Hbudget. apply handleBudgetCommand_kept; reflexivity. }
  destruct (scanForce (Chat.prompt request) (forceModelId m))
    as [[forcedId cleanPrompt] |] eqn:Hscan.
  2: { left. unfold handleChatRequest. rewrite Hen. cbn [negb].
       unfold generateRequestId. unfold bind at 1. unfold bind at 1. unfold tick at 1.
       unfold ret at 1. rewrite Hstats, Hbudget.
       unfold bind at 1. unfold get at 1. unfold bind at 1. unfold modify at 1.
       cbn [forceModelId set_clock]. rewrite Hscan. reflexivity. }
  pose proof (handleChatRequest_phases cfg W request history m _ _ Hen Hstats Hbudget Hscan)
    as Hph.
  set (m0 := set_forceModelId None (set_clock (S (clock m)) m)) in *.
  set (rid := Vscode.requestIdAt W (clock m)) in *.
  assert (Hauto : forcedId = None \/ forcedId = Some "" ->
            feedbackState (after (handleChatRequest cfg W request history m))
            = feedbackState m).
  { intro H. rewrite Hph. change (feedbackState m) with (feedbackState m0).
    apply (kept_bind feedbackState); [apply pass1_automatic_feedback; exact H |].
    intro routed. apply guard_then_pass2_feedbackState. }
  destruct forcedId as [forced |]; [| left; apply Hauto; left; reflexivity].
  destruct (String.eqb forced "") eqn:Hempty.
  { apply String.eqb_eq in Hempty. subst forced. left. apply Hauto. right. reflexivity. }
  destruct (getModel (num := num) forced) as [sel |] eqn:Hcat.
  2: { left. rewrite Hph. unfold bind at 1. unfold pass1. cbv zeta.
       rewrite Hempty, Hcat. reflexivity. }
  apply String.eqb_neq in Hempty.
  assert (Hfinal :
    feedbackState (after (handleChatRequest cfg W request history m)) =
    feedbackState
      match lastRequest m with
      | Some last =>
          if String.eqb (modelId last) forced then m0
          else after (recordOverride cfg W rid (modelId last) forced
                        (task_name (fallbackClassify cleanPrompt)) m0)
      | None => m0
      end).
  { rewrite Hph. erewrite after_bind_ok by (apply pass1_forced; eassumption).
    cbn [fst snd]. rewrite guard_then_pass2_feedbackState. reflexivity. }
  destruct (lastRequest m) as [last |] eqn:Hlast; [| left; exact Hfinal].
  destruct (String.eqb (modelId last) forced) eqn:Hsame; [left; exact Hfinal |].
  apply String.eqb_neq in Hsame.
  right. exists last, forced, cleanPrompt.
  split; [reflexivity |]. split; [exact Hsame |]. split; [reflexivity |]. exact Hfinal.
Qed.

(** What an action does to the feedback log, its stored copy and the
    posts: nothing, or one recording. *)
Lemma perform_feedbackState : forall (a : Action) (m : Machine num),
  feedbackState (perform a m) = feedbackState m \/
  exists cfg W c m0,
    feedbackState m0 = feedbackState m /\
    feedbackState (perform a m) = feedbackState (after (call cfg W c m0)).
Proof.
  intros a m. destruct a as [cfg W request history | cfg choice | choice
                            | cfg W rid model task up | cfg]; cbn [perform].
  - destruct (handleChatRequest_feedbackState cfg W request history (set_stream [] m))
      as [H | (last & forced & cp & _ & _ & _ & H)].
    + left. exact H.
    + right. eexists cfg, W, _, _. split; [| exact H]. reflexivity.
  - left. unfold showModelPicker.
    destruct choice as [i |]; [| reflexivity].
    destruct (nth_error pickerDetails i) as [detail |]; [| reflexivity].
    destruct (String.eqb detail ""); [reflexivity |].
    destruct (String.eqb detail "auto"); reflexivity.
  - left. unfold retryWithModel.
    destruct choice as [i |]; [| reflexivity].
    destruct (nth_error retryDetails i) as [detail |]; [| reflexivity].
    destruct (String.eqb detail ""); reflexivity.
  - right. exists cfg, W, (Explicit rid model task up None None), m.
    split; reflexivity.
  - left. reflexivity.
Qed.

(** X19.  In every reachable state the copy of the feedback log in the
    global state is the log itself, so that a restart of the extension,
    under any configuration, starts with the log as it was. *)
Theorem X19_feedback_log_is_persisted : forall m : Machine num,
  reachable m ->
  globalState m = feedbackLog m /\
  forall cfg', feedbackLog (activate cfg' (globalState m)) = feedbackLog m.
Proof.
  intros m Hreach.
  assert (Hinv : globalState m = feedbackLog m).
  { induction Hreach as [cfg stored | a m Hreach IH]; [reflexivity |].
    destruct (perform_feedbackState a m) as [H | (cfg & W & c & m0 & _ & H)];
      apply feedbackState_parts in H; destruct H as (Hlog & Hst & _).
    - congruence.
    - destruct (call_parts cfg W c m0) as (Hlog' & Hst' & _). congruence. }
  split; [exact Hinv |]. intro cfg'. rewrite Hinv. reflexivity.
Qed.

(** X20.  The delivery of feedback does not touch the log.  A recording
    appends the same entry to the log, and stores the same log, whatever
    the endpoint settings are; without an endpoint nothing is posted, and
    with one the body posted is the entry that was appended, with the
    team and department of the configuration. *)
Theorem X20_feedback_delivery : forall (cfg : Config num) W c (m : Machine num),
  (forall cfg' : Config num,
     feedbackLog (after (call cfg W c m)) = feedbackLog (after (call cfg' W c m)) /\
     globalState (after (call cfg W c m)) = globalState (after (call cfg' W c m))) /\
  globalState (after (call cfg W c m)) = feedbackLog (after (call cfg W c m)) /\
  (feedbackEndpoint cfg = "" -> posted (after (call cfg W c m)) = posted m) /\
  (feedbackEndpoint cfg <> "" ->
   posted (after (call cfg W c m)) =
   posted m ++ [{| Feedback.entry := entry_of W c (clock m);
                   Feedback.postedTeamId := teamId cfg;
                   Feedback.postedDepartmentId := departmentId cfg |}] /\
   ((List.length (feedbackLog m) < 1000)%nat ->
    feedbackLog (after (call cfg W c m)) = feedbackLog m ++ [entry_of W c (clock m)])).
Proof.
  intros cfg W c m.
  destruct (call_parts cfg W c m) as (Hlog & Hstored & Hposted).
  split; [| split; [| split]].
  - intro cfg'. destruct (call_parts cfg' W c m) as (Hlog' & Hstored' & _).
    split; congruence.
  - congruence.
  - intro Hno. rewrite Hposted, Hno. reflexivity.
  - intro Hyes. apply String.eqb_neq in Hyes. rewrite Hposted, Hyes.
    split; [reflexivity |]. intro Hroom. rewrite Hlog.
    apply slice_last_all. rewrite length_app. cbn. lia.
Qed.

Lemma entry_of_well_tagged : forall W (c : FeedbackCall (num := num)) t,
  well_tagged (entry_of W c t).
Proof.
  intros W c t. unfold well_tagged. destruct c as [rid sel task up pl rt | rid a b task];
    cbn [entry_of Feedback.rating Feedback.overriddenTo].
  - destruct up; split; [discriminate | intro H; destruct (H eq_refl)
                        | discriminate | intro H; destruct (H eq_refl)].
  - split; [discriminate | reflexivity].
Qed.

Lemma Forall_slice_last : forall A (P : A -> Prop) n l,
  Forall P l -> Forall P (slice_last n l).
Proof.
  intros A P n l H. unfold slice_last. rewrite Forall_forall in *.
  intros x Hx. apply H. rewrite <- (firstn_skipn (List.length l - n) l).
  apply in_or_app. right. exact Hx.
Qed.

(** X21.  The entries that the extension writes carry [overriddenTo]
    exactly when their rating is [override]: when that holds for the
    stored log the extension starts from, it holds for the log after any
    sequence of actions. *)
Theorem X21_log_entries_well_tagged :
  forall (cfg : Config num) stored (acts : list Action),
  Forall well_tagged stored ->
  Forall well_tagged (feedbackLog (perform_all acts (activate cfg stored))).
Proof.
  intros cfg stored acts Hstored.
  assert (Hstep : forall a (m : Machine num),
            Forall well_tagged (feedbackLog m) ->
            Forall well_tagged (feedbackLog (perform a m))).
  { intros a m Hm.
    destruct (perform_feedbackState a m) as [H | (cfg0 & W & c & m0 & Hm0 & H)];
      apply feedbackState_parts in H; destruct H as (Hlog & _).
    - rewrite Hlog. exact Hm.
    - apply feedbackState_parts in Hm0. destruct Hm0 as (Hlog0 & _).
      destruct (call_parts cfg0 W c m0) as (Hlog' & _).
      rewrite Hlog, Hlog', Hlog0. apply Forall_slice_last. apply Forall_app.
      split; [exact Hm | repeat constructor; apply entry_of_well_tagged]. }
  assert (Hall : forall acts (m : Machine num),
            Forall well_tagged (feedbackLog m) ->
            Forall well_tagged (feedbackLog (perform_all acts m))).
  { clear acts. induction acts as [| a acts IH]; intros m Hm; cbn [perform_all];
      [exact Hm | apply IH; apply Hstep; exact Hm]. }
  apply Hall. exact Hstored.
Qed.

End FeedbackFlow.

(* ================================================================== *)
(** ** The pickers *)
(* ================================================================== *)

Section Pickers.
Context {num : Type} {NUM : JsNumber num}.

Lemma catalog_in_picker : forall sel : ModelDefinition num,
  In sel MODELS -> In (id sel) (tl (pickerDetails (num := num))).
Proof.
  intros sel H. unfold pickerDetails. cbn [tl]. apply in_map.
  assert (Hin : forall t, creditTier sel = t -> In sel (getModelsByTier t)).
  { intros t Ht. unfold getModelsByTier. apply filter_In. split; [exact H |].
    rewrite Ht. apply String.eqb_refl. }
  destruct (creditTier sel) eqn:Ht.
  - apply in_or_app. left. apply Hin. reflexivity.
  - apply in_or_app. right. apply in_or_app. left. apply Hin. reflexivity.
  - apply in_or_app. right. apply in_or_app. right. apply in_or_app. left.
    apply Hin. reflexivity.
  - apply in_or_app. right. apply in_or_app. right. apply in_or_app. right.
    apply Hin. reflexivity.
Qed.

Lemma catalog_id_detail : forall sel : ModelDefinition num,
  In sel MODELS -> String.eqb (id sel) "" = false /\ String.eqb (id sel) "auto" = false.
Proof.
  intros sel H. pose proof (getModel_of_catalog sel H) as Hcat.
  split; apply String.eqb_neq; intro E; rewrite E in Hcat; discriminate Hcat.
Qed.

(** X22.  The two pickers offer the catalog.  Every model of the catalog
    can be chosen in the picker of the status bar and in the picker of
    the retry button, and choosing it makes its id the forced id of the
    next request; the first item of the status bar picker switches back
    to automatic routing; a picker that is dismissed changes nothing; and
    a picker never leaves a forced id that is not an id of the catalog,
    unless it was there before. *)
Theorem X22_pickers_offer_the_catalog :
  (forall sel : ModelDefinition num, In sel MODELS ->
     exists i j, forall (cfg : Config num) (m : Machine num),
       forceModelId (after (showModelPicker cfg (Some i) m)) = Some (id sel) /\
       forceModelId (after (retryWithModel (Some j) m)) = Some (id sel)) /\
  (forall (cfg : Config num) (m : Machine num),
     forceModelId (after (showModelPicker cfg (Some 0%nat) m)) = None /\
     showModelPicker cfg None m = Ok tt m /\
     retryWithModel None m = Ok tt m) /\
  (forall (cfg : Config num) choice (m : Machine num) forced,
     forceModelId (after (showModelPicker cfg choice m)) = Some forced \/
     forceModelId (after (retryWithModel choice m)) = Some forced ->
     forceModelId m = Some forced \/
     exists sel : ModelDefinition num, getModel forced = Some sel).
Proof.
  split; [| split].
  - intros sel H.
    destruct (In_nth_error _ _ (catalog_in_picker sel H)) as (i & Hi).
    assert (Hretry : In (id sel) (retryDetails (num := num))) by (apply in_map; exact H).
    destruct (In_nth_error _ _ Hretry) as (j & Hj).
    destruct (catalog_id_detail sel H) as [Hne Hauto].
    exists (S i), j. intros cfg m. split.
    + unfold showModelPicker.
      change (nth_error pickerDetails (S i)) with (nth_error (tl (pickerDetails (num := num))) i).
      rewrite Hi, Hne, Hauto. reflexivity.
    + unfold retryWithModel. rewrite Hj, Hne. reflexivity.
  - intros cfg m. repeat split.
  - intros cfg choice m forced [H | H].
    + unfold showModelPicker in H.
      destruct choice as [i |]; [| left; exact H].
      destruct (nth_error pickerDetails i) as [detail |] eqn:Hnth; [| left; exact H].
      apply nth_error_In in Hnth.
      destruct (String.eqb detail ""); [left; exact H |].
      destruct (String.eqb detail "auto") eqn:Hauto; cbn in H; [discriminate H |].
      inversion H; subst forced. right.
      destruct (proj1 details_in_catalog detail Hnth) as [Ha | Hcat]; [| exact Hcat].
      subst detail. discriminate Hauto.
    + unfold retryWithModel in H.
      destruct choice as [i |]; [| left; exact H].
      destruct (nth_error retryDetails i) as [detail |] eqn:Hnth; [| left; exact H].
      apply nth_error_In in Hnth.
      destruct (String.eqb detail ""); [left; exact H |].
      cbn in H. inversion H; subst forced. right.
      apply (proj2 details_in_catalog detail Hnth).
Qed.

End Pickers.

(* ================================================================== *)
(** ** The keyword classifiers *)
(* ================================================================== *)

Section KeywordClassifiers.
Context {num : Type} {NUM : JsNumber num} {CM : CaseMapping} {UM : UpperCaseMapping}.

Lemma detect_in_types : forall (P : TaskType -> Prop) ps prompt,
  P function -> Forall (fun p => P (Patterns.type p)) ps ->
  P (Patterns.detect_in ps prompt).
Proof.
  intros P ps prompt Hdefault H. induction H as [| p ps Hp _ IH]; cbn [Patterns.detect_in].
  - exact Hdefault.
  - destruct (Patterns.pattern_hits p prompt); [exact Hp | exact IH].
Qed.

Lemma fallbackClassify_not_long_context : forall prompt,
  fallbackClassify prompt <> long_context.
Proof.
  intro prompt. unfold fallbackClassify. cbv zeta.
  repeat match goal with
         | |- context [regex_test ?r ?p] => destruct (regex_test r p); [discriminate |]
         end.
  discriminate.
Qed.

(** X23.  Neither keyword classifier ever answers [long-context]:
    [fallbackClassify] and [detectTaskType] only know the twelve other
    task types.  A completed request with a forced model, whose task type
    comes from [fallbackClassify], is therefore never accounted as
    long-context; only the answer of the classifier model can be. *)
Theorem X23_keyword_classifiers_never_long_context : forall prompt : text,
  fallbackClassify prompt <> long_context /\
  Patterns.detectTaskType prompt <> long_context /\
  (forall (cfg : Config num) W request history m forced nm t credit rid m',
     scanForce (Chat.prompt request) (forceModelId m) = Some (Some forced, prompt) ->
     forced <> "" ->
     handleChatRequest cfg W request history m = Ok (ResultDone nm t credit rid) m' ->
     t <> long_context /\
     obj_get "long-context" (taskTypes (sessionStats m'))
       = obj_get "long-context" (taskTypes (sessionStats m))).
Proof.
  intro prompt. split; [apply fallbackClassify_not_long_context | split].
  - unfold Patterns.detectTaskType.
    apply (detect_in_types (fun t => t <> long_context)); [discriminate |].
    unfold Patterns.TASK_PATTERNS.
    repeat (constructor; [cbn [Patterns.type]; discriminate |]). constructor.
  - intros cfg W request history m forced nm t credit rid m' Hscan Hne H.
    destruct (handleChatRequest_outcome cfg W request history m)
      as [(_ & _ & Hnot)
         | (sel & t0 & forcedId & cp & out & _ & _ & _ & Hscan' & Hrun & Hnew & _ & _ & _
            & Hforced)].
    + destruct (Hnot _ _ _ _ _ H).
    + rewrite Hscan in Hscan'. inversion Hscan'; subst forcedId cp. clear Hscan'.
      destruct (Hforced forced eq_refl Hne) as (Ht & _).
      rewrite H in Hrun, Hnew. cbn [after] in Hrun, Hnew. inversion Hrun; subst.
      split; [apply fallbackClassify_not_long_context |].
      rewrite Hnew. unfold recordCompletion. cbn [taskTypes].
      apply obj_get_set_other.
      pose proof (fallbackClassify_not_long_context prompt) as Hnl.
      destruct (fallbackClassify prompt); cbn [task_name]; try discriminate.
      destruct (Hnl eq_refl).
Qed.

End KeywordClassifiers.

(* ================================================================== *)
(** ** The response of a completed request *)
(* ================================================================== *)

Section ResponseStream.
Context {num : Type} {NUM : JsNumber num} {CM : CaseMapping}.

Lemma recordOverride_stream : forall (cfg : Config num) W rid a b t,
  kept stream (recordOverride cfg W rid a b t).
Proof.
  intros. unfold recordOverride, push_entry, persistFeedback, sendToEndpoint. frame.
Qed.

(** Pass 1 writes nothing to the response, or the progress note. *)
Lemma pass1_stream : forall (cfg : Config num) W rid forcedId cleanPrompt m,
  stream (after (pass1 cfg W rid forcedId cleanPrompt m)) = stream m \/
  stream (after (pass1 cfg W rid forcedId cleanPrompt m)) = stream m ++ [Progress].
Proof.
  intros cfg W rid forcedId cleanPrompt m. unfold pass1. cbv zeta.
  assert (Hauto :
            stream (after ((emit (num := num) Progress ;;
               taskType <- classifyPrompt cfg W cleanPrompt ;;
               match getModelForTask cfg taskType with
               | Some selected => ret (taskType, selected, Routed taskType (name selected))
               | None => throw TypeError
               end) m)) = stream m ++ [Progress]).
  { unfold bind at 1. unfold emit, modify.
    change (stream m ++ [Progress])
      with (stream (set_stream (stream m ++ [Progress]) m)).
    apply (kept_bind stream); [apply classifyPrompt_kept; reflexivity | intro t].
    frame. }
  destruct forcedId as [forced |]; [| right; exact Hauto].
  destruct (String.eqb forced ""); [right; exact Hauto |].
  left. destruct (getModel forced) as [x |]; [| reflexivity].
  apply (kept_bind stream); [frame | intro m0].
  apply kept_bind; [| intros; frame].
  destruct (lastRequest m0) as [last |]; [| frame].
  destruct (negb (String.eqb (modelId last) forced)); [| frame].
  apply recordOverride_stream.
Qed.

Lemma policyGuard_stream : forall (cfg : Config num) sel m,
  stream (after (policyGuard cfg sel m)) = stream m \/
  stream (after (policyGuard cfg sel m)) = stream m ++ [MdRestricted (name sel)].
Proof.
  intros cfg sel m. unfold policyGuard.
  destruct (isModelAllowed cfg sel); cbn [negb]; [left; reflexivity | right].
  unfold bind, emit, modify. destruct (getModel "gpt-4o"); reflexivity.
Qed.

(** What pass 2 writes when the request completes, in this order: the
    routing note (when shown), the chunks of the answer, the rule and the
    two feedback buttons (when feedback is collected), the retry button,
    and the budget warning with its button (at 90% and above). *)
Lemma pass2_stream : forall (cfg : Config num) W rid cleanPrompt t sel reason history m
                            nm t' credit rid' m',
  pass2 cfg W rid cleanPrompt t sel reason history m = Ok (ResultDone nm t' credit rid') m' ->
  exists backend chunks,
    stream m' =
    stream m
    ++ (if showModelInfo cfg
        then [MdRoutingInfo backend (creditMultiplier sel) reason] else [])
    ++ map MdChunk chunks
    ++ (if collectFeedback cfg
        then [MdRule; ButtonFeedback true rid (id sel) t; ButtonFeedback false rid (id sel) t]
        else [])
    ++ ButtonRetry cleanPrompt
       :: (if nle (nint 90)
                (nmul (ndiv (totalCreditsUsed (sessionStats m')) (monthlyBudget cfg))
                      (nint 100))
           then [MdBudgetAt (nmul (ndiv (totalCreditsUsed (sessionStats m'))
                                        (monthlyBudget cfg)) (nint 100));
                 ButtonRequestCredits]
           else []).
Proof.
  intros cfg W rid cleanPrompt t sel reason history m nm t' credit rid' m' H.
  unfold pass2 in H. unfold bind at 1 in H.
  destruct (selectCopilotModel_run W sel m) as (backend & k & E). rewrite E in H.
  destruct backend as [model |].
  2: { unfold bind, emit, modify, ret in H. discriminate H. }
  cbv zeta in H.
  unfold bind, emit, modify, updateStatusBar, tick, ret, get in H.
  exists (Vscode.name model).
  destruct (showModelInfo cfg); cbn -[recordCompletion statusBarPercent nle] in H;
    rewrite emit_all_run in H;
    match type of H with
    | context [Vscode.sendRequest ?w ?c ?b ?ms] =>
        exists (Vscode.chunks (Vscode.sendRequest w c b ms));
        destruct (Vscode.ending (Vscode.sendRequest w c b ms))
    end;
    cbn -[recordCompletion statusBarPercent nle] in H; try discriminate H.
  all: destruct (collectFeedback cfg); cbn -[recordCompletion statusBarPercent nle] in H;
    match type of H with
    | context [if nle ?a ?b then _ else _] => destruct (nle a b) eqn:Hn
    end; cbn -[recordCompletion statusBarPercent nle] in H;
    inversion H; subst; cbn -[recordCompletion statusBarPercent nle nmul ndiv];
    rewrite Hn, <- ?app_assoc; reflexivity.
Qed.

(** The response of a completed request: the progress note and the
    restriction notice, if any, and then what pass 2 writes for the model
    that the last request names. *)
Lemma handleChatRequest_response :
  forall (cfg : Config num) W request history m nm t credit rid m',
  handleChatRequest cfg W request history m = Ok (ResultDone nm t credit rid) m' ->
  exists sel cleanPrompt pre backend reason chunks,
    lastRequest m' = Some {| prompt := cleanPrompt; requestId := rid;
                             modelId := id sel; taskType := t |} /\
    getModel (id sel) = Some sel /\ name sel = nm /\ creditMultiplier sel = credit /\
    totalCreditsUsed (sessionStats m') = nadd (totalCreditsUsed (sessionStats m)) credit /\
    (forall e, In e pre -> e = Progress \/ exists n, e = MdRestricted n) /\
    stream m' =
    stream m ++ pre
    ++ (if showModelInfo cfg
        then [MdRoutingInfo backend (creditMultiplier sel) reason] else [])
    ++ map MdChunk chunks
    ++ (if collectFeedback cfg
        then [MdRule; ButtonFeedback true rid (id sel) t; ButtonFeedback false rid (id sel) t]
        else [])
    ++ ButtonRetry cleanPrompt
       :: (if nle (nint 90)
                (nmul (ndiv (totalCreditsUsed (sessionStats m')) (monthlyBudget cfg))
                      (nint 100))
           then [MdBudgetAt (nmul (ndiv (totalCreditsUsed (sessionStats m'))
                                        (monthlyBudget cfg)) (nint 100));
                 ButtonRequestCredits]
           else []).
Proof.
  intros cfg W request history m nm t credit rid m' H.
  destruct (handleChatRequest_outcome cfg W request history m)
    as [(_ & _ & Hnot)
       | (sel & t0 & forcedId & cp & out & Hen & Hstats & Hbudget & Hscan & Hrun & Hnew & Hlast
          & Hcat & _)].
  { destruct (Hnot _ _ _ _ _ H). }
  rewrite H in Hrun, Hnew, Hlast. cbn [after] in Hrun, Hnew, Hlast.
  inversion Hrun; subst nm t0 credit rid. clear Hrun.
  pose proof H as Hph.
  rewrite (handleChatRequest_phases cfg W request history m _ _ Hen Hstats Hbudget Hscan)
    in Hph.
  set (m0 := set_forceModelId None (set_clock (S (clock m)) m)) in *.
  set (rid := Vscode.requestIdAt W (clock m)) in *.
  unfold bind at 1 in Hph.
  pose proof (pass1_stream cfg W rid forcedId cp m0) as Hs1.
  destruct (pass1 cfg W rid forcedId cp m0) as [[[t1 sel1] reason] m1 | e m1];
    [| discriminate Hph].
  cbn [after fst snd] in Hs1, Hph.
  unfold bind at 1 in Hph.
  pose proof (policyGuard_stream cfg sel1 m1) as Hs2.
  destruct (policyGuard cfg sel1 m1) as [selected m2 | e m2]; [| discriminate Hph].
  cbn [after] in Hs2.
  destruct (pass2_cases cfg W rid cp t1 selected reason history m2)
    as [_ [(_ & _ & Hnot) | (out2 & Hrun2 & _ & Hlast2)]].
  { destruct (Hnot _ _ _ _ _ Hph). }
  rewrite Hph in Hlast2. cbn [after] in Hlast2. rewrite Hlast in Hlast2.
  inversion Hlast2 as [[Hid]]. subst t1.
  destruct (pass2_stream cfg W rid cp t selected reason history m2 _ _ _ _ _ Hph)
    as (backend & chunks & Hs3).
  rewrite <- Hid in Hs3.
  assert (Hmult : creditMultiplier selected = creditMultiplier sel).
  { destruct (pass2_cases cfg W rid cp t selected reason history m2)
      as [_ [(_ & _ & Hnot) | (out3 & Hrun3 & _)]]; [destruct (Hnot _ _ _ _ _ Hph) |].
    rewrite Hph in Hrun3. inversion Hrun3. reflexivity. }
  rewrite Hmult in Hs3.
  assert (Hprefix : exists pre,
            stream m2 = stream m ++ pre /\
            forall e, In e pre -> e = Progress \/ exists n, e = MdRestricted n).
  { change (stream m) with (stream m0).
    destruct Hs1 as [E1 | E1]; destruct Hs2 as [E2 | E2]; rewrite E2, E1.
    - exists []. split; [rewrite app_nil_r; reflexivity | intros e []].
    - exists [MdRestricted (name sel1)]. split; [reflexivity |].
      intros e [Hx | []]. right. eexists. symmetry. exact Hx.
    - exists [Progress]. split; [reflexivity |].
      intros e [Hx | []]. left. symmetry. exact Hx.
    - exists [Progress; MdRestricted (name sel1)].
      split; [rewrite <- app_assoc; reflexivity |].
      intros e [Hx | [Hx | []]]; [left | right; eexists]; symmetry; exact Hx. }
  destruct Hprefix as (pre & Hpre & Honly).
  exists sel, cp, pre, backend, reason, chunks.
  split; [exact Hlast |]. split; [exact Hcat |]. split; [reflexivity |].
  split; [reflexivity |].
  split; [rewrite Hnew; reflexivity |].
  split; [exact Honly |].
  rewrite Hs3, Hpre, <- app_assoc. reflexivity.
Qed.

(** X24.  The response of a completed request carries the retry button
    with the cleaned prompt, and, exactly when feedback is collected, the
    two feedback buttons.  Every feedback button in it carries the
    request id, the model id and the task type of the last request - the
    model that was executed, after the policy check, not the one that was
    asked for - so that a thumb is recorded against the request it was
    given to. *)
Theorem X24_feedback_buttons_match_last_request :
  forall (cfg : Config num) W request history m nm t credit rid m',
  handleChatRequest cfg W request history m = Ok (ResultDone nm t credit rid) m' ->
  exists last written,
    lastRequest m' = Some last /\
    requestId last = rid /\ taskType last = t /\
    (exists sel, getModel (modelId last) = Some sel /\ name sel = nm) /\
    stream m' = stream m ++ written /\
    In (ButtonRetry (prompt last)) written /\
    (collectFeedback cfg = true ->
     In (ButtonFeedback true rid (modelId last) t) written /\
     In (ButtonFeedback false rid (modelId last) t) written) /\
    (forall up rid' model t',
       In (ButtonFeedback up rid' model t') written ->
       collectFeedback cfg = true /\ rid' = rid /\ model = modelId last /\ t' = t).
Proof.
  intros cfg W request history m nm t credit rid m' H.
  destruct (handleChatRequest_response cfg W request history m nm t credit rid m' H)
    as (sel & cp & pre & backend & reason & chunks & Hlast & Hcat & Hnm & _ & _ & Honly & Hs).
  exists {| prompt := cp; requestId := rid; modelId := id sel; taskType := t |}.
  eexists.
  split; [exact Hlast |]. split; [reflexivity |]. split; [reflexivity |].
  split; [exists sel; split; [exact Hcat | exact Hnm] |].
  split; [exact Hs |].
  cbn [prompt modelId].
  split; [| split].
  - apply in_or_app. right. apply in_or_app. right. apply in_or_app. right.
    apply in_or_app. right. left. reflexivity.
  - intro Hcollect. rewrite Hcollect.
    split; apply in_or_app; right; apply in_or_app; right; apply in_or_app; right;
      apply in_or_app; left; cbn; auto.
  - intros up rid' model t' Hin.
    apply in_app_or in Hin. destruct Hin as [Hin | Hin].
    { destruct (Honly _ Hin) as [Hx | (n & Hx)]; discriminate Hx. }
    apply in_app_or in Hin. destruct Hin as [Hin | Hin].
    { destruct (showModelInfo cfg); [destruct Hin as [Hx | []]; discriminate Hx | destruct Hin]. }
    apply in_app_or in Hin. destruct Hin as [Hin | Hin].
    { apply in_map_iff in Hin. destruct Hin as (x & Hx & _). discriminate Hx. }
    apply in_app_or in Hin. destruct Hin as [Hin | Hin].
    { destruct (collectFeedback cfg); [| destruct Hin].
      destruct Hin as [Hx | [Hx | [Hx | []]]]; [discriminate Hx | |];
        inversion Hx; subst; repeat split. }
    destruct Hin as [Hx | Hin]; [discriminate Hx |].
    destruct (nle (nint 90) _); [| destruct Hin].
    destruct Hin as [Hx | [Hx | []]]; discriminate Hx.
Qed.

(** X25.  The budget warning of a completed request counts the request
    itself: it is written, with the button to request credits, exactly
    when [totalCreditsUsed / monthlyBudget * 100], taken after the credit
    of this request was added, is at least 90. *)
Theorem X25_budget_warning_counts_this_request :
  forall (cfg : Config num) W request history m nm t credit rid m',
  handleChatRequest cfg W request history m = Ok (ResultDone nm t credit rid) m' ->
  exists written,
    stream m' = stream m ++ written /\
    totalCreditsUsed (sessionStats m') = nadd (totalCreditsUsed (sessionStats m)) credit /\
    (nle (nint 90)
       (nmul (ndiv (totalCreditsUsed (sessionStats m')) (monthlyBudget cfg)) (nint 100)) = true ->
     In (MdBudgetAt
           (nmul (ndiv (totalCreditsUsed (sessionStats m')) (monthlyBudget cfg)) (nint 100)))
        written /\
     In ButtonRequestCredits written) /\
    (nle (nint 90)
       (nmul (ndiv (totalCreditsUsed (sessionStats m')) (monthlyBudget cfg)) (nint 100)) = false ->
     ~ In ButtonRequestCredits written /\ forall p, ~ In (MdBudgetAt p) written).
Proof.
  intros cfg W request history m nm t credit rid m' H.
  destruct (handleChatRequest_response cfg W request history m nm t credit rid m' H)
    as (sel & cp & pre & backend & reason & chunks & _ & _ & _ & _ & Htotal & Honly & Hs).
  eexists. split; [exact Hs |]. split; [exact Htotal |].
  split.
  - intro Hn. rewrite Hn.
    split; apply in_or_app; right; apply in_or_app; right; apply in_or_app; right;
      apply in_or_app; right; cbn; auto.
  - intro Hn. rewrite Hn.
    assert (Hnone : forall e,
              (e = ButtonRequestCredits \/ exists p, e = MdBudgetAt p) ->
              ~ In e (pre
                      ++ (if showModelInfo cfg
                          then [MdRoutingInfo backend (creditMultiplier sel) reason] else [])
                      ++ map MdChunk chunks
                      ++ (if collectFeedback cfg
                          then [MdRule; ButtonFeedback true rid (id sel) t;
                                ButtonFeedback false rid (id sel) t]
                          else [])
                      ++ [ButtonRetry cp])).
    { intros e He Hin.
      apply in_app_or in Hin. destruct Hin as [Hin | Hin].
      { destruct (Honly _ Hin) as [Hx | (n & Hx)]; destruct He as [He | (p & He)];
          rewrite He in Hx; discriminate Hx. }
      apply in_app_or in Hin. destruct Hin as [Hin | Hin].
      { destruct (showModelInfo cfg); [| destruct Hin].
        destruct Hin as [Hx | []]; destruct He as [He | (p & He)];
          rewrite He in Hx; discriminate Hx. }
      apply in_app_or in Hin. destruct Hin as [Hin | Hin].
      { apply in_map_iff in Hin. destruct Hin as (x & Hx & _).
        destruct He as [He | (p & He)]; rewrite He in Hx; discriminate Hx. }
      apply in_app_or in Hin. destruct Hin as [Hin | Hin].
      { destruct (collectFeedback cfg); [| destruct Hin].
        destruct Hin as [Hx | [Hx | [Hx | []]]]; destruct He as [He | (p & He)];
          rewrite He in Hx; discriminate Hx. }
      destruct Hin as [Hx | []]. destruct He as [He | (p & He)];
        rewrite He in Hx; discriminate Hx. }
    split.
    + apply Hnone. left. reflexivity.
    + intro p. apply Hnone. right. exists p. reflexivity.
Qed.

End ResponseStream.

(* ================================================================== *)
(** ** The messages built from the history *)
(* ================================================================== *)

Section History.


End History.

(* ================================================================== *)
(** ** The further properties at concrete inputs *)
(* ================================================================== *)

(** X2 from the restricted configuration to the default one, at Claude
    Sonnet 4. *)
Lemma X2_witness : isModelAllowed double_config (catalog_entry "claude-sonnet-4") = true.
Proof.
  apply (X2_isModelAllowed_monotone restricted_config double_config
           (catalog_entry "claude-sonnet-4") standard premium).
  - intros x H. destruct H.
  - vm_compute. reflexivity.
  - vm_compute. reflexivity.
  - cbn. lia.
  - vm_compute. reflexivity.
Defined.

(** X5 at the routing row of [test], which names GPT-5. *)
Lemma X5_witness : getModelForTask routing_config test = Some (catalog_entry "gpt-5").
Proof.
  apply (X5_panel_row_is_routed routing_config test (catalog_entry "gpt-5"));
    vm_compute; reflexivity.
Defined.

(** X6 at a request that forces Claude Haiku 4.5. *)
Lemma X6_witness :
  exists (sel : ModelDefinition float) cleanPrompt out,
    getModel (id sel) = Some sel /\
    (isModelAllowed double_config sel = true \/ id sel = "gpt-4o") /\
    "Claude Haiku 4.5" = name sel /\ nlit 33 100 = creditMultiplier sel /\
    "1700000000000-abc123" = Vscode.requestIdAt (world_answering (txt "ok")) (clock double_start) /\
    sessionStats after_haiku_request
      = recordCompletion (sessionStats double_start) sel function cleanPrompt out /\
    lastRequest after_haiku_request
      = Some {| prompt := cleanPrompt; requestId := "1700000000000-abc123";
                modelId := id sel; taskType := function |}.
Proof.
  apply (X6_completed_request_within_policy (CM := ascii_case) double_config
           (world_answering (txt "ok")) (plain_request "@haiku hi") [] double_start
           "Claude Haiku 4.5" function (nlit 33 100) "1700000000000-abc123"
           after_haiku_request).
  vm_compute. reflexivity.
Defined.

(** X7 at the stats command after four requests. *)
Lemma X7_witness :
  sessionStats (after (handleChatRequest (CM := ascii_case) double_config
                         (world_answering (txt "ok")) (command_request "stats") []
                         double_after_four))
    = sessionStats double_after_four /\
  lastRequest (after (handleChatRequest (CM := ascii_case) double_config
                        (world_answering (txt "ok")) (command_request "stats") []
                        double_after_four))
    = lastRequest double_after_four.
Proof.
  apply (X7_nothing_accounted_unless_completed (CM := ascii_case) double_config
           (world_answering (txt "ok")) (command_request "stats") [] double_after_four).
  intros nm t credit rid m' H. vm_compute in H. discriminate H.
Defined.

(** X9 at the alias [@constructor]. *)
Lemma X9_witness :
  handleChatRequest (CM := ascii_case) double_config (world_answering (txt "ok"))
    (plain_request "@constructor hello") [] double_start
  = Throw TypeError (set_forceModelId None (set_clock (S (clock double_start)) double_start)).
Proof.
  apply (X9_inherited_alias_throws (CM := ascii_case) double_config
           (world_answering (txt "ok")) (plain_request "@constructor hello") [] double_start
           (txt "constructor") "constructor").
  - reflexivity.
  - reflexivity.
  - reflexivity.
  - vm_compute. reflexivity.
  - vm_compute. reflexivity.
  - left. reflexivity.
Defined.

(** X10 at a request that forces Claude Opus 4.5, which the default
    configuration allows. *)
Lemma X10_witness :
  "Claude Opus 4.5" = name (catalog_entry "claude-opus-4.5") /\
  nint 3 = creditMultiplier (catalog_entry "claude-opus-4.5") /\
  architecture = fallbackClassify (CM := ascii_case) (txt "design it") /\
  option_map modelId (lastRequest after_opus_request) = Some "claude-opus-4.5" /\
  exists out,
    sessionStats after_opus_request
      = recordCompletion (sessionStats double_start) (catalog_entry "claude-opus-4.5")
          architecture (txt "design it") out.
Proof.
  apply (X10_allowed_forced_model_is_used (CM := ascii_case) double_config
           (world_answering (txt "ok")) (plain_request "@opus design it") [] double_start
           "claude-opus-4.5" (txt "design it") (catalog_entry "claude-opus-4.5")
           "Claude Opus 4.5" architecture (nint 3) "1700000000000-abc123"
           after_opus_request);
    vm_compute; reflexivity.
Defined.

(** X12 after four completed requests. *)
Lemma X12_witness :
  NoDup (keys (creditsByModel (sessionStats double_after_four))) /\
  (forall k, In k (keys (creditsByModel (sessionStats double_after_four))) ->
     exists sel : ModelDefinition float, getModel k = Some sel) /\
  NoDup (keys (taskTypes (sessionStats double_after_four))) /\
  (forall k, In k (keys (taskTypes (sessionStats double_after_four))) ->
     exists t, k = task_name t) /\
  (List.length (creditsByModel (sessionStats double_after_four)) <= 18)%nat /\
  (List.length (taskTypes (sessionStats double_after_four)) <= 13)%nat.
Proof.
  apply (X12_statistics_keys (CM := ascii_case) double_after_four).
  apply reachable_perform_all. apply reach_activate.
Defined.


(** X15 after one request at 3x under a budget of 0. *)
Lemma X15_witness :
  handleBudgetCommand zero_budget double_at_zero_budget
    = Throw RangeError double_at_zero_budget /\
  statsPercent zero_budget (sessionStats double_at_zero_budget) = Literal0 /\
  (forall mo,
     sbPercent (statusBarItem (after (updateStatusBar zero_budget mo double_at_zero_budget)))
       = nzero).
Proof.
  apply (X15_budget_command_zero_budget zero_budget double_at_zero_budget);
    vm_compute; reflexivity.
Defined.

(** X19 after four completed requests, two of which recorded an
    override. *)
Lemma X19_witness :
  globalState double_after_four = feedbackLog double_after_four /\
  forall cfg',
    feedbackLog (activate cfg' (globalState double_after_four))
      = feedbackLog double_after_four.
Proof.
  apply (X19_feedback_log_is_persisted (CM := ascii_case) double_after_four).
  apply reachable_perform_all. apply reach_activate.
Defined.

(** X21 from a stored log of one override, after two requests. *)
Lemma X21_witness :
  Forall well_tagged
    (feedbackLog (perform_all (CM := ascii_case)
                    (chats double_config ["@haiku hi"; "@sonnet hi"])
                    (activate double_config stored_override))).
Proof.
  apply (X21_log_entries_well_tagged (CM := ascii_case) double_config stored_override
           (chats double_config ["@haiku hi"; "@sonnet hi"])).
  constructor; [| constructor].
  split; [intros _; discriminate | intros _; reflexivity].
Defined.

(** X24 at a request that forces Claude Haiku 4.5. *)
Lemma X24_witness :
  exists (last : LastRequest) (written : list (Emit float)),
    lastRequest after_haiku_request = Some last /\
    requestId last = "1700000000000-abc123" /\ taskType last = function /\
    (exists sel : ModelDefinition float,
       getModel (modelId last) = Some sel /\ name sel = "Claude Haiku 4.5") /\
    stream after_haiku_request = stream double_start ++ written /\
    In (ButtonRetry (prompt last)) written /\
    (collectFeedback double_config = true ->
     In (ButtonFeedback true "1700000000000-abc123" (modelId last) function) written /\
     In (ButtonFeedback false "1700000000000-abc123" (modelId last) function) written) /\
    (forall up rid' model t',
       In (ButtonFeedback up rid' model t') written ->
       collectFeedback double_config = true /\ rid' = "1700000000000-abc123" /\
       model = modelId last /\ t' = function).
Proof.
  apply (X24_feedback_buttons_match_last_request (CM := ascii_case) double_config
           (world_answering (txt "ok")) (plain_request "@haiku hi") [] double_start
           "Claude Haiku 4.5" function (nlit 33 100) "1700000000000-abc123"
           after_haiku_request).
  vm_compute. reflexivity.
Defined.

(** X25 at a request that forces Claude Haiku 4.5. *)
Lemma X25_witness :
  exists written : list (Emit float),
    stream after_haiku_request = stream double_start ++ written /\
    totalCreditsUsed (sessionStats after_haiku_request)
      = nadd (totalCreditsUsed (sessionStats double_start)) (nlit 33 100) /\
    (nle (nint 90)
       (nmul (ndiv (totalCreditsUsed (sessionStats after_haiku_request))
                   (monthlyBudget double_config)) (nint 100)) = true ->
     In (MdBudgetAt
           (nmul (ndiv (totalCreditsUsed (sessionStats after_haiku_request))
                       (monthlyBudget double_config)) (nint 100)))
        written /\
     In ButtonRequestCredits written) /\
    (nle (nint 90)
       (nmul (ndiv (totalCreditsUsed (sessionStats after_haiku_request))
                   (monthlyBudget double_config)) (nint 100)) = false ->
     ~ In ButtonRequestCredits written /\ forall p, ~ In (MdBudgetAt p) written).
Proof.
  apply (X25_budget_warning_counts_this_request (CM := ascii_case) double_config
           (world_answering (txt "ok")) (plain_request "@haiku hi") [] double_start
           "Claude Haiku 4.5" function (nlit 33 100) "1700000000000-abc123"
           after_haiku_request).
  vm_compute. reflexivity.
Defined.

(* ================================================================== *)
(** ** Clearing the feedback log *)
(* ================================================================== *)

Section ClearedLog.
Context {num : Type} {NUM : JsNumber num}.

(** X27.  [clearFeedback] empties the log and its stored copy, and the
    recordings start afresh from there: after at most 1000 recordings
    that follow it, the log holds exactly their entries, in the order of
    the calls, and so does the stored copy. *)
Theorem X27_recordings_after_clearFeedback :
  forall (cfg : Config num) W (cs : list FeedbackCall) (m : Machine num),
  (List.length cs <= 1000)%nat ->
  feedbackLog (call_all cfg W cs (after (clearFeedback m))) = appended cfg W cs (clock m) /\
  globalState (call_all cfg W cs (after (clearFeedback m))) = appended cfg W cs (clock m) /\
  FeedbackStats.total (getFeedbackStats (feedbackLog (call_all cfg W cs (after (clearFeedback m)))))
    = List.length cs.
Proof.
  intros cfg W cs m Hlen.
  assert (Hlog : feedbackLog (call_all cfg W cs (after (clearFeedback m)))
                 = appended cfg W cs (clock m)).
  { pose proof (call_all_log cfg W cs (after (clearFeedback m))) as H.
    cbn [clearFeedback after modify feedbackLog clock set_feedback app] in H.
    rewrite (slice_last_all _ 1000 (appended cfg W cs (clock m))) in H
      by (rewrite appended_length; exact Hlen).
    rewrite <- H. symmetry. apply slice_last_all.
    destruct cs as [| c cs']; [cbn; lia |].
    apply call_all_trimmed. discriminate. }
  split; [exact Hlog |]. split.
  - rewrite <- Hlog. clear Hlog Hlen.
    assert (Hgen : forall cs (m0 : Machine num),
              globalState m0 = feedbackLog m0 ->
              globalState (call_all cfg W cs m0) = feedbackLog (call_all cfg W cs m0)).
    { clear cs. induction cs as [| c cs IH]; intros m0 H0; cbn [call_all]; [exact H0 |].
      apply IH. destruct (call_run cfg W c m0) as [Hl _].
      destruct c; unfold call, recordFeedback, recordOverride, sendToEndpoint,
        persistFeedback, push_entry, bind, tick, modify, ret;
        destruct (String.eqb (feedbackEndpoint cfg) ""); reflexivity. }
    apply Hgen. reflexivity.
  - rewrite Hlog. unfold getFeedbackStats.
    set (s0 := {| FeedbackStats.total := List.length (appended cfg W cs (clock m));
                  FeedbackStats.positive := 0; FeedbackStats.negative := 0;
                  FeedbackStats.overrides := 0;
                  FeedbackStats.byModel := []; FeedbackStats.byTask := [] |}).
    assert (Htotal : forall (log : list (Feedback.FeedbackEntry num)) s,
              FeedbackStats.total (fold_left count_entry log s) = FeedbackStats.total s).
    { induction log as [| e log IH]; intro s; cbn [fold_left]; [reflexivity |].
      rewrite IH. reflexivity. }
    rewrite Htotal. cbn [s0 FeedbackStats.total]. apply appended_length.
Qed.

End ClearedLog.

(** X27 at two thumbs after the log of four requests was cleared. *)
Lemma X27_witness :
  feedbackLog
    (call_all double_config (world_answering [])
       [Explicit "a" "gpt-4o" "function" true None None;
        Explicit "b" "gpt-5" "debug" false None None]
       (after (clearFeedback double_after_four)))
    = appended double_config (world_answering [])
        [Explicit "a" "gpt-4o" "function" true None None;
         Explicit "b" "gpt-5" "debug" false None None]
        (clock double_after_four) /\
  globalState
    (call_all double_config (world_answering [])
       [Explicit "a" "gpt-4o" "function" true None None;
        Explicit "b" "gpt-5" "debug" false None None]
       (after (clearFeedback double_after_four)))
    = appended double_config (world_answering [])
        [Explicit "a" "gpt-4o" "function" true None None;
         Explicit "b" "gpt-5" "debug" false None None]
        (clock double_after_four) /\
  FeedbackStats.total
    (getFeedbackStats
       (feedbackLog
          (call_all double_config (world_answering [])
             [Explicit "a" "gpt-4o" "function" true None None;
              Explicit "b" "gpt-5" "debug" false None None]
             (after (clearFeedback double_after_four)))))
    = 2%nat.
Proof.
  apply (X27_recordings_after_clearFeedback double_config (world_answering [])
           [Explicit "a" "gpt-4o" "function" true None None;
            Explicit "b" "gpt-5" "debug" false None None]
           double_after_four).
  cbn. lia.
Defined.

(* ================================================================== *)
(** ** Sessions whose credits are whole numbers *)
(* ================================================================== *)

Section DoubleIntegerFacts.

Lemma upto_In : forall len start x,
  (start <= x < start + Z.of_nat len)%Z -> In x (DoubleIntegers.upto len start).
Proof.
  induction len as [| n IH]; intros start x H; cbn [DoubleIntegers.upto].
  - lia.
  - destruct (Z.eq_dec start x) as [E | E]; [left; exact E | right].
    apply IH. lia.
Qed.

(** The additions of the whole numbers up to 3000 are exact in the
    doubles. *)
Lemma double_integers : ExactIntegers float 3000.
Proof.
  assert (Hcheck : DoubleIntegers.adds_exact 3000 = true) by (vm_compute; reflexivity).
  unfold DoubleIntegers.adds_exact in Hcheck. rewrite forallb_forall in Hcheck.
  constructor.
  - intros a b Ha Hb Hab.
    assert (Hin : In a (DoubleIntegers.upto (Z.to_nat (3000 + 1)) 0)) by (apply upto_In; lia).
    specialize (Hcheck a Hin). apply andb_true_iff in Hcheck. destruct Hcheck as [_ Hrow].
    rewrite forallb_forall in Hrow.
    apply FloatAxioms.Leibniz.eqb_spec. apply Hrow. apply upto_In. lia.
  - intros a Ha.
    assert (Hin : In a (DoubleIntegers.upto (Z.to_nat (3000 + 1)) 0)) by (apply upto_In; lia).
    specialize (Hcheck a Hin). apply andb_true_iff in Hcheck. destruct Hcheck as [Hz _].
    apply orb_true_iff in Hz. destruct Hz as [Hz | Hz].
    + apply Z.eqb_eq in Hz. lia.
    + apply negb_true_iff in Hz. exact Hz.
Qed.

End DoubleIntegerFacts.

Section WholeCreditsProps.
Context {num : Type} {NUM : JsNumber num} {CM : CaseMapping}.

Lemma perform_all_app : forall (a b : list Action) (m : Machine num),
  perform_all (a ++ b) m = perform_all b (perform_all a m).
Proof.
  induction a as [| x a IH]; intros b m; cbn [app perform_all]; [reflexivity | apply IH].
Qed.

Lemma keys_grow : forall V (k k' : string) (v : V) (o : Obj V),
  In k (keys o) -> In k (keys (obj_set k' v o)).
Proof.
  intros V k k' v o H. rewrite keys_obj_set.
  destruct (existsb (String.eqb k') (keys o)); [exact H | apply in_or_app; left; exact H].
Qed.

Lemma key_set : forall V (k : string) (v : V) (o : Obj V), In k (keys (obj_set k v o)).
Proof.
  intros V k v o. rewrite keys_obj_set.
  destruct (existsb (String.eqb k) (keys o)) eqn:E.
  - apply existsb_eqb_In. exact E.
  - apply in_or_app. right. left. reflexivity.
Qed.

(** The multipliers of the catalog outside the cheap tier are 0, 1 and 3. *)
Lemma whole_multiplier : forall sel : ModelDefinition num,
  getModel (id sel) = Some sel ->
  match creditTier sel with cheap => false | _ => true end = true ->
  exists c : Z, (0 <= c <= 3)%Z /\ creditMultiplier sel = nint c.
Proof.
  intros sel Hcat Htier. unfold getModel in Hcat. apply find_some in Hcat.
  destruct Hcat as [Hin _]. unfold MODELS in Hin. cbn [In] in Hin.
  repeat (destruct Hin as [Hin | Hin];
          [subst sel; cbn in Htier;
           first [discriminate Htier | eexists; split; [| reflexivity]; lia] |]).
  destruct Hin.
Qed.

Section Exact.
Variable bound : Z.
Context {EI : ExactIntegers num bound}.

Lemma or_zero_int : forall v : Z, (0 <= v <= bound)%Z -> or_zero (Some (nint v)) = nint v.
Proof.
  intros v Hv. unfold or_zero. destruct (Z.eq_dec v 0) as [E | E].
  - subst v. destruct (nfalsy (nint 0)); reflexivity.
  - rewrite int_truthy by lia. reflexivity.
Qed.

Lemma int_total_nonneg : forall cs, nonneg_table cs -> (0 <= int_total cs)%Z.
Proof.
  intros cs H. induction H as [| kc cs Hkc _ IH]; unfold int_total; cbn; [lia |].
  unfold int_total in IH. lia.
Qed.

(** Adding a whole number under a key of a table of whole numbers gives
    a table of whole numbers, whose total has grown by it. *)
Lemma int_table_add : forall k (c : Z) cs,
  nonneg_table cs -> (0 <= c)%Z -> (int_total cs + c <= bound)%Z ->
  exists cs',
    obj_set k (nadd (or_zero (obj_get k (int_table (num := num) cs))) (nint c)) (int_table cs)
      = int_table cs' /\
    nonneg_table cs' /\ int_total cs' = (int_total cs + c)%Z.
Proof.
  intros k c cs Hnn Hc Hb. induction Hnn as [| [k0 v0] cs Hv Hnn IH].
  - exists [(k, c)]. cbn [int_table map obj_get obj_set or_zero fst snd].
    change (nzero (num := num)) with (nint (num := num) 0).
    assert (Hb0 : (0 + c <= bound)%Z) by exact Hb.
    rewrite int_add by lia. cbn [Z.add].
    split; [reflexivity |]. split; [repeat constructor; exact Hc |].
    unfold int_total. cbn. lia.
  - cbn [snd] in Hv. pose proof (int_total_nonneg cs Hnn) as Hpos.
    assert (Hsplit : int_total ((k0, v0) :: cs) = (v0 + int_total cs)%Z) by reflexivity.
    rewrite Hsplit in Hb.
    cbn [int_table map obj_get obj_set fst snd].
    destruct (String.eqb k0 k) eqn:E.
    + exists ((k, (v0 + c)%Z) :: cs).
      rewrite or_zero_int by lia. rewrite int_add by lia.
      split; [reflexivity |]. split; [constructor; [cbn; lia | exact Hnn] |].
      unfold int_total. cbn. unfold int_total in Hsplit. lia.
    + destruct IH as (cs' & Hset & Hnn' & Htot); [lia |].
      exists ((k0, v0) :: cs'). fold (int_table (num := num) cs).
      rewrite Hset. split; [reflexivity |].
      split; [constructor; [exact Hv | exact Hnn'] |].
      unfold int_total in *. cbn. lia.
Qed.

Lemma fold_int_table : forall cs (a : Z),
  nonneg_table cs -> (0 <= a)%Z -> (a + int_total cs <= bound)%Z ->
  fold_left nadd (obj_values (int_table (num := num) cs)) (nint a) = nint (a + int_total cs).
Proof.
  intros cs a Hnn. revert a. induction Hnn as [| [k v] cs Hv Hnn IH]; intros a Ha Hb.
  - unfold int_total. cbn. rewrite Z.add_0_r. reflexivity.
  - cbn [snd] in Hv. pose proof (int_total_nonneg cs Hnn) as Hpos.
    assert (Hsplit : int_total ((k, v) :: cs) = (v + int_total cs)%Z) by reflexivity.
    rewrite Hsplit in *.
    cbn [int_table map obj_values fold_left fst snd].
    rewrite int_add by lia.
    fold (int_table (num := num) cs). fold (obj_values (int_table (num := num) cs)).
    rewrite IH by lia. f_equal. lia.
Qed.

Lemma sum_int_table : forall cs,
  nonneg_table cs -> (int_total cs <= bound)%Z ->
  sum_values (int_table (num := num) cs) = nint (int_total cs).
Proof.
  intros cs Hnn Hb. unfold sum_values.
  change (nzero (num := num)) with (nint (num := num) 0).
  rewrite fold_int_table by (try assumption; lia). reflexivity.
Qed.

(** The counters of a session: the number of requests and the counts by
    task type are whole numbers, and the first is the total of the
    second. *)
Lemma run_counts : forall (acts : list Action) (cfg : Config num) stored,
  (Z.of_nat (List.length acts) <= bound)%Z ->
  exists ts,
    taskTypes (sessionStats (perform_all acts (activate cfg stored))) = int_table ts /\
    nonneg_table ts /\ (int_total ts <= Z.of_nat (List.length acts))%Z /\
    requestCount (sessionStats (perform_all acts (activate cfg stored)))
      = nint (int_total ts).
Proof.
  intros acts cfg stored. induction acts as [| a acts IH] using rev_ind; intro Hb.
  - exists []. repeat split; [constructor | cbn; lia].
  - rewrite length_app in Hb. cbn [List.length] in Hb.
    destruct IH as (ts & Htab & Hnn & Hle & Hcount); [lia |].
    rewrite perform_all_app. cbn [perform_all].
    set (m1 := perform_all acts (activate cfg stored)) in *.
    destruct (perform_outcome a m1) as [Hsame | (sel & t & cp & out & _ & Hnew)].
    + exists ts. rewrite Hsame. rewrite length_app. cbn [List.length].
      repeat split; try assumption. lia.
    + rewrite Hnew. unfold recordCompletion. cbn [taskTypes requestCount].
      rewrite Htab, Hcount.
      destruct (int_table_add (task_name t) 1 ts Hnn) as (ts' & Hset & Hnn' & Htot);
        [lia | lia |].
      exists ts'. rewrite Hset, Htot, length_app. cbn [List.length].
      split; [reflexivity |]. split; [exact Hnn' |]. split; [lia |].
      apply int_add; [apply int_total_nonneg; exact Hnn | lia | lia].
Qed.

Lemma whole_multipliers_before :
  forall (s : SessionStats num) sel t cleanPrompt out,
  whole_multipliers (recordCompletion s sel t cleanPrompt out) = true ->
  whole_multipliers s = true /\
  (getModel (id sel) = Some sel ->
   match creditTier sel with cheap => false | _ => true end = true).
Proof.
  intros s sel t cp out H. unfold whole_multipliers in *. rewrite forallb_forall in H.
  unfold recordCompletion in H. cbn [creditsByModel] in H. split.
  - apply forallb_forall. intros k Hk. apply H. apply keys_grow. exact Hk.
  - intro Hcat. specialize (H (id sel) (key_set _ _ _ _)). rewrite Hcat in H. exact H.
Qed.

(** The credits of a session in which no model of the cheap tier completed
    a request: the credits by model and the total are whole numbers, and
    the total of the first is the second. *)
Lemma run_credits : forall (acts : list Action) (cfg : Config num) stored,
  (3 * Z.of_nat (List.length acts) <= bound)%Z ->
  whole_multipliers (sessionStats (perform_all acts (activate cfg stored))) = true ->
  exists cs,
    creditsByModel (sessionStats (perform_all acts (activate cfg stored))) = int_table cs /\
    nonneg_table cs /\ (int_total cs <= 3 * Z.of_nat (List.length acts))%Z /\
    totalCreditsUsed (sessionStats (perform_all acts (activate cfg stored)))
      = nint (int_total cs).
Proof.
  intros acts cfg stored. induction acts as [| a acts IH] using rev_ind; intros Hb Hwhole.
  - exists []. repeat split; [constructor | cbn; lia].
  - rewrite length_app in Hb |- *. cbn [List.length] in Hb |- *.
    rewrite perform_all_app in Hwhole |- *. cbn [perform_all] in Hwhole |- *.
    set (m1 := perform_all acts (activate cfg stored)) in *.
    destruct (perform_outcome a m1) as [Hsame | (sel & t & cp & out & Hcat & Hnew)].
    + rewrite Hsame in Hwhole |- *.
      destruct IH as (cs & Htab & Hnn & Hle & Htotal); [lia | exact Hwhole |].
      exists cs. repeat split; try assumption. lia.
    + rewrite Hnew in Hwhole |- *.
      destruct (whole_multipliers_before _ _ _ _ _ Hwhole) as [Hbefore Htier].
      destruct IH as (cs & Htab & Hnn & Hle & Htotal); [lia | exact Hbefore |].
      destruct (whole_multiplier sel Hcat (Htier Hcat)) as (c & Hc & Hmult).
      unfold recordCompletion. cbn [creditsByModel totalCreditsUsed].
      rewrite Htab, Htotal, Hmult.
      destruct (int_table_add (id sel) c cs Hnn) as (cs' & Hset & Hnn' & Htot);
        [lia | lia |].
      exists cs'. rewrite Hset, Htot.
      split; [reflexivity |]. split; [exact Hnn' |]. split; [lia |].
      apply int_add; [apply int_total_nonneg; exact Hnn | lia | lia].
Qed.

Lemma run_balanced : forall (acts : list Action) (cfg : Config num) stored,
  (3 * Z.of_nat (List.length acts) <= bound)%Z ->
  whole_multipliers (sessionStats (perform_all acts (activate cfg stored))) = true ->
  balanced (sessionStats (perform_all acts (activate cfg stored))).
Proof.
  intros acts cfg stored Hb Hwhole.
  destruct (run_credits acts cfg stored Hb Hwhole) as (cs & Htab & Hnn & Hle & Htotal).
  unfold balanced. rewrite Htotal, Htab. symmetry. apply sum_int_table; [exact Hnn | lia].
Qed.

End Exact.

(** What a completed request does to the credits: the entry of the model
    it was executed with grows by the credit returned, the other entries
    read as before, and the total grows by the same credit. *)
Lemma completion_credits :
  forall (cfg : Config num) W request history m nm t credit rid m',
  handleChatRequest cfg W request history m = Ok (ResultDone nm t credit rid) m' ->
  exists sel,
    getModel (id sel) = Some sel /\ name sel = nm /\ creditMultiplier sel = credit /\
    obj_get (id sel) (creditsByModel (sessionStats m'))
      = Some (nadd (or_zero (obj_get (id sel) (creditsByModel (sessionStats m)))) credit) /\
    (forall k, k <> id sel ->
       obj_get k (creditsByModel (sessionStats m'))
         = obj_get k (creditsByModel (sessionStats m))) /\
    totalCreditsUsed (sessionStats m') = nadd (totalCreditsUsed (sessionStats m)) credit.
Proof.
  intros cfg W request history m nm t credit rid m' H.
  destruct (handleChatRequest_outcome cfg W request history m)
    as [(_ & _ & Hnot)
       | (sel & t0 & forcedId & cp & out & _ & _ & _ & _ & Hrun & Hnew & _ & Hcat & _)].
  { destruct (Hnot _ _ _ _ _ H). }
  rewrite H in Hrun, Hnew. cbn [after] in Hrun, Hnew. inversion Hrun; subst nm t0 credit rid.
  exists sel. rewrite Hnew. unfold recordCompletion. cbn [creditsByModel totalCreditsUsed].
  split; [exact Hcat |]. split; [reflexivity |]. split; [reflexivity |].
  split; [apply obj_get_set_same |].
  split; [intros k Hk; apply obj_get_set_other; exact Hk | reflexivity].
Qed.

End WholeCreditsProps.


